(** * davitpy radar tdiff: frequency-band tables and tdiff series

    A shallow embedding of [davitpy/pydarn/radar/tdiff/rad_freqbands_new.py]
    and [davitpy/pydarn/radar/tdiff/rad_tdiff.py].

    Python values are modelled as follows.
    - [int] is [Z]; [float] is the primitive binary64 [float]; [str] is
      [string]; [bool] is [bool]; [list] and one-dimensional numpy arrays
      are [list].
    - A call that may raise returns a [result]; code that mutates [self]
      before raising returns an [outcome], which keeps the mutated object.
    - A naive [datetime] is its position on the proleptic Gregorian time
      line in microseconds; this is the order Python compares them by.
    - [logging] calls are collected as a list of structured records. *)

From Stdlib Require Import ZArith List String Ascii Bool Lia.
From Stdlib Require Import Sorted Permutation.
From Stdlib Require Import PrimFloat Uint63.
Import ListNotations.
Local Open Scope string_scope.
Local Open Scope list_scope.
Local Open Scope Z_scope.

(** ** Exceptions *)

Inductive exn : Type :=
| KeyError
| IndexError
| AttributeError
| ValueError
| TypeError.

Inductive result (A : Type) : Type :=
| Ok (a : A)
| Raise (e : exn).
Arguments Ok {A} a.
Arguments Raise {A} e.

Definition bind {A B : Type} (r : result A) (k : A -> result B) : result B :=
  match r with
  | Ok a => k a
  | Raise e => Raise e
  end.

Declare Scope py_scope.
Delimit Scope py_scope with py.
Notation "x <- c ;; k" := (bind c (fun x => k))
  (at level 61, c at next level, right associativity) : py_scope.
Local Open Scope py_scope.

Definition of_option {A : Type} (e : exn) (o : option A) : result A :=
  match o with
  | Some a => Ok a
  | None => Raise e
  end.

Definition raises {A : Type} (r : result A) : Prop :=
  exists e, r = Raise e.

(** ** Logging *)

Inductive level : Type := ERROR | WARNING | INFO.

(** The message of each logging call of the two modules, with the values
    that the source formats into it. *)
Inductive message : Type :=
| UnknownTransmissionFreq (tfreq : Z)
| UnknownTransmissionFreqBand (tband : Z)
| NoBandForFrequency (tfreq : Z)
| UnknownRadar
| InvalidColumnNumber (all_cols : list Z)
| CantFormatTimes (time_fmt : string)
| ShortLinesRemoved (bad_lines : Z).

Definition log_record : Type := level * message.

(** ** Python sequences *)

Definition len {A : Type} (l : list A) : Z := Z.of_nat (List.length l).

(** [l[i]] for a list or a one-dimensional array: a negative index counts
    from the end, an index outside the sequence raises [IndexError]. *)
Definition py_index {A : Type} (l : list A) (i : Z) : result A :=
  let j := if i <? 0 then i + len l else i in
  if j <? 0 then Raise IndexError
  else of_option IndexError (nth_error l (Z.to_nat j)).

(** [a[idx]] for an array [a] and a sequence of integers [idx]. *)
Fixpoint np_take {A : Type} (a : list A) (idx : list Z) : result (list A) :=
  match idx with
  | [] => Ok []
  | i :: idx' =>
      x <- py_index a i ;;
      xs <- np_take a idx' ;;
      Ok (x :: xs)
  end.

Fixpoint np_where_from {A : Type} (p : A -> bool) (i : Z) (a : list A)
  : list Z :=
  match a with
  | [] => []
  | x :: a' =>
      if p x then i :: np_where_from p (i + 1) a'
      else np_where_from p (i + 1) a'
  end.

(** [np.where(cond)[0]]: the positions at which the condition holds. *)
Definition np_where {A : Type} (p : A -> bool) (a : list A) : list Z :=
  np_where_from p 0 a.

(** [l[idx]] for a Python list [l] and an integer array [idx]: numpy of the
    period converts an array of one element to that integer through
    [__index__]; any other size is a [TypeError]. *)
Definition list_index_array {A : Type} (l : list A) (idx : list Z)
  : result A :=
  match idx with
  | [i] => py_index l i
  | _ => Raise TypeError
  end.

(** [min(l)] and [max(l)] of a list of integers. *)
Definition py_min (l : list Z) : result Z :=
  match l with
  | [] => Raise ValueError
  | x :: l' => Ok (fold_left Z.min l' x)
  end.

Definition py_max (l : list Z) : result Z :=
  match l with
  | [] => Raise ValueError
  | x :: l' => Ok (fold_left Z.max l' x)
  end.

(** [d[k]] for a dictionary written as its list of items. *)
Fixpoint dict_get {K V : Type} (eqb : K -> K -> bool) (d : list (K * V))
  (k : K) : result V :=
  match d with
  | [] => Raise KeyError
  | (k', v) :: d' => if eqb k' k then Ok v else dict_get eqb d' k
  end.

Definition dict_keys {K V : Type} (d : list (K * V)) : list K :=
  map fst d.

(** ** Python strings *)

Definition lower_ascii (c : ascii) : ascii :=
  let n := N_of_ascii c in
  if ((65 <=? n) && (n <=? 90))%N then ascii_of_N (n + 32) else c.

(** [s.lower()] *)
Fixpoint str_lower (s : string) : string :=
  match s with
  | EmptyString => EmptyString
  | String c s' => String (lower_ascii c) (str_lower s')
  end.

(** [s.find(sub)] *)
Definition str_find (s sub : string) : Z :=
  match String.index 0 sub s with
  | Some n => Z.of_nat n
  | None => -1
  end.

(** The characters [str.split()] treats as white space. *)
Definition is_space (c : ascii) : bool :=
  let n := N_of_ascii c in
  ((n =? 32) || ((9 <=? n) && (n <=? 13)))%N.

Definition string_of_rev (cs : list ascii) : string :=
  string_of_list_ascii (rev cs).

Fixpoint split_ws_aux (cur : list ascii) (s : string) : list string :=
  match s with
  | EmptyString =>
      match cur with
      | [] => []
      | _ => [string_of_rev cur]
      end
  | String c s' =>
      if is_space c then
        match cur with
        | [] => split_ws_aux [] s'
        | _ => string_of_rev cur :: split_ws_aux [] s'
        end
      else split_ws_aux (c :: cur) s'
  end.

(** [skip] counts the characters of a separator found earlier that are
    still to be passed over. *)
Fixpoint split_sep_aux (sep : string) (skip : nat) (cur : list ascii)
  (s : string) : list string :=
  match s with
  | EmptyString => [string_of_rev cur]
  | String c s' =>
      match skip with
      | S k => split_sep_aux sep k cur s'
      | O =>
          if String.prefix sep s then
            string_of_rev cur
              :: split_sep_aux sep (String.length sep - 1)%nat [] s'
          else split_sep_aux sep O (c :: cur) s'
      end
  end.

(** [s.split(sep)]: [None] splits on runs of white space and drops empty
    fields, a string splits on each occurrence of it, and the empty
    separator is a [ValueError]. *)
Definition str_split (s : string) (sep : option string)
  : result (list string) :=
  match sep with
  | None => Ok (split_ws_aux [] s)
  | Some EmptyString => Raise ValueError
  | Some sep' => Ok (split_sep_aux sep' O [] s)
  end.

(** [bool(s)] for a string. *)
Definition str_bool (s : string) : bool :=
  match s with
  | EmptyString => false
  | _ => true
  end.

(** ** datetime *)

Definition datetime : Type := Z.

Definition is_leap (year : Z) : bool :=
  (year mod 4 =? 0) && (negb (year mod 100 =? 0) || (year mod 400 =? 0)).

Definition days_before_year (year : Z) : Z :=
  let y := year - 1 in
  y * 365 + y / 4 - y / 100 + y / 400.

Definition DAYS_BEFORE_MONTH : list Z :=
  [-1; 0; 31; 59; 90; 120; 151; 181; 212; 243; 273; 304; 334].

Definition days_before_month (year month : Z) : Z :=
  nth (Z.to_nat month) DAYS_BEFORE_MONTH 0
  + (if (2 <? month) && is_leap year then 1 else 0).

Definition ymd2ord (year month day : Z) : Z :=
  days_before_year year + days_before_month year month + day.

(** [dt.datetime(year, month, day, hour, minute, second)] *)
Definition dt_datetime (year month day hour minute second : Z) : datetime :=
  (((ymd2ord year month day * 24 + hour) * 60 + minute) * 60 + second)
  * 1000000.

(** ** Input values *)

(** What a caller may pass as the [rad] argument. *)
Inductive pyval : Type :=
| PyNone
| PyInt (n : Z)
| PyStr (s : string).

(** [rad.lower()] *)
Definition py_lower (v : pyval) : result string :=
  match v with
  | PyStr s => Ok (str_lower s)
  | _ => Raise AttributeError
  end.

(** The library conversions [datetime.strptime], [int] and [float] on
    strings. They are not part of the two modules; the loader is stated
    over any implementation of them. [None] is the raised [ValueError]. *)
Record pylib : Type := {
  strptime : string -> string -> option datetime;
  str_int : string -> option Z;
  str_float : string -> option float
}.

(** * rad_freqbands *)

Module FreqBands.

(** ** The catalogs *)

Definition rad_band_time : list (string * list (Z * (datetime * datetime))) :=
  [
   ("gbr", [(0, (dt_datetime 1995 1 1 0 0 0, dt_datetime 3000 1 1 0 0 0))]);
   ("hal", [(0, (dt_datetime 1995 1 1 0 0 0, dt_datetime 3000 1 1 0 0 0))]);
   ("han", [(0, (dt_datetime 1995 1 1 0 0 0, dt_datetime 3000 1 1 0 0 0))]);
   ("kap", [(0, (dt_datetime 1995 1 1 0 0 0, dt_datetime 3000 1 1 0 0 0))]);
   ("kod", [(0, (dt_datetime 1995 1 1 0 0 0, dt_datetime 2009 10 1 0 0 0));
           (1, (dt_datetime 2010 8 30 0 0 0, dt_datetime 2010 9 6 23 59 59));
           (2, (dt_datetime 2010 9 7 0 0 0, dt_datetime 3000 1 1 0 0 0))]);
   ("ksr", [(0, (dt_datetime 1995 1 1 0 0 0, dt_datetime 2004 10 1 0 0 0));
           (1, (dt_datetime 2007 8 30 0 0 0, dt_datetime 3000 1 1 0 0 0))]);
   ("pgr", [(0, (dt_datetime 1995 1 1 0 0 0, dt_datetime 2001 10 2 0 0 0));
           (1, (dt_datetime 2004 8 30 0 0 0, dt_datetime 2004 10 1 0 0 0));
           (2, (dt_datetime 2007 8 30 0 0 0, dt_datetime 2007 10 1 0 0 0));
           (3, (dt_datetime 2009 8 30 0 0 0, dt_datetime 3000 1 1 0 0 0))]);
   ("pyk", [(0, (dt_datetime 1995 1 1 0 0 0, dt_datetime 3000 1 1 0 0 0))]);
   ("sas", [(0, (dt_datetime 1995 1 1 0 0 0, dt_datetime 3000 1 1 0 0 0))]);
   ("sto", [(0, (dt_datetime 1995 1 1 0 0 0, dt_datetime 3000 1 1 0 0 0))])
  ].

Definition rad_band_num : list (string * list (Z * list Z)) :=
  [
   ("gbr",
     [(0, [0; 1; 2; 3; 4; 5; 6; 7; 8; 9; 10; 11; 12; 13; 14; 15; 16; 17; 18; 19;
          20; 21; 22; 23; 24; 25])]);
   ("hal",
     [(0, [0; 1; 2; 3; 4; 5; 6; 7; 8; 9; 10; 11; 12; 13; 14; 15; 16; 17; 18; 19;
          20; 21; 22; 23; 24; 25; 26; 27; 28; 29; 30; 31; 32; 33; 34])]);
   ("han",
     [(0, [0; 1; 2; 3; 4; 5; 6; 7; 8; 9; 10; 11; 12; 13; 14])]);
   ("kap",
     [(0, [37; 38; 39; 40; 11; 12; 13; 14; 15; 16; 17; 18; 19; 20; 21; 22; 23;
          24; 25; 26; 27; 28; 29])]);
   ("kod",
     [(0, [0; 1; 2; 3; 4; 5; 6; 7; 8; 9; 10; 11; 12; 13; 14; 15; 16; 17; 18; 19;
          20; 21; 22; 23; 24; 25; 26]);
      (1, [27; 28; 29; 30; 31; 32; 33; 34; 35; 36; 37; 38; 39; 12; 13; 14; 15;
          16; 17; 18; 19; 20; 21; 22; 23; 24; 25; 26]);
      (2, [0; 1; 2; 3; 4; 5; 6; 7; 8; 9; 10; 11; 12; 13; 14; 15; 16; 17; 18; 19;
          20; 21; 22; 23; 24; 25; 26])]);
   ("ksr",
     [(0, [0; 1; 2; 3; 4; 5; 6; 7; 8; 9; 10; 11; 12; 13; 14; 15; 16; 17; 41; 42;
          43; 22; 44; 45; 26; 27; 46; 47; 48; 32; 33; 34; 35; 36]);
      (1, [0; 1; 2; 3; 4; 5; 6; 7; 8; 9; 10; 11; 12; 13; 14; 15; 16; 17; 18; 19;
          20; 21; 22; 23; 24; 25; 26; 27; 28; 29; 30; 31; 32; 33; 34; 35;
          36])]);
   ("pgr",
     [(0, [0; 1; 2; 3; 4; 5; 6; 7; 8; 9; 10; 11; 12; 13; 14; 15; 16; 17; 18; 19;
          20; 21; 22; 23; 24; 25; 26; 27; 28; 29; 30; 31; 32; 33; 34; 35;
          36; 37; 38; 39; 40]);
      (1, [0; 1; 2; 3; 4; 5; 41; 42; 43; 9; 10; 11; 12; 44; 45; 46; 47; 48; 49;
          50; 21; 22; 51; 52; 53; 54; 28; 29; 30; 31; 32; 33; 34; 35; 36;
          37; 38; 39; 40]);
      (2, [0; 1; 2; 3; 4; 5; 55; 56; 57; 58; 59; 60; 61; 44; 45; 46; 47; 62; 63;
          64; 65; 66; 22; 51; 52; 53; 54; 28; 29; 30; 31; 32; 33; 34; 35;
          36; 37; 38; 39; 40]);
      (3, [0; 1; 2; 3; 4; 5; 41; 42; 43; 9; 10; 67; 68; 61; 44; 45; 46; 47; 62;
          63; 21; 22; 51; 52; 53; 54; 28; 29; 30; 31; 32; 33; 34; 35; 36;
          37; 38; 39; 40])]);
   ("pyk",
     [(0, [0; 1; 2; 3; 4; 5; 6; 7; 8; 9; 10; 11; 12; 13; 14; 15; 16; 17; 18])]);
   ("sas",
     [(0, [0; 1; 2; 3; 4; 5; 6; 7; 8; 9; 10; 11; 12; 13; 14; 15; 16; 17; 18; 19;
          20; 21; 22; 23; 24; 25; 26; 27; 28; 29; 30; 31])]);
   ("sto",
     [(0, [0; 1; 2; 3; 4; 5; 6; 7; 8; 9; 10; 11; 12; 13; 14; 15; 16; 17; 18; 19;
          20; 21; 22])])
  ].

Definition rad_min : list (string * list Z) :=
  [
   ("gbr", [8900; 9201; 9500; 9966; 10199; 10698; 10900; 11199; 11696;
           11900; 12201; 12501; 12801; 13291; 13592; 13989; 14199; 14500;
           15040; 15400; 15840; 16141; 16399; 16900; 17400; 17871]);
   ("hal", [8000; 8350; 8700; 9000; 9350; 9700; 10000; 10350; 10700; 11000;
           11350; 11651; 12000; 12300; 12650; 13000; 13350; 13700; 14000;
           14350; 14651; 15000; 15350; 15651; 16000; 16350; 16700; 17000;
           17350; 17700; 18000; 18350; 18700; 19000; 19350; 19700]);
   ("han", [8305; 8965; 9900; 11075; 11550; 12370; 13200; 15010; 16210;
           16555; 17970; 18850; 19415; 19705; 19800]);
   ("kap", [8900; 9201; 9600; 9966; 10200; 10501; 10701; 11000; 11430;
           11800; 12100; 12400; 12700; 13000; 13301; 13551; 13971; 14380;
           14701; 15100; 15400; 15840; 16141; 16399; 16900; 17400; 17871;
           18000; 18350; 18700]);
   ("kod", [8200; 8700; 9200; 9700; 10200; 10701; 11300; 11800; 12300;
           12800; 13300; 13800; 14500; 15000; 15500; 16100; 16600; 17100;
           17600; 18100; 18600; 19100; 19600; 20100; 20600; 21100; 21600;
           8000; 8500; 9000; 9500; 10000; 10500; 11000; 11500; 12000;
           12500; 13000; 13500; 14000]);
   ("ksr", [8000; 8400; 8700; 9000; 9300; 9600; 9900; 10200; 10500; 10800;
           11100; 11400; 11700; 12000; 12300; 12600; 12900; 13400; 13700;
           14100; 14500; 14800; 15000; 15300; 15700; 16000; 16400; 16900;
           17400; 17900; 18400; 18900; 19400; 19900; 20400; 20900; 21400;
           8000; 9000; 10000; 11000; 13700; 14001; 14300; 15300; 15600;
           17400; 18100; 18800]);
   ("pgr", [8016; 8317; 8618; 9000; 9301; 9487; 9901; 10200; 10501; 10900;
           11000; 11300; 11700; 12001; 12995; 13100; 13500; 13801; 14101;
           14500; 14800; 15101; 15500; 15900; 16200; 16501; 16900; 17200;
           17500; 17800; 18000; 18301; 18701; 19000; 19300; 19600; 19900;
           20200; 20500; 20800; 21100; 9901; 10300; 10601; 12001; 12995;
           13300; 13600; 14000; 14301; 14600; 15900; 16300; 16701; 17000;
           9901; 10000; 10400; 10800; 11000; 11400; 11800; 14000; 14400;
           14700; 15000; 15400; 11100; 11500]);
   ("pyk", [8000; 8430; 8985; 10155; 10656; 11290; 11475; 12105; 12305;
           12590; 13360; 13875; 14400; 15805; 16500; 16820; 18175; 18835;
           19910]);
   ("sas", [8000; 8907; 9208; 9600; 10100; 10499; 11000; 11300; 11600;
           12300; 12995; 13416; 13800; 14100; 14400; 14701; 15002; 15390;
           15801; 16100; 16400; 16701; 17000; 17300; 17600; 17900; 18200;
           18500; 18800; 19100; 19400; 19700]);
   ("sto", [8202; 8900; 9200; 9501; 10000; 11100; 11401; 11800; 12301;
           12801; 13100; 13501; 13901; 14400; 14901; 16100; 16689; 16799;
           17910; 18778; 19674])
  ].

Definition rad_max : list (string * list Z) :=
  [
   ("gbr", [9200; 9499; 9965; 10198; 10697; 10899; 11198; 11695; 11899;
           12200; 12500; 12800; 13290; 13591; 13988; 14198; 14499; 14960;
           15399; 15700; 16140; 16398; 16899; 17399; 17870; 18000]);
   ("hal", [8349; 8699; 8999; 9249; 9699; 9999; 10349; 10699; 10999; 11349;
           11650; 11999; 12299; 12949; 12999; 13349; 13699; 13999; 14349;
           14650; 14999; 15349; 15650; 15999; 16349; 16699; 16999; 17349;
           17699; 17999; 18349; 18699; 18999; 19349; 20000]);
   ("han", [8335; 9040; 9985; 11275; 11600; 12415; 13260; 15080; 16360;
           16615; 18050; 18865; 19680; 19755; 19990]);
   ("kap", [9200; 9599; 9965; 10199; 10500; 10700; 10999; 11429; 11799;
           12099; 12399; 12699; 12999; 13300; 13550; 13970; 14379; 14700;
           15099; 15399; 15700; 16140; 16398; 16899; 17399; 17870; 17999;
           18349; 18699; 19000]);
   ("kod", [8699; 9199; 9699; 10199; 10700; 11299; 11799; 12299; 12799;
           13299; 13799; 14499; 14999; 15499; 16099; 16599; 17099; 17599;
           18099; 18599; 19099; 19599; 20099; 20599; 21099; 21599; 22100;
           8499; 8999; 9499; 9999; 10499; 10999; 11499; 11999; 12499;
           12999; 13499; 13999; 14499]);
   ("ksr", [8399; 8699; 8999; 9299; 9599; 9899; 10199; 10499; 10799; 11099;
           11399; 11699; 11999; 12299; 12599; 12899; 13399; 13699; 14099;
           14499; 14799; 14999; 15299; 15699; 15999; 16399; 16899; 17399;
           17899; 18399; 18899; 19399; 19899; 20399; 20899; 21399; 21900;
           8999; 9999; 10999; 11399; 14000; 14299; 14999; 15599; 16399;
           18099; 18799; 19399]);
   ("pgr", [8316; 8617; 8999; 9300; 9486; 9900; 10199; 10500; 10899; 10999;
           11299; 11699; 12000; 12994; 13099; 13499; 13800; 14100; 14499;
           14799; 15100; 15499; 15899; 16199; 16500; 16899; 17199; 17499;
           17799; 17999; 18300; 18700; 18999; 19299; 19599; 19899; 20199;
           20499; 20799; 21099; 21300; 10299; 10600; 10899; 12996; 13299;
           13599; 13999; 14300; 14599; 15100; 16299; 16700; 16999; 17499;
           9999; 10399; 10799; 10999; 11399; 11799; 12000; 14399; 14699;
           14999; 15399; 11499; 11799]);
   ("pyk", [8195; 8850; 9395; 10655; 11175; 11450; 11595; 12235; 12510;
           13280; 13565; 13995; 15015; 16365; 16685; 17475; 18770; 18885;
           20000]);
   ("sas", [8300; 9207; 9599; 9900; 10498; 10999; 11299; 11599; 12000;
           12600; 13355; 13799; 14099; 14399; 14700; 15001; 15389; 15800;
           16099; 16399; 16700; 16999; 17299; 17599; 17899; 18199; 18499;
           18799; 19099; 19399; 19699; 19985]);
   ("sto", [8500; 9199; 9500; 9900; 10300; 11400; 11799; 12300; 12800;
           13099; 13500; 13900; 14399; 14900; 15400; 16455; 16748; 16815;
           17990; 18905; 19686])
  ].

Definition id_to_code : list (Z * string) :=
  [(1, "gbr"); (2, "sch"); (3, "kap"); (4, "hal"); (5, "sas"); (6, "pgr");
   (7, "kod"); (8, "sto"); (9, "pyk"); (10, "han"); (11, "san");
   (12, "sys"); (13, "sye"); (14, "tig"); (15, "ker"); (16, "ksr");
   (18, "unw"); (20, "mcm"); (21, "fir"); (32, "wal"); (33, "bks");
   (40, "hok"); (64, "inv"); (65, "rkn"); (90, "lyr"); (128, "spe");
   (209, "ade"); (208, "adw")].

(** [id_to_code.has_key(rad)]: the keys are integers, so only an integer
    can be one of them. *)
Definition has_key (rad : pyval) : bool :=
  match rad with
  | PyInt n => existsb (Z.eqb n) (dict_keys id_to_code)
  | _ => false
  end.

(** A catalog keyed by radar code, indexed by [self.rad_code]. *)
Definition by_code {V : Type} (d : list (string * V)) (rad_code : pyval)
  : result V :=
  match rad_code with
  | PyStr s => dict_get String.eqb d s
  | _ => Raise KeyError
  end.

(** ** class radFreqBands *)

Record radFreqBands : Type := {
  rad_code : pyval;
  stid : option Z;
  stime : datetime;
  etime : datetime;
  tbands : list Z;
  tmins : list Z;
  tmaxs : list Z
}.

(** The loop of [__init__] over [id_to_code.keys()]; [rad.lower()] is
    evaluated at each key. The keys are visited here in the order of the
    source text; the codes of the catalog are distinct, so the station
    found is the same in every order. *)
Fixpoint find_stid (keys : list Z) (rad : pyval) : result (option Z) :=
  match keys with
  | [] => Ok None
  | k :: keys' =>
      code <- dict_get Z.eqb id_to_code k ;;
      low <- py_lower rad ;;
      if String.eqb code low then Ok (Some k) else find_stid keys' rad
  end.

(** The first part of [__init__]: "Assign the radar IDs". *)
Definition assign_ids (rad : pyval) : result (pyval * option Z) :=
  if has_key rad then
    match rad with
    | PyInt n =>
        code <- dict_get Z.eqb id_to_code n ;;
        Ok (PyStr code, Some n)
    | _ => Raise KeyError
    end
  else
    match rad with
    | PyNone => Ok (rad, None)
    | _ =>
        s <- find_stid (dict_keys id_to_code) rad ;;
        Ok (rad, s)
    end.

(** The loop of [get_time_key] over the versions of one radar, in the
    order the dictionary gives them. *)
Fixpoint scan_time_key (versions : list (Z * (datetime * datetime)))
  (rtime : datetime) : Z :=
  match versions with
  | [] => -1
  | (tkey, (t0, t1)) :: versions' =>
      if (t0 <=? rtime) && (t1 >? rtime) then tkey
      else scan_time_key versions' rtime
  end.

(** [get_time_key] over a given time catalog. *)
Definition get_time_key_in
  (band_time : list (string * list (Z * (datetime * datetime))))
  (code : pyval) (rtime : datetime) : result Z :=
  versions <- by_code band_time code ;;
  Ok (scan_time_key versions rtime).

Definition get_time_key (self_rad_code : pyval) (rtime : datetime)
  : result Z :=
  get_time_key_in rad_band_time self_rad_code rtime.

(** The body of the [try] of [__init__]. *)
Definition assign_bands (code : pyval) (rtime : datetime)
  : result (datetime * datetime * list Z * list Z * list Z) :=
  tkey <- get_time_key code rtime ;;
  times <- by_code rad_band_time code ;;
  limits <- dict_get Z.eqb times tkey ;;
  nums <- by_code rad_band_num code ;;
  bands <- dict_get Z.eqb nums tkey ;;
  mins <- by_code rad_min code ;;
  tmins <- np_take mins bands ;;
  maxs <- by_code rad_max code ;;
  tmaxs <- np_take maxs bands ;;
  Ok (fst limits, snd limits, bands, tmins, tmaxs).

(** [radFreqBands(rad, rtime)] *)
Definition init (rad : pyval) (rtime : datetime) : result radFreqBands :=
  ids <- assign_ids rad ;;
  let (code, sid) := ids in
  match assign_bands code rtime with
  | Ok (t0, t1, bands, mins, maxs) =>
      Ok {| rad_code := code; stid := sid; stime := t0; etime := t1;
            tbands := bands; tmins := mins; tmaxs := maxs |}
  | Raise _ =>
      Ok {| rad_code := code; stid := sid; stime := rtime; etime := rtime;
            tbands := []; tmins := []; tmaxs := [] |}
  end.

(** The loop of [get_tband_max_min]; [i] is the position of the head of
    [mins] in [self.tmins]. *)
Fixpoint scan_max_min (self : radFreqBands) (tfreq : Z) (i : Z)
  (mins : list Z) : result (option (Z * Z)) :=
  match mins with
  | [] => Ok None
  | t :: mins' =>
      if tfreq - t >=? 0 then
        m <- py_index (tmaxs self) i ;;
        if m - tfreq >=? 0 then Ok (Some (t, m))
        else scan_max_min self tfreq (i + 1) mins'
      else scan_max_min self tfreq (i + 1) mins'
  end.

Definition get_tband_max_min (self : radFreqBands) (tfreq : Z)
  : result (Z * Z * list log_record) :=
  found <- scan_max_min self tfreq 0 (tmins self) ;;
  match found with
  | Some (t, m) => Ok (t, m, [])
  | None => Ok (-1, -1, [(WARNING, UnknownTransmissionFreq tfreq)])
  end.

(** [int((a + b) / 2.0)]: the division is exact in binary64 for the
    frequencies of the catalogs (well below 2^53) and [int] truncates
    toward zero. *)
Definition int_half (s : Z) : Z := Z.quot s 2.

Definition get_mean_tband_freq (self : radFreqBands) (tband : Z)
  : result (Z * list log_record) :=
  if len (tmins self) >? tband then
    hi <- py_index (tmaxs self) tband ;;
    lo <- py_index (tmins self) tband ;;
    Ok (int_half (hi + lo), [])
  else Ok (-1, [(WARNING, UnknownTransmissionFreqBand tband)]).



End FreqBands.

(** * rad_tdiff *)

Module Tdiff.

(** ** class radTdiff *)

Record radTdiff : Type := {
  tdiff_file : option string;
  rad_code : pyval;
  stid : option Z;
  tbands : list Z;
  stimes : list datetime;
  etimes : list datetime;
  est_tdiffs : list float;
  tdiff_errs : list float;
  validated : list bool
}.

(** [self.stimes.append(t)] and its five companions. *)
Definition append_stime (self : radTdiff) (t : datetime) : radTdiff :=
  {| tdiff_file := tdiff_file self; rad_code := rad_code self;
     stid := stid self; tbands := tbands self;
     stimes := stimes self ++ [t]; etimes := etimes self;
     est_tdiffs := est_tdiffs self; tdiff_errs := tdiff_errs self;
     validated := validated self |}.

Definition append_etime (self : radTdiff) (t : datetime) : radTdiff :=
  {| tdiff_file := tdiff_file self; rad_code := rad_code self;
     stid := stid self; tbands := tbands self;
     stimes := stimes self; etimes := etimes self ++ [t];
     est_tdiffs := est_tdiffs self; tdiff_errs := tdiff_errs self;
     validated := validated self |}.

Definition append_tband (self : radTdiff) (b : Z) : radTdiff :=
  {| tdiff_file := tdiff_file self; rad_code := rad_code self;
     stid := stid self; tbands := tbands self ++ [b];
     stimes := stimes self; etimes := etimes self;
     est_tdiffs := est_tdiffs self; tdiff_errs := tdiff_errs self;
     validated := validated self |}.

Definition append_est_tdiff (self : radTdiff) (x : float) : radTdiff :=
  {| tdiff_file := tdiff_file self; rad_code := rad_code self;
     stid := stid self; tbands := tbands self;
     stimes := stimes self; etimes := etimes self;
     est_tdiffs := est_tdiffs self ++ [x]; tdiff_errs := tdiff_errs self;
     validated := validated self |}.

Definition append_tdiff_err (self : radTdiff) (x : float) : radTdiff :=
  {| tdiff_file := tdiff_file self; rad_code := rad_code self;
     stid := stid self; tbands := tbands self;
     stimes := stimes self; etimes := etimes self;
     est_tdiffs := est_tdiffs self; tdiff_errs := tdiff_errs self ++ [x];
     validated := validated self |}.

Definition append_validated (self : radTdiff) (v : bool) : radTdiff :=
  {| tdiff_file := tdiff_file self; rad_code := rad_code self;
     stid := stid self; tbands := tbands self;
     stimes := stimes self; etimes := etimes self;
     est_tdiffs := est_tdiffs self; tdiff_errs := tdiff_errs self;
     validated := validated self ++ [v] |}.

(** A call that may raise after it has changed [self]. *)
Inductive outcome (S : Type) : Type :=
| Returns (s : S)
| Raises (e : exn) (s : S).
Arguments Returns {S} s.
Arguments Raises {S} e s.

Definition final {S : Type} (o : outcome S) : S :=
  match o with
  | Returns s => s
  | Raises _ s => s
  end.

(** ** load_tdiff *)

(** What the loop over the file lines carries. *)
Record loading : Type := {
  self : radTdiff;
  bad_lines : Z;
  log : list log_record
}.

Definition on_self (f : radTdiff -> radTdiff) (st : loading) : loading :=
  {| self := f (self st); bad_lines := bad_lines st; log := log st |}.

(** The [except] branch: warn, count the line, [continue]. *)
Definition except_bad_times (time_fmt : string) (st : loading) : loading :=
  {| self := self st; bad_lines := bad_lines st + 1;
     log := log st ++ [(WARNING, CantFormatTimes time_fmt)] |}.

Definition count_bad_line (st : loading) : loading :=
  {| self := self st; bad_lines := bad_lines st + 1; log := log st |}.

(** [time_str]: the designated columns joined by single spaces. *)
Definition time_string (fdata : list string) (cols : list Z)
  : result string :=
  match cols with
  | [] => Raise IndexError
  | c0 :: cols' =>
      fold_left
        (fun acc icol =>
           time_str <- acc ;;
           x <- py_index fdata icol ;;
           Ok (String.append time_str (String.append " " x)))
        cols' (py_index fdata c0)
  end.

Section Loader.

Variable lib : pylib.
Variables tdiff_col terr_col tband_col val_col : Z.
Variables stime_cols etime_cols : list Z.
Variable time_fmt : string.
Variable split_col : option string.

Definition parse_time (fdata : list string) (cols : list Z)
  : result datetime :=
  time_str <- time_string fdata cols ;;
  of_option ValueError (strptime lib time_str time_fmt).

Definition cast_int (fdata : list string) (col : Z) : result Z :=
  x <- py_index fdata col ;;
  of_option ValueError (str_int lib x).

Definition cast_float (fdata : list string) (col : Z) : result float :=
  x <- py_index fdata col ;;
  of_option ValueError (str_float lib x).

Definition cast_bool (fdata : list string) (col : Z) : result bool :=
  x <- py_index fdata col ;;
  Ok (str_bool x).

(** The [else] branch for a line with enough columns. *)
Definition load_fields (st : loading) (fdata : list string)
  : outcome loading :=
  match parse_time fdata stime_cols with
  | Raise _ => Returns (except_bad_times time_fmt st)
  | Ok t0 =>
      let st := on_self (fun o => append_stime o t0) st in
      match parse_time fdata etime_cols with
      | Raise _ => Returns (except_bad_times time_fmt st)
      | Ok t1 =>
          let st := on_self (fun o => append_etime o t1) st in
          match cast_int fdata tband_col with
          | Raise e => Raises e st
          | Ok b =>
              let st := on_self (fun o => append_tband o b) st in
              match cast_float fdata tdiff_col with
              | Raise e => Raises e st
              | Ok x =>
                  let st := on_self (fun o => append_est_tdiff o x) st in
                  match cast_float fdata terr_col with
                  | Raise e => Raises e st
                  | Ok y =>
                      let st := on_self (fun o => append_tdiff_err o y) st in
                      match cast_bool fdata val_col with
                      | Raise e => Raises e st
                      | Ok v =>
                          Returns (on_self (fun o => append_validated o v) st)
                      end
                  end
              end
          end
      end
  end.

(** The body of the loop for one file line. *)
Definition load_line (max_col : Z) (st : loading) (fline : string)
  : outcome loading :=
  if str_find fline "#" <? 0 then
    match str_split fline split_col with
    | Raise e => Raises e st
    | Ok fdata =>
        if len fdata <=? max_col then Returns (count_bad_line st)
        else load_fields st fdata
    end
  else Returns st.

Fixpoint load_lines (max_col : Z) (st : loading) (flines : list string)
  : outcome loading :=
  match flines with
  | [] => Returns st
  | fline :: flines' =>
      match load_line max_col st fline with
      | Returns st' => load_lines max_col st' flines'
      | Raises e st' => Raises e st'
      end
  end.

Definition all_cols : list Z :=
  [tdiff_col; terr_col; tband_col] ++ stime_cols ++ etime_cols.

(** [load_tdiff], on the lines [f.readlines()] gives for the file. *)
Definition load_tdiff (o : radTdiff) (flines : list string)
  : outcome loading :=
  let start := {| self := o; bad_lines := 0; log := [] |} in
  match py_min all_cols with
  | Raise e => Raises e start
  | Ok lo =>
      if lo <? 0 then
        Returns {| self := o; bad_lines := 0;
                   log := [(ERROR, InvalidColumnNumber all_cols)] |}
      else
        match py_max all_cols with
        | Raise e => Raises e start
        | Ok max_col =>
            match load_lines max_col start flines with
            | Raises e st => Raises e st
            | Returns st =>
                if bad_lines st >? 0 then
                  Returns
                    {| self := self st; bad_lines := bad_lines st;
                       log := log st
                              ++ [(INFO, ShortLinesRemoved (bad_lines st))] |}
                else Returns st
            end
        end
  end.

End Loader.

(** ** load_hardware_tdiff *)

(** One entry of [rad_hdw.sites], and the hardware description
    [pyrad.radar(code)] returns; that class is outside the two modules. *)
Record site : Type := {
  tval : datetime;
  tdiff : float
}.

Record hdw : Type := {
  stTime : datetime;
  sites : list site
}.

(** The six appends of the inner loop. *)
Definition append_hardware (stime : datetime) (hard : site)
  (o : radTdiff) (tt : Z) : radTdiff :=
  append_validated
    (append_tdiff_err
       (append_est_tdiff
          (append_tband
             (append_etime (append_stime o stime) (tval hard)) tt)
          (tdiff hard))
       nan)
    true.

Fixpoint hardware_sites (rad_tbands : list Z) (stime : datetime)
  (o : radTdiff) (hards : list site) : radTdiff :=
  match hards with
  | [] => o
  | hard :: hards' =>
      hardware_sites rad_tbands (tval hard)
        (fold_left (append_hardware stime hard) rad_tbands o) hards'
  end.

(** What the constructor reads from outside the two modules: the library
    conversions, the file system, the hardware files and the clock (the
    default [rtime] of [radFreqBands]). *)
Record world : Type := {
  lib : pylib;
  isfile : string -> bool;
  readlines : string -> list string;
  radar : pyval -> result hdw;
  today : datetime
}.

Definition load_hardware_tdiff (w : world) (o : radTdiff)
  : result radTdiff :=
  rad_hdw <- radar w (rad_code o) ;;
  rad_tbands <- FreqBands.init (rad_code o) (today w) ;;
  Ok (hardware_sites (FreqBands.tbands rad_tbands) (stTime rad_hdw) o
        (sites rad_hdw)).

(** ** __init__ *)

(** "Assign the radar IDs"; unlike [radFreqBands] there is no test for
    [None] before the loop. *)
Definition assign_ids (rad : pyval) : result (pyval * option Z) :=
  if FreqBands.has_key rad then
    match rad with
    | PyInt n =>
        code <- dict_get Z.eqb FreqBands.id_to_code n ;;
        Ok (PyStr code, Some n)
    | _ => Raise KeyError
    end
  else
    s <- FreqBands.find_stid (dict_keys FreqBands.id_to_code) rad ;;
    Ok (rad, s).

Definition is_none (v : pyval) : bool :=
  match v with
  | PyNone => true
  | _ => false
  end.

(** [radTdiff(rad, tdiff_file, tdiff_col, ...)]: the object and the log,
    or the exception the call ends with. *)
Definition init (w : world) (rad : pyval) (file : option string)
  (tdiff_col terr_col tband_col val_col : Z)
  (stime_cols etime_cols : list Z) (time_fmt : string)
  (split_col : option string) : result (radTdiff * list log_record) :=
  ids <- assign_ids rad ;;
  let (code, sid) := ids in
  let unknown :=
    is_none code || match sid with None => true | Some _ => false end in
  let self_file :=
    if unknown then None
    else match file with
         | Some f => if isfile w f then Some f else None
         | None => None
         end in
  let log0 := if unknown then [(ERROR, UnknownRadar)] else [] in
  let o := {| tdiff_file := self_file; rad_code := code; stid := sid;
              tbands := []; stimes := []; etimes := []; est_tdiffs := [];
              tdiff_errs := []; validated := [] |} in
  match file with
  | None =>
      o' <- load_hardware_tdiff w o ;;
      Ok (o', log0)
  | Some _ =>
      match self_file with
      | Some f =>
          match load_tdiff (lib w) tdiff_col terr_col tband_col val_col
                  stime_cols etime_cols time_fmt split_col o
                  (readlines w f) with
          | Returns st => Ok (self st, log0 ++ log st)
          | Raises e _ => Raise e
          end
      | None => Ok (o, log0)
      end
  end.

(** ** get_tdiff *)

Definition get_tdiff (o : radTdiff) (tband : Z) (ttime : datetime)
  (tval : bool) : result (float * float) :=
  let itbands := np_where (fun b => b =? tband) (tbands o) in
  if len itbands >? 0 then
    starts <- np_take (stimes o) itbands ;;
    let itime := np_where (fun t => t <=? ttime) starts in
    if len itime >? 0 then
      idiff <- np_take itbands itime ;;
      ends <- np_take (etimes o) idiff ;;
      let itime := np_where (fun t => t >=? ttime) ends in
      if len itime =? 1 then
        idiff <- np_take itbands itime ;;
        use <- (if negb tval then Ok true
                else v <- list_index_array (validated o) idiff ;;
                     Ok (tval && v)) ;;
        if use : bool then
          etdiff <- list_index_array (est_tdiffs o) idiff ;;
          etdiff_err <- list_index_array (tdiff_errs o) idiff ;;
          Ok (etdiff, etdiff_err)
        else Ok (nan, nan)
      else Ok (nan, nan)
    else Ok (nan, nan)
  else Ok (nan, nan).

(** ** get_tdiff and the numpy installed

    Lines 347 to 349 index the Python lists [validated], [est_tdiffs] and
    [tdiff_errs] with the array [idiff]. What a list does with an array
    as its index is decided by numpy: up to numpy 1.11 an array of one
    element converts to that integer, as [list_index_array] has it; from
    numpy 1.12 on only an array of no dimension converts, and every other
    array is a [TypeError]. Both run the same source. [get_tdiff] above
    is the method under the first; [get_tdiff_on] is the method under
    either. *)
Inductive numpy_version : Type :=
| up_to_1_11
| from_1_12.

(** [l[idx]] for a Python list [l] and a one-dimensional integer array
    [idx]. *)
Definition list_index_array_on (np : numpy_version) {A : Type}
  (l : list A) (idx : list Z) : result A :=
  match np with
  | up_to_1_11 => list_index_array l idx
  | from_1_12 => Raise TypeError
  end.

Definition get_tdiff_on (np : numpy_version) (o : radTdiff) (tband : Z)
  (ttime : datetime) (tval : bool) : result (float * float) :=
  let itbands := np_where (fun b => b =? tband) (tbands o) in
  if len itbands >? 0 then
    starts <- np_take (stimes o) itbands ;;
    let itime := np_where (fun t => t <=? ttime) starts in
    if len itime >? 0 then
      idiff <- np_take itbands itime ;;
      ends <- np_take (etimes o) idiff ;;
      let itime := np_where (fun t => t >=? ttime) ends in
      if len itime =? 1 then
        idiff <- np_take itbands itime ;;
        use <- (if negb tval then Ok true
                else v <- list_index_array_on np (validated o) idiff ;;
                     Ok (tval && v)) ;;
        if use : bool then
          etdiff <- list_index_array_on np (est_tdiffs o) idiff ;;
          etdiff_err <- list_index_array_on np (tdiff_errs o) idiff ;;
          Ok (etdiff, etdiff_err)
        else Ok (nan, nan)
      else Ok (nan, nan)
    else Ok (nan, nan)
  else Ok (nan, nan).

End Tdiff.

(** * The resolution rule in the words of the specification *)

Module Spec.

Record TdiffRecord : Type := {
  band : Z;
  startTime : datetime;
  endTime : datetime;
  estimateMicrosec : float;
  errorMicrosec : float;
  validated : bool
}.

(** The records an object holds: position [i] of each of the six lists. *)
Fixpoint records_of (bs : list Z) (ss es : list datetime)
  (xs ys : list float) (vs : list bool) : list TdiffRecord :=
  match bs, ss, es, xs, ys, vs with
  | b :: bs', s :: ss', e :: es', x :: xs', y :: ys', v :: vs' =>
      {| band := b; startTime := s; endTime := e; estimateMicrosec := x;
         errorMicrosec := y; validated := v |}
        :: records_of bs' ss' es' xs' ys' vs'
  | _, _, _, _, _, _ => []
  end.

Definition records (o : Tdiff.radTdiff) : list TdiffRecord :=
  records_of (Tdiff.tbands o) (Tdiff.stimes o) (Tdiff.etimes o)
    (Tdiff.est_tdiffs o) (Tdiff.tdiff_errs o) (Tdiff.validated o).

(** The records left after the three filters of the rule. *)
Definition matching (rs : list TdiffRecord) (b : Z) (t : datetime)
  : list TdiffRecord :=
  filter (fun r => endTime r >=? t)
    (filter (fun r => startTime r <=? t)
       (filter (fun r => band r =? b) rs)).

Definition resolve (rs : list TdiffRecord) (b : Z) (t : datetime)
  (requireValidated : bool) : float * float :=
  match matching rs b t with
  | [r] =>
      if negb requireValidated || validated r
      then (estimateMicrosec r, errorMicrosec r)
      else (nan, nan)
  | _ => (nan, nan)
  end.

(** The six parallel lists have one length. *)
Definition parallel (o : Tdiff.radTdiff) : Prop :=
  let n := len (Tdiff.tbands o) in
  len (Tdiff.stimes o) = n /\ len (Tdiff.etimes o) = n
  /\ len (Tdiff.est_tdiffs o) = n /\ len (Tdiff.tdiff_errs o) = n
  /\ len (Tdiff.validated o) = n.

End Spec.

(** * Inputs for the examples *)

Module Sample.

Fixpoint digits_value (acc : Z) (s : string) : option Z :=
  match s with
  | EmptyString => Some acc
  | String c s' =>
      let n := N_of_ascii c in
      if ((48 <=? n) && (n <=? 57))%N
      then digits_value (acc * 10 + (Z.of_N n - 48)) s'
      else None
  end.

Definition decimal (s : string) : option Z :=
  match s with
  | EmptyString => None
  | _ => digits_value 0 s
  end.

Definition signed_decimal (s : string) : option Z :=
  match s with
  | String "-" s' => option_map Z.opp (decimal s')
  | String "+" s' => decimal s'
  | _ => decimal s
  end.

Definition float_of_Z (z : Z) : float :=
  if z <? 0 then PrimFloat.opp (PrimFloat.of_uint63 (Uint63.of_Z (- z)))
  else PrimFloat.of_uint63 (Uint63.of_Z z).

Definition strptime_year (s fmt : string) : option datetime :=
  if String.eqb fmt "%Y" then
    if (String.length s =? 4)%nat then
      match decimal s with
      | Some y => if 1 <=? y then Some (dt_datetime y 1 1 0 0 0) else None
      | None => None
      end
    else None
  else None.

(** A library for running the loader: it follows Python on the time
    format [%Y] and on plain decimal literals and rejects every other
    string. Python accepts more; nothing stated over every [pylib]
    depends on this instance. *)
Definition lib : pylib :=
  {| strptime := strptime_year;
     str_int := signed_decimal;
     str_float := fun s => option_map float_of_Z (signed_decimal s) |}.

(** A file system with one calibration file, which every path names, and
    no hardware files. *)
Definition world_with (flines : list string) : Tdiff.world :=
  {| Tdiff.lib := lib;
     Tdiff.isfile := fun _ => true;
     Tdiff.readlines := fun _ => flines;
     Tdiff.radar := fun _ => Raise KeyError;
     Tdiff.today := dt_datetime 2016 8 26 0 0 0 |}.

(** Two records for band 0, the later interval first. *)
Definition later_first : Tdiff.radTdiff :=
  {| Tdiff.tdiff_file := Some "han.tdiff";
     Tdiff.rad_code := PyStr "han";
     Tdiff.stid := Some 10;
     Tdiff.tbands := [0; 0];
     Tdiff.stimes := [dt_datetime 2010 1 1 0 0 0; dt_datetime 2000 1 1 0 0 0];
     Tdiff.etimes := [dt_datetime 2011 1 1 0 0 0; dt_datetime 2001 1 1 0 0 0];
     Tdiff.est_tdiffs := [1.5%float; 2.5%float];
     Tdiff.tdiff_errs := [0.25%float; 0.5%float];
     Tdiff.validated := [true; false] |}.

(** The same two records, the earlier interval first. *)
Definition earlier_first : Tdiff.radTdiff :=
  {| Tdiff.tdiff_file := Some "han.tdiff";
     Tdiff.rad_code := PyStr "han";
     Tdiff.stid := Some 10;
     Tdiff.tbands := [0; 0];
     Tdiff.stimes := [dt_datetime 2000 1 1 0 0 0; dt_datetime 2010 1 1 0 0 0];
     Tdiff.etimes := [dt_datetime 2001 1 1 0 0 0; dt_datetime 2011 1 1 0 0 0];
     Tdiff.est_tdiffs := [2.5%float; 1.5%float];
     Tdiff.tdiff_errs := [0.5%float; 0.25%float];
     Tdiff.validated := [false; true] |}.

(** Hardware files for radar han with two revisions, and no calibration
    file. *)
Definition han_hardware : Tdiff.hdw :=
  {| Tdiff.stTime := dt_datetime 1995 1 1 0 0 0;
     Tdiff.sites :=
       [{| Tdiff.tval := dt_datetime 2005 1 1 0 0 0;
           Tdiff.tdiff := 0.5%float |};
        {| Tdiff.tval := dt_datetime 2030 1 1 0 0 0;
           Tdiff.tdiff := 0.25%float |}] |}.

Definition hardware_world : Tdiff.world :=
  {| Tdiff.lib := lib;
     Tdiff.isfile := fun _ => false;
     Tdiff.readlines := fun _ => [];
     Tdiff.radar := fun code =>
       match code with
       | PyStr "han" => Ok han_hardware
       | _ => Raise KeyError
       end;
     Tdiff.today := dt_datetime 2016 8 26 0 0 0 |}.

(** The records of [later_first]. *)
Definition record_2010 : Spec.TdiffRecord :=
  {| Spec.band := 0;
     Spec.startTime := dt_datetime 2010 1 1 0 0 0;
     Spec.endTime := dt_datetime 2011 1 1 0 0 0;
     Spec.estimateMicrosec := 1.5%float;
     Spec.errorMicrosec := 0.25%float;
     Spec.validated := true |}.

Definition record_2000 : Spec.TdiffRecord :=
  {| Spec.band := 0;
     Spec.startTime := dt_datetime 2000 1 1 0 0 0;
     Spec.endTime := dt_datetime 2001 1 1 0 0 0;
     Spec.estimateMicrosec := 2.5%float;
     Spec.errorMicrosec := 0.5%float;
     Spec.validated := false |}.

(** An object for radar han before any record is loaded. *)
Definition no_records : Tdiff.radTdiff :=
  {| Tdiff.tdiff_file := Some "han.tdiff";
     Tdiff.rad_code := PyStr "han";
     Tdiff.stid := Some 10;
     Tdiff.tbands := [];
     Tdiff.stimes := [];
     Tdiff.etimes := [];
     Tdiff.est_tdiffs := [];
     Tdiff.tdiff_errs := [];
     Tdiff.validated := [] |}.

(** A file line as [readlines] gives it, with its newline. *)
Definition line (s : string) : string :=
  String.append s (String "010"%char EmptyString).

(** A calibration file: start year, end year, band, tdiff, error, flag.
    Two lines are well formed, one is a comment, one is short, one has a
    start time and one an end time that is no year. *)
Definition mixed_file : list string :=
  [line "2000 2001 3 7 1 1";
   line "# start end band tdiff err val";
   line "2000 2001";
   line "x 2001 3 7 1 1";
   line "2002 zzzz 3 7 1 1";
   line "2002 2003 4 8 2 1"].

(** The object [radFreqBands(10)] made on 26 August 2016. *)
Definition han_bands : result FreqBands.radFreqBands :=
  FreqBands.init (PyInt 10) (dt_datetime 2016 8 26 0 0 0).

End Sample.

(** * Notions used in the statements *)

Module Notions.

(** A version [(tkey, (t0, t1))] is in effect at [t]. *)
Definition in_effect (v : Z * (datetime * datetime)) (t : datetime)
  : Prop :=
  fst (snd v) <= t < snd (snd v).

(** No time lies in the intervals of two versions with different keys. *)
Definition non_overlapping (versions : list (Z * (datetime * datetime)))
  : Prop :=
  forall v1 v2 t,
    In v1 versions -> In v2 versions -> fst v1 <> fst v2 ->
    ~ (in_effect v1 t /\ in_effect v2 t).

(** Each of the lists of bands, end times, estimates, errors and flags
    of [o'] has [k] entries more than that of [o]. *)
Definition grown (o o' : Tdiff.radTdiff) (k : Z) : Prop :=
  len (Tdiff.tbands o') = len (Tdiff.tbands o) + k
  /\ len (Tdiff.etimes o') = len (Tdiff.etimes o) + k
  /\ len (Tdiff.est_tdiffs o') = len (Tdiff.est_tdiffs o) + k
  /\ len (Tdiff.tdiff_errs o') = len (Tdiff.tdiff_errs o) + k
  /\ len (Tdiff.validated o') = len (Tdiff.validated o) + k.

(** The lists of [o'] against those of [o] when a load has stopped at a
    line whose columns do not all convert: [s] start times and [k] full
    records were appended before that line, and the line itself added its
    start time, its end time and the first [c] of band, estimate and
    error. *)
Definition stopped (o o' : Tdiff.radTdiff) (s k c : Z) : Prop :=
  len (Tdiff.stimes o') = len (Tdiff.stimes o) + s + 1
  /\ len (Tdiff.etimes o') = len (Tdiff.etimes o) + k + 1
  /\ len (Tdiff.tbands o')
     = len (Tdiff.tbands o) + k + (if 1 <=? c then 1 else 0)
  /\ len (Tdiff.est_tdiffs o')
     = len (Tdiff.est_tdiffs o) + k + (if 2 <=? c then 1 else 0)
  /\ len (Tdiff.tdiff_errs o')
     = len (Tdiff.tdiff_errs o) + k + (if 3 <=? c then 1 else 0)
  /\ len (Tdiff.validated o') = len (Tdiff.validated o) + k.



(** The records the hardware files stand for: one for each revision and
    band, from the end of the revision before (the first from the start
    time of the radar) to the end of the revision, with the tdiff of the
    revision, no error estimate, and validated. *)
Fixpoint hardware_records (bands : list Z) (stime : datetime)
  (hards : list Tdiff.site) : list Spec.TdiffRecord :=
  match hards with
  | [] => []
  | hard :: hards' =>
      map (fun tt =>
             {| Spec.band := tt; Spec.startTime := stime;
                Spec.endTime := Tdiff.tval hard;
                Spec.estimateMicrosec := Tdiff.tdiff hard;
                Spec.errorMicrosec := nan; Spec.validated := true |})
        bands
      ++ hardware_records bands (Tdiff.tval hard) hards'
  end.

(** The end times of the revisions do not decrease, from the start time
    of the radar on. *)
Fixpoint revisions_in_order (stime : datetime) (hards : list Tdiff.site)
  : Prop :=
  match hards with
  | [] => True
  | hard :: hards' =>
      stime <= Tdiff.tval hard /\ revisions_in_order (Tdiff.tval hard) hards'
  end.

(** A list with the position of each element, counted from [i]. *)
Fixpoint indexed_from {A : Type} (i : Z) (l : list A) : list (Z * A) :=
  match l with
  | [] => []
  | x :: l' => (i, x) :: indexed_from (i + 1) l'
  end.

(** The records of band [b] stand in the list in the order of their start
    times, as they do when they come from the hardware files or from a
    file written in time order. *)
Definition in_start_order (rs : list Spec.TdiffRecord) (b : Z) : Prop :=
  StronglySorted (fun r1 r2 => Spec.startTime r1 <= Spec.startTime r2)
    (filter (fun r => Spec.band r =? b) rs).

(** The object [o'] is [o] with entries added at the end of its lists:
    nothing that [o] holds is removed or changed. *)
Definition extends (o o' : Tdiff.radTdiff) : Prop :=
  Tdiff.tdiff_file o' = Tdiff.tdiff_file o
  /\ Tdiff.rad_code o' = Tdiff.rad_code o
  /\ Tdiff.stid o' = Tdiff.stid o
  /\ (exists l, Tdiff.tbands o' = Tdiff.tbands o ++ l)
  /\ (exists l, Tdiff.stimes o' = Tdiff.stimes o ++ l)
  /\ (exists l, Tdiff.etimes o' = Tdiff.etimes o ++ l)
  /\ (exists l, Tdiff.est_tdiffs o' = Tdiff.est_tdiffs o ++ l)
  /\ (exists l, Tdiff.tdiff_errs o' = Tdiff.tdiff_errs o ++ l)
  /\ (exists l, Tdiff.validated o' = Tdiff.validated o ++ l).

Section Lines.

Variable lib : pylib.
Variables stime_cols etime_cols : list Z.
Variables tdiff_col terr_col tband_col val_col : Z.
Variable time_fmt : string.
Variable split_col : option string.
Variable max_col : Z.

(** A line without the comment marker. *)
Definition data_line (fline : string) : bool :=
  str_find fline "#" <? 0.

Definition fields (fline : string) : list string :=
  match str_split fline split_col with
  | Ok fdata => fdata
  | Raise _ => []
  end.

Definition too_few_columns (fline : string) : bool :=
  len (fields fline) <=? max_col.

Definition is_ok {A : Type} (r : result A) : bool :=
  match r with
  | Ok _ => true
  | Raise _ => false
  end.

Definition start_parses (fline : string) : bool :=
  is_ok (Tdiff.parse_time lib time_fmt (fields fline) stime_cols).

Definition end_parses (fline : string) : bool :=
  is_ok (Tdiff.parse_time lib time_fmt (fields fline) etime_cols).

(** A data line that is dropped: too few columns, or a time field that
    does not parse. *)
Definition skipped (fline : string) : bool :=
  data_line fline
  && (too_few_columns fline
      || negb (start_parses fline && end_parses fline)).

(** A data line with enough columns whose times do not parse. *)
Definition bad_times (fline : string) : bool :=
  data_line fline && negb (too_few_columns fline)
  && negb (start_parses fline && end_parses fline).

(** A data line that reaches the casts of the band, tdiff, error and
    validation columns. *)
Definition kept (fline : string) : bool :=
  data_line fline && negb (too_few_columns fline)
  && start_parses fline && end_parses fline.

(** A data line with enough columns whose start time parses: its start
    time is appended. *)
Definition start_read (fline : string) : bool :=
  data_line fline && negb (too_few_columns fline) && start_parses fline.

(** The four casts of a line succeed. *)
Definition casts (fline : string) : bool :=
  is_ok (Tdiff.cast_int lib (fields fline) tband_col)
  && is_ok (Tdiff.cast_float lib (fields fline) tdiff_col)
  && is_ok (Tdiff.cast_float lib (fields fline) terr_col)
  && is_ok (Tdiff.cast_bool (fields fline) val_col).

(** How many of the band, tdiff and error columns of a line convert, in
    the order of the source, before one does not. *)
Definition converted (fline : string) : Z :=
  if is_ok (Tdiff.cast_int lib (fields fline) tband_col) then
    if is_ok (Tdiff.cast_float lib (fields fline) tdiff_col) then
      if is_ok (Tdiff.cast_float lib (fields fline) terr_col) then 3 else 2
    else 1
  else 0.

(** The exception of a line whose four columns do not all convert:
    [int] or [float] on text that is no number, or else the validation
    column outside the line. *)
Definition cast_exception (fline : string) : exn :=
  if converted fline =? 3 then IndexError else ValueError.

Definition count (p : string -> bool) (flines : list string) : Z :=
  len (filter p flines).

End Lines.

End Notions.

(** * Version selection *)

Section VersionSelection.

Import Notions.

Lemma scan_time_key_none (versions : list (Z * (datetime * datetime)))
  (rtime : datetime) :
  (forall v, In v versions -> ~ in_effect v rtime) ->
  FreqBands.scan_time_key versions rtime = -1.
Proof.
  induction versions as [|[tkey [t0 t1]] versions IH]; intros Hnone.
  - reflexivity.
  - simpl.
    destruct (Z.leb_spec t0 rtime) as [H0|H0];
      destruct (Z.gtb_spec t1 rtime) as [H1|H1]; simpl;
      try (apply IH; intros v Hv; apply Hnone; right; exact Hv).
    exfalso. apply (Hnone (tkey, (t0, t1))); [left; reflexivity|].
    unfold in_effect; simpl. lia.
Qed.

Lemma scan_time_key_first (versions : list (Z * (datetime * datetime)))
  (rtime : datetime) :
  (exists v, In v versions /\ in_effect v rtime) ->
  exists v, In v versions /\ in_effect v rtime
            /\ FreqBands.scan_time_key versions rtime = fst v.
Proof.
  induction versions as [|[tkey [t0 t1]] versions IH]; intros [v [Hin Hv]].
  - destruct Hin.
  - simpl.
    destruct (Z.leb_spec t0 rtime) as [H0|H0];
      destruct (Z.gtb_spec t1 rtime) as [H1|H1]; simpl.
    + exists (tkey, (t0, t1)). split; [left; reflexivity|].
      split; [unfold in_effect; simpl; lia | reflexivity].
    + destruct Hin as [<-|Hin]; [unfold in_effect in Hv; simpl in Hv; lia|].
      destruct IH as [v' [Hin' [Hv' Hk]]]; [exists v; auto|].
      exists v'; auto.
    + destruct Hin as [<-|Hin]; [unfold in_effect in Hv; simpl in Hv; lia|].
      destruct IH as [v' [Hin' [Hv' Hk]]]; [exists v; auto|].
      exists v'; auto.
    + destruct Hin as [<-|Hin]; [unfold in_effect in Hv; simpl in Hv; lia|].
      destruct IH as [v' [Hin' [Hv' Hk]]]; [exists v; auto|].
      exists v'; auto.
Qed.

(** C4. For a radar of the time catalog whose versions do not overlap and
    for every time: when a version is in effect at that time (start at or
    before it, end after it), [get_time_key] returns the key of that
    version, and it is the only such key; when no version is in effect
    (before the first start, at or after the last end, or in a gap),
    [get_time_key] returns -1. *)
Theorem get_time_key_selects_version
  (band_time : list (string * list (Z * (datetime * datetime))))
  (code : pyval) (versions : list (Z * (datetime * datetime)))
  (rtime : datetime) :
  FreqBands.by_code band_time code = Ok versions ->
  non_overlapping versions ->
  (forall v, In v versions -> in_effect v rtime ->
     FreqBands.get_time_key_in band_time code rtime = Ok (fst v)
     /\ forall v', In v' versions -> in_effect v' rtime -> fst v' = fst v)
  /\ ((forall v, In v versions -> ~ in_effect v rtime) ->
      FreqBands.get_time_key_in band_time code rtime = Ok (-1)).
Proof.
  intros Hcat Hdisj.
  assert (Huniq : forall v v', In v versions -> In v' versions ->
            in_effect v rtime -> in_effect v' rtime -> fst v' = fst v).
  { intros v v' Hin Hin' Hv Hv'.
    destruct (Z.eq_dec (fst v') (fst v)) as [E|E]; [exact E|].
    exfalso. apply (Hdisj v' v rtime Hin' Hin E). split; assumption. }
  unfold FreqBands.get_time_key_in. rewrite Hcat. simpl. split.
  - intros v Hin Hv. split.
    + destruct (scan_time_key_first versions rtime) as [v' [Hin' [Hv' Hk]]];
        [exists v; auto|].
      rewrite Hk. f_equal. apply Huniq; assumption.
    + intros v' Hin' Hv'. apply Huniq; assumption.
  - intros Hnone. rewrite scan_time_key_none; [reflexivity | exact Hnone].
Qed.

End VersionSelection.

(** Closed calls of [dt_datetime] are replaced by their values. *)
Ltac eval_datetimes :=
  repeat match goal with
    | |- context [dt_datetime ?y ?m ?d ?hh ?mm ?ss] =>
        let v := eval vm_compute in (dt_datetime y m d hh mm ss) in
        change (dt_datetime y m d hh mm ss) with v
    | H : context [dt_datetime ?y ?m ?d ?hh ?mm ?ss] |- _ =>
        let v := eval vm_compute in (dt_datetime y m d hh mm ss) in
        change (dt_datetime y m d hh mm ss) with v in H
    end.

(** The two versions of radar [ksr] do not overlap; on 1 January 2010
    version 1 is in effect, and on 1 January 2006, in the gap between the
    two, none is. *)
Lemma get_time_key_selects_version_ksr :
  let versions :=
    [(0, (dt_datetime 1995 1 1 0 0 0, dt_datetime 2004 10 1 0 0 0));
     (1, (dt_datetime 2007 8 30 0 0 0, dt_datetime 3000 1 1 0 0 0))] in
  FreqBands.by_code FreqBands.rad_band_time (PyStr "ksr") = Ok versions
  /\ Notions.non_overlapping versions
  /\ FreqBands.get_time_key_in FreqBands.rad_band_time (PyStr "ksr")
       (dt_datetime 2010 1 1 0 0 0) = Ok 1
  /\ FreqBands.get_time_key_in FreqBands.rad_band_time (PyStr "ksr")
       (dt_datetime 2006 1 1 0 0 0) = Ok (-1).
Proof.
  intros versions.
  assert (Hcat : FreqBands.by_code FreqBands.rad_band_time (PyStr "ksr")
                 = Ok versions) by reflexivity.
  assert (Hdisj : Notions.non_overlapping versions).
  { intros v1 v2 t H1 H2 Hne [[A1 A2] [B1 B2]].
    simpl in H1, H2.
    destruct H1 as [<-|[<-|[]]]; destruct H2 as [<-|[<-|[]]];
      cbn [fst snd] in *; try congruence; eval_datetimes; lia. }
  split; [exact Hcat|]. split; [exact Hdisj|]. split.
  - apply (proj1 (get_time_key_selects_version FreqBands.rad_band_time
                    (PyStr "ksr") versions (dt_datetime 2010 1 1 0 0 0)
                    Hcat Hdisj)
             (1, (dt_datetime 2007 8 30 0 0 0, dt_datetime 3000 1 1 0 0 0))).
    + simpl. right. left. reflexivity.
    + unfold Notions.in_effect. cbn [fst snd]. eval_datetimes. lia.
  - apply (proj2 (get_time_key_selects_version FreqBands.rad_band_time
                    (PyStr "ksr") versions (dt_datetime 2006 1 1 0 0 0)
                    Hcat Hdisj)).
    intros v Hv [A1 A2]. simpl in Hv.
    destruct Hv as [<-|[<-|[]]]; cbn [fst snd] in *; eval_datetimes; lia.
Defined.

(** * The bands of radar han *)

Lemma assign_bands_han (rtime : datetime) :
  dt_datetime 1995 1 1 0 0 0 <= rtime < dt_datetime 3000 1 1 0 0 0 ->
  FreqBands.assign_bands (PyStr "han") rtime
  = Ok (dt_datetime 1995 1 1 0 0 0, dt_datetime 3000 1 1 0 0 0,
        [0; 1; 2; 3; 4; 5; 6; 7; 8; 9; 10; 11; 12; 13; 14],
        [8305; 8965; 9900; 11075; 11550; 12370; 13200; 15010; 16210;
         16555; 17970; 18850; 19415; 19705; 19800],
        [8335; 9040; 9985; 11275; 11600; 12415; 13260; 15080; 16360;
         16615; 18050; 18865; 19680; 19755; 19990]).
Proof.
  intros [Hlo Hhi].
  assert (Hkey : FreqBands.get_time_key (PyStr "han") rtime = Ok 0).
  { unfold FreqBands.get_time_key, FreqBands.get_time_key_in.
    replace (FreqBands.by_code FreqBands.rad_band_time (PyStr "han"))
      with (Ok [(0, (dt_datetime 1995 1 1 0 0 0,
                     dt_datetime 3000 1 1 0 0 0))]) by reflexivity.
    cbn [bind FreqBands.scan_time_key].
    destruct (Z.leb_spec (dt_datetime 1995 1 1 0 0 0) rtime); [|lia].
    destruct (Z.gtb_spec (dt_datetime 3000 1 1 0 0 0) rtime); [|lia].
    reflexivity. }
  unfold FreqBands.assign_bands. rewrite Hkey. reflexivity.
Qed.

(** C10. For radar han, given as station 10 or as its code, and every time
    from 1 January 1995 up to but not including 1 January 3000: the object
    has 15 bands, the smallest lower bound is 8305 kHz and the largest
    upper bound 19990 kHz; 13200 kHz lies in the band (13200, 13260), found
    without a warning; 20000 kHz lies in none, so the result is (-1, -1)
    with one warning. *)
Theorem han_bands_scenario (rad : pyval) (rtime : datetime) :
  rad = PyInt 10 \/ rad = PyStr "han" ->
  dt_datetime 1995 1 1 0 0 0 <= rtime < dt_datetime 3000 1 1 0 0 0 ->
  exists o,
    FreqBands.init rad rtime = Ok o
    /\ FreqBands.rad_code o = PyStr "han"
    /\ FreqBands.stid o = Some 10
    /\ FreqBands.stime o = dt_datetime 1995 1 1 0 0 0
    /\ FreqBands.etime o = dt_datetime 3000 1 1 0 0 0
    /\ len (FreqBands.tbands o) = 15
    /\ py_min (FreqBands.tmins o) = Ok 8305
    /\ py_max (FreqBands.tmaxs o) = Ok 19990
    /\ FreqBands.get_tband_max_min o 13200 = Ok (13200, 13260, [])
    /\ FreqBands.get_tband_max_min o 20000
       = Ok (-1, -1, [(WARNING, UnknownTransmissionFreq 20000)]).
Proof.
  intros Hrad Htime.
  assert (Hids : FreqBands.assign_ids rad = Ok (PyStr "han", Some 10))
    by (destruct Hrad as [-> | ->]; reflexivity).
  unfold FreqBands.init. rewrite Hids. cbn [bind].
  rewrite (assign_bands_han rtime Htime).
  eexists. split; [reflexivity|].
  repeat split; reflexivity.
Qed.

Lemma han_bands_scenario_2016 :
  exists o,
    FreqBands.init (PyInt 10) (dt_datetime 2016 8 26 0 0 0) = Ok o
    /\ FreqBands.rad_code o = PyStr "han"
    /\ FreqBands.stid o = Some 10
    /\ FreqBands.stime o = dt_datetime 1995 1 1 0 0 0
    /\ FreqBands.etime o = dt_datetime 3000 1 1 0 0 0
    /\ len (FreqBands.tbands o) = 15
    /\ py_min (FreqBands.tmins o) = Ok 8305
    /\ py_max (FreqBands.tmaxs o) = Ok 19990
    /\ FreqBands.get_tband_max_min o 13200 = Ok (13200, 13260, [])
    /\ FreqBands.get_tband_max_min o 20000
       = Ok (-1, -1, [(WARNING, UnknownTransmissionFreq 20000)]).
Proof.
  apply (han_bands_scenario (PyInt 10) (dt_datetime 2016 8 26 0 0 0)).
  - left. reflexivity.
  - eval_datetimes. lia.
Defined.

(** * Radar identity *)

Section Identity.

Lemma find_stid_lower (keys : list Z) (s s' : string) :
  str_lower s = str_lower s' ->
  FreqBands.find_stid keys (PyStr s) = FreqBands.find_stid keys (PyStr s').
Proof.
  intros Hlow. induction keys as [|k keys IH]; [reflexivity|].
  cbn [FreqBands.find_stid].
  destruct (dict_get Z.eqb FreqBands.id_to_code k) as [code|e];
    [|reflexivity].
  cbn [bind py_lower]. rewrite Hlow, IH. reflexivity.
Qed.

(** A station ID of the catalog resolves to its code and itself. *)
Lemma assign_ids_station (n : Z) (code : string) :
  In (n, code) FreqBands.id_to_code ->
  FreqBands.assign_ids (PyInt n) = Ok (PyStr code, Some n).
Proof.
  intros Hin. simpl in Hin.
  repeat (destruct Hin as [Hin|Hin];
          [injection Hin as <- <-; reflexivity|]).
  destruct Hin.
Qed.

(** A code of the catalog, written in any case, resolves to its station
    ID; the code the object keeps is the string as the caller wrote it. *)
Lemma assign_ids_code (n : Z) (code s : string) :
  In (n, code) FreqBands.id_to_code ->
  str_lower s = code ->
  FreqBands.assign_ids (PyStr s) = Ok (PyStr s, Some n).
Proof.
  intros Hin Hlow.
  unfold FreqBands.assign_ids. cbn [FreqBands.has_key].
  assert (Hcode : str_lower s = str_lower code /\
                  FreqBands.find_stid (dict_keys FreqBands.id_to_code)
                    (PyStr code) = Ok (Some n)).
  { rewrite Hlow. simpl in Hin.
    repeat (destruct Hin as [Hin|Hin];
            [injection Hin as <- <-; split; reflexivity|]).
    destruct Hin. }
  destruct Hcode as [Hcase Hfind].
  rewrite (find_stid_lower _ s code Hcase), Hfind. reflexivity.
Qed.

(** The station IDs of the catalog are distinct, and so are its codes. *)
Lemma id_to_code_distinct :
  NoDup (map fst FreqBands.id_to_code)
  /\ NoDup (map snd FreqBands.id_to_code).
Proof.
  split.
  - assert (H : nodup Z.eq_dec (map fst FreqBands.id_to_code)
                = map fst FreqBands.id_to_code) by reflexivity.
    rewrite <- H. apply NoDup_nodup.
  - assert (H : nodup string_dec (map snd FreqBands.id_to_code)
                = map snd FreqBands.id_to_code) by reflexivity.
    rewrite <- H. apply NoDup_nodup.
Qed.

Lemma dict_get_in {V : Type} (d : list (Z * V)) (k : Z) :
  In k (dict_keys d) -> exists v, dict_get Z.eqb d k = Ok v /\ In (k, v) d.
Proof.
  induction d as [|[k' v'] d IH]; simpl; intros Hin; [destruct Hin|].
  destruct (Z.eqb_spec k' k) as [->|Hne].
  - exists v'. split; [reflexivity | left; reflexivity].
  - destruct Hin as [Hk|Hin]; [congruence|].
    destruct (IH Hin) as [v [Hv Hd]]. exists v. split; [exact Hv|].
    right. exact Hd.
Qed.

Lemma pair_unique {K V : Type} (d : list (K * V)) (k : K) (v v' : V) :
  NoDup (map fst d) -> In (k, v) d -> In (k, v') d -> v = v'.
Proof.
  induction d as [|[k0 v0] d IH]; simpl; intros Hnd H1 H2; [destruct H1|].
  inversion Hnd as [|? ? Hnotin Hnd']; subst.
  destruct H1 as [E1|H1]; destruct H2 as [E2|H2].
  - congruence.
  - injection E1 as -> ->. exfalso. apply Hnotin.
    apply (in_map fst) in H2. exact H2.
  - injection E2 as -> ->. exfalso. apply Hnotin.
    apply (in_map fst) in H1. exact H1.
  - apply IH; assumption.
Qed.

Lemma key_unique {K V : Type} (d : list (K * V)) (k k' : K) (v : V) :
  NoDup (map snd d) -> In (k, v) d -> In (k', v) d -> k = k'.
Proof.
  induction d as [|[k0 v0] d IH]; simpl; intros Hnd H1 H2; [destruct H1|].
  inversion Hnd as [|? ? Hnotin Hnd']; subst.
  destruct H1 as [E1|H1]; destruct H2 as [E2|H2].
  - congruence.
  - injection E1 as -> ->. exfalso. apply Hnotin.
    apply (in_map snd) in H2. exact H2.
  - injection E2 as -> ->. exfalso. apply Hnotin.
    apply (in_map snd) in H1. exact H1.
  - apply IH; assumption.
Qed.

(** What the loop over the keys finds for a string, in terms of the
    catalog alone. *)
Lemma find_stid_spec (keys : list Z) (s : string) :
  (forall k, In k keys -> In k (dict_keys FreqBands.id_to_code)) ->
  (exists k, FreqBands.find_stid keys (PyStr s) = Ok (Some k)
             /\ In k keys
             /\ In (k, str_lower s) FreqBands.id_to_code)
  \/ (FreqBands.find_stid keys (PyStr s) = Ok None
      /\ forall k, In k keys ->
                   ~ In (k, str_lower s) FreqBands.id_to_code).
Proof.
  induction keys as [|k keys IH]; intros Hsub.
  - right. split; [reflexivity|]. intros k [].
  - cbn [FreqBands.find_stid].
    destruct (dict_get_in FreqBands.id_to_code k) as [code [Hget Hin]];
      [apply Hsub; left; reflexivity|].
    rewrite Hget. cbn [bind py_lower].
    destruct (String.eqb_spec code (str_lower s)) as [<-|Hne].
    + left. exists k. split; [reflexivity|]. split; [left; reflexivity|].
      exact Hin.
    + destruct IH as [[k' [Hf [Hk' Hc]]]|[Hf Hnone]];
        [intros k' Hk'; apply Hsub; right; exact Hk' | |].
      * left. exists k'. split; [exact Hf|]. split; [right; exact Hk'|].
        exact Hc.
      * right. split; [exact Hf|]. intros k' [<-|Hk'].
        -- intros Hc. apply Hne.
           apply (pair_unique FreqBands.id_to_code k);
             [apply id_to_code_distinct | exact Hin | exact Hc].
        -- apply Hnone. exact Hk'.
Qed.

(** X3. The station found for a string does not depend on the order in
    which the keys of the catalog are visited. *)
Lemma find_stid_any_order (keys : list Z) (s : string) :
  Permutation keys (dict_keys FreqBands.id_to_code) ->
  FreqBands.find_stid keys (PyStr s)
  = FreqBands.find_stid (dict_keys FreqBands.id_to_code) (PyStr s).
Proof.
  intros Hperm.
  assert (Hsub : forall k, In k keys ->
                           In k (dict_keys FreqBands.id_to_code))
    by (intros k Hk; apply (Permutation_in _ Hperm Hk)).
  assert (Hsup : forall k, In k (dict_keys FreqBands.id_to_code) ->
                           In k keys)
    by (intros k Hk; apply (Permutation_in _ (Permutation_sym Hperm) Hk)).
  destruct (find_stid_spec keys s Hsub) as [[k [Hf [Hk Hc]]]|[Hf Hnone]];
    destruct (find_stid_spec (dict_keys FreqBands.id_to_code) s
                (fun k Hk => Hk)) as [[k' [Hf' [Hk' Hc']]]|[Hf' Hnone']];
    rewrite Hf, Hf'.
  - do 2 f_equal.
    apply (key_unique FreqBands.id_to_code k k' (str_lower s));
      [apply id_to_code_distinct | exact Hc | exact Hc'].
  - exfalso. apply (Hnone' k (Hsub k Hk) Hc).
  - exfalso. apply (Hnone k' (Hsup k' Hk') Hc').
  - reflexivity.
Qed.

(** C6. Inputs that match no catalog entry: the integer 99 makes the
    constructor of [radFreqBands] raise [AttributeError]; the string
    ["XYZ"] is kept as written, not lowercased, with no station ID; and
    the constructor of [radTdiff] raises [AttributeError] for [None] and
    for 99. *)
Theorem unmatched_radar_inputs (rtime : datetime) (w : Tdiff.world)
  (file : option string) (tdiff_col terr_col tband_col val_col : Z)
  (stime_cols etime_cols : list Z) (time_fmt : string)
  (split_col : option string) :
  FreqBands.has_key (PyInt 99) = false
  /\ FreqBands.init (PyInt 99) rtime = Raise AttributeError
  /\ (exists o, FreqBands.init (PyStr "XYZ") rtime = Ok o
                /\ FreqBands.rad_code o = PyStr "XYZ"
                /\ FreqBands.rad_code o <> PyStr (str_lower "XYZ")
                /\ FreqBands.stid o = None)
  /\ (exists o, FreqBands.init PyNone rtime = Ok o
                /\ FreqBands.rad_code o = PyNone
                /\ FreqBands.stid o = None)
  /\ Tdiff.init w PyNone file tdiff_col terr_col tband_col val_col
       stime_cols etime_cols time_fmt split_col = Raise AttributeError
  /\ Tdiff.init w (PyInt 99) file tdiff_col terr_col tband_col val_col
       stime_cols etime_cols time_fmt split_col = Raise AttributeError.
Proof.
  split; [reflexivity|]. split; [reflexivity|].
  split.
  { eexists. split; [reflexivity|]. cbn.
    split; [reflexivity|]. split; [discriminate|reflexivity]. }
  split.
  { eexists. split; [reflexivity|]. cbn. split; reflexivity. }
  split; reflexivity.
Qed.

(** C7. The pair (10, han) is in the catalog and ["HAN"] is its code in
    another case; the object made from ["HAN"] has station ID 10 and the
    code ["HAN"], not the lowercase code of the catalog, and no bands. *)
Theorem uppercase_code_is_kept (rtime : datetime) :
  In (10, "han") FreqBands.id_to_code
  /\ str_lower "HAN" = "han"
  /\ FreqBands.assign_ids (PyInt 10) = Ok (PyStr "han", Some 10)
  /\ exists o, FreqBands.init (PyStr "HAN") rtime = Ok o
               /\ FreqBands.rad_code o = PyStr "HAN"
               /\ FreqBands.rad_code o <> PyStr "han"
               /\ FreqBands.stid o = Some 10
               /\ FreqBands.tbands o = [].
Proof.
  split; [simpl; tauto|]. split; [reflexivity|]. split; [reflexivity|].
  eexists. split; [reflexivity|]. cbn.
  split; [reflexivity|]. split; [discriminate|]. split; reflexivity.
Qed.

End Identity.

(** * Mean frequency of a band *)

Section MeanFrequency.

Lemma len_nonneg {A : Type} (l : list A) : 0 <= len l.
Proof. unfold len. lia. Qed.

(** Inside the sequence [l[i]] is the element at position [i]. *)
Lemma py_index_in_range {A : Type} (l : list A) (i : Z) :
  0 <= i < len l ->
  exists x, py_index l i = Ok x /\ nth_error l (Z.to_nat i) = Some x.
Proof.
  intros Hi. unfold py_index.
  destruct (Z.ltb_spec i 0) as [H|H]; [lia|].
  destruct (Z.ltb_spec i 0) as [H'|_]; [lia|].
  destruct (nth_error l (Z.to_nat i)) as [x|] eqn:E.
  - exists x. split; reflexivity.
  - apply nth_error_None in E. unfold len in Hi. lia.
Qed.

(** At or beyond the end [l[i]] raises. *)
Lemma py_index_beyond {A : Type} (l : list A) (i : Z) :
  len l <= i -> py_index l i = Raise IndexError.
Proof.
  intros Hi. pose proof (len_nonneg l) as Hn. unfold py_index.
  destruct (Z.ltb_spec i 0) as [H|H]; [lia|].
  destruct (Z.ltb_spec i 0) as [H'|_]; [lia|].
  destruct (nth_error l (Z.to_nat i)) as [x|] eqn:E; [|reflexivity].
  assert (Hlt : (Z.to_nat i < List.length l)%nat)
    by (apply nth_error_Some; congruence).
  unfold len in Hi. lia.
Qed.

(** A negative index counts from the end. *)
Lemma py_index_negative {A : Type} (l : list A) (i : Z) :
  i < 0 -> py_index l i = 
           if i + len l <? 0 then Raise IndexError
           else of_option IndexError (nth_error l (Z.to_nat (i + len l))).
Proof.
  intros Hi. unfold py_index.
  destruct (Z.ltb_spec i 0) as [_|H]; [reflexivity|lia].
Qed.

(** X8. For an object whose bounds are at most 2^30 in absolute value
    and a position inside the band list: the sum of the two bounds at the
    position is at most 2^31 in absolute value, so it overflows no machine
    integer and it and its half are exact in binary64, and the mean is
    half that sum, cut toward zero: the floor of it when the sum is not
    negative, and between the bounds when they are in order. *)
Lemma get_mean_tband_freq_in_range (o : FreqBands.radFreqBands) (p : Z) :
  len (FreqBands.tmaxs o) = len (FreqBands.tmins o) ->
  Forall (fun f => Z.abs f <= 2 ^ 30) (FreqBands.tmins o) ->
  Forall (fun f => Z.abs f <= 2 ^ 30) (FreqBands.tmaxs o) ->
  0 <= p < len (FreqBands.tmins o) ->
  exists lo hi,
    py_index (FreqBands.tmins o) p = Ok lo
    /\ py_index (FreqBands.tmaxs o) p = Ok hi
    /\ Z.abs (hi + lo) <= 2 ^ 31
    /\ FreqBands.get_mean_tband_freq o p
       = Ok (FreqBands.int_half (hi + lo), [])
    /\ (0 <= lo + hi -> FreqBands.int_half (hi + lo) = (lo + hi) / 2)
    /\ (lo <= hi -> lo <= FreqBands.int_half (hi + lo) <= hi).
Proof.
  intros Hlen Hmins Hmaxs Hp.
  destruct (py_index_in_range (FreqBands.tmins o) p Hp) as [lo [Hlo Nlo]].
  destruct (py_index_in_range (FreqBands.tmaxs o) p) as [hi [Hhi Nhi]];
    [lia|].
  exists lo, hi. split; [exact Hlo|]. split; [exact Hhi|]. split.
  { apply nth_error_In in Nlo, Nhi. rewrite Forall_forall in Hmins, Hmaxs.
    specialize (Hmins lo Nlo). specialize (Hmaxs hi Nhi).
    change (2 ^ 30) with 1073741824 in Hmins, Hmaxs.
    change (2 ^ 31) with 2147483648. lia. }
  split.
  - unfold FreqBands.get_mean_tband_freq.
    destruct (Z.gtb_spec (len (FreqBands.tmins o)) p) as [_|H]; [|lia].
    rewrite Hhi, Hlo. reflexivity.
  - unfold FreqBands.int_half. split.
    + intros Hsum. rewrite Z.quot_div_nonneg by lia. f_equal. lia.
    + intros Hord.
      pose proof (Z.quot_rem' (hi + lo) 2) as Hq.
      pose proof (Z.rem_bound_abs (hi + lo) 2) as Hr.
      lia.
Qed.

(** X9. For a position at or beyond the end of the band list the result
    is -1 with one warning. *)
Lemma get_mean_tband_freq_beyond (o : FreqBands.radFreqBands) (p : Z) :
  len (FreqBands.tmins o) <= p ->
  FreqBands.get_mean_tband_freq o p
  = Ok (-1, [(WARNING, UnknownTransmissionFreqBand p)]).
Proof.
  intros Hp. unfold FreqBands.get_mean_tband_freq.
  destruct (Z.gtb_spec (len (FreqBands.tmins o)) p) as [H|_]; [lia|].
  reflexivity.
Qed.

(** C8. On the 15 bands of radar han: position -1 gives 19895, the mean of
    the last band (19800, 19990), with no warning, and position -16 raises
    [IndexError]; neither gives -1. Position 15 gives -1 with a
    warning, and position 6 gives 13230, the floor of (13200 + 13260) / 2. *)
Theorem get_mean_tband_freq_negative_position :
  exists o,
    Sample.han_bands = Ok o
    /\ len (FreqBands.tmins o) = 15
    /\ py_index (FreqBands.tmins o) 14 = Ok 19800
    /\ py_index (FreqBands.tmaxs o) 14 = Ok 19990
    /\ FreqBands.get_mean_tband_freq o (-1) = Ok (19895, [])
    /\ FreqBands.get_mean_tband_freq o (-16) = Raise IndexError
    /\ FreqBands.get_mean_tband_freq o 15
       = Ok (-1, [(WARNING, UnknownTransmissionFreqBand 15)])
    /\ FreqBands.get_mean_tband_freq o 6 = Ok (13230, []).
Proof.
  eexists. split; [reflexivity|]. repeat split; reflexivity.
Qed.

End MeanFrequency.

(** * Resolving a tdiff *)

Section Resolution.

(** Two results are told apart by a test on the estimate. *)
Lemma estimates_differ (x y x' y' : float) (test : float -> bool) :
  test x = true -> test x' = false ->
  @Ok (float * float) (x, y) <> Ok (x', y').
Proof.
  intros Hx Hx' E. injection E as Ex _. rewrite Ex in Hx. congruence.
Qed.

(** An object with no record of the band has no tdiff for it. *)
Lemma get_tdiff_no_band (o : Tdiff.radTdiff) (tband : Z)
  (ttime : datetime) (tval : bool) :
  np_where (fun b => b =? tband) (Tdiff.tbands o) = [] ->
  Tdiff.get_tdiff o tband ttime tval = Ok (nan, nan).
Proof.
  intros Hnone. unfold Tdiff.get_tdiff. rewrite Hnone. reflexivity.
Qed.

(** C1. The object [later_first] holds two records for band 0, that of
    2010 before that of 2000, and its six lists have one length. On
    1 June 2000 the filters on band, start and end leave the record of
    2000 alone, so the rule gives (2.5, 0.5); [get_tdiff] without the
    validation requirement returns (1.5, 0.25), the values of the record of
    2010. *)
Theorem get_tdiff_later_record_first :
  let t := dt_datetime 2000 6 1 0 0 0 in
  Spec.parallel Sample.later_first
  /\ Spec.records Sample.later_first
     = [Sample.record_2010; Sample.record_2000]
  /\ Spec.matching (Spec.records Sample.later_first) 0 t
     = [Sample.record_2000]
  /\ Spec.resolve (Spec.records Sample.later_first) 0 t false
     = (2.5%float, 0.5%float)
  /\ Tdiff.get_tdiff Sample.later_first 0 t false
     = Ok (1.5%float, 0.25%float)
  /\ Tdiff.get_tdiff Sample.later_first 0 t false
     <> Ok (Spec.resolve (Spec.records Sample.later_first) 0 t false).
Proof.
  intros t.
  split; [repeat split; reflexivity|].
  split; [reflexivity|]. split; [reflexivity|]. split; [reflexivity|].
  split; [reflexivity|].
  apply (estimates_differ _ _ _ _ (fun x => PrimFloat.ltb x 2%float));
    reflexivity.
Qed.

(** C2. On 1 June 2000 the one record of [later_first] that matches band
    0 is the record of 2000, which is not validated, so the rule with the
    validation requirement gives (NaN, NaN); [get_tdiff] with the
    requirement reads the flag of the record of 2010 and returns its
    values (1.5, 0.25), and without the requirement it returns the same
    values and not those of the record of 2000. *)
Theorem get_tdiff_reads_other_flag :
  let t := dt_datetime 2000 6 1 0 0 0 in
  Spec.matching (Spec.records Sample.later_first) 0 t
  = [Sample.record_2000]
  /\ Spec.validated Sample.record_2000 = false
  /\ Spec.resolve (Spec.records Sample.later_first) 0 t true = (nan, nan)
  /\ Tdiff.get_tdiff Sample.later_first 0 t true
     = Ok (1.5%float, 0.25%float)
  /\ Tdiff.get_tdiff Sample.later_first 0 t true <> Ok (nan, nan)
  /\ Tdiff.get_tdiff Sample.later_first 0 t false
     <> Ok (Spec.estimateMicrosec Sample.record_2000,
            Spec.errorMicrosec Sample.record_2000).
Proof.
  intros t.
  split; [reflexivity|]. split; [reflexivity|]. split; [reflexivity|].
  split; [reflexivity|]. split.
  - apply (estimates_differ _ _ _ _ (fun x => PrimFloat.eqb x x));
      reflexivity.
  - apply (estimates_differ _ _ _ _ (fun x => PrimFloat.ltb x 2%float));
      reflexivity.
Qed.

End Resolution.

(** * Loading a calibration file *)

Section Loading.

Variable lib : pylib.
Variables tdiff_col terr_col tband_col val_col : Z.
Variables stime_cols etime_cols : list Z.
Variable time_fmt : string.
Variable split_col : option string.

Local Abbreviation load_tdiff :=
  (Tdiff.load_tdiff lib tdiff_col terr_col tband_col val_col stime_cols
     etime_cols time_fmt split_col).
Local Abbreviation load_lines :=
  (Tdiff.load_lines lib tdiff_col terr_col tband_col val_col stime_cols
     etime_cols time_fmt split_col).
Local Abbreviation load_line :=
  (Tdiff.load_line lib tdiff_col terr_col tband_col val_col stime_cols
     etime_cols time_fmt split_col).
Local Abbreviation all_cols :=
  (Tdiff.all_cols tdiff_col terr_col tband_col stime_cols etime_cols).
Local Abbreviation skipped :=
  (Notions.skipped lib stime_cols etime_cols time_fmt split_col).
Local Abbreviation bad_times :=
  (Notions.bad_times lib stime_cols etime_cols time_fmt split_col).
Local Abbreviation kept :=
  (Notions.kept lib stime_cols etime_cols time_fmt split_col).
Local Abbreviation start_read :=
  (Notions.start_read lib stime_cols time_fmt split_col).
Local Abbreviation casts :=
  (Notions.casts lib tdiff_col terr_col tband_col val_col split_col).
Local Abbreviation converted :=
  (Notions.converted lib tdiff_col terr_col tband_col split_col).
Local Abbreviation cast_exception :=
  (Notions.cast_exception lib tdiff_col terr_col tband_col split_col).
Local Abbreviation warning := (WARNING, CantFormatTimes time_fmt).

Lemma len_app_one {A : Type} (l : list A) (x : A) :
  len (l ++ [x]) = len l + 1.
Proof. unfold len. rewrite length_app. simpl. lia. Qed.

Lemma len_cons {A : Type} (x : A) (l : list A) : len (x :: l) = 1 + len l.
Proof. unfold len. cbn [List.length]. lia. Qed.

Lemma fold_min_le (l : list Z) (x : Z) :
  fold_left Z.min l x <= x /\ Forall (fun y => fold_left Z.min l x <= y) l.
Proof.
  revert x. induction l as [|y l IH]; intros x; simpl.
  - split; [lia | constructor].
  - destruct (IH (Z.min x y)) as [H1 H2]. split; [lia|].
    constructor; [lia | exact H2].
Qed.

Lemma fold_min_nonneg (l : list Z) (x : Z) :
  0 <= x -> Forall (fun y => 0 <= y) l -> 0 <= fold_left Z.min l x.
Proof.
  revert x. induction l as [|y l IH]; intros x Hx Hl; simpl.
  - exact Hx.
  - inversion Hl; subst. apply IH; [lia | assumption].
Qed.

Lemma py_min_negative (l : list Z) :
  Exists (fun c => c < 0) l -> exists lo, py_min l = Ok lo /\ lo < 0.
Proof.
  intros Hneg. destruct l as [|x l]; [inversion Hneg|].
  exists (fold_left Z.min l x). split; [reflexivity|].
  destruct (fold_min_le l x) as [H1 H2].
  inversion Hneg as [? ? Hx|? ? Hl]; subst; [lia|].
  apply Exists_exists in Hl. destruct Hl as [y [Hy Hy0]].
  rewrite Forall_forall in H2. specialize (H2 y Hy). lia.
Qed.

Lemma py_min_nonneg (l : list Z) :
  l <> [] -> Forall (fun c => 0 <= c) l ->
  exists lo, py_min l = Ok lo /\ 0 <= lo.
Proof.
  intros Hne Hl. destruct l as [|x l]; [congruence|].
  inversion Hl; subst.
  exists (fold_left Z.min l x). split; [reflexivity|].
  apply fold_min_nonneg; assumption.
Qed.

(** X14. When one of the tdiff, error, band, start-time or end-time
    columns is negative, the load reports the columns and returns with the
    object as it was, whatever the file holds. *)
Lemma load_tdiff_negative_column (o : Tdiff.radTdiff)
  (flines : list string) :
  Exists (fun c => c < 0) all_cols ->
  load_tdiff o flines
  = Tdiff.Returns
      {| Tdiff.self := o; Tdiff.bad_lines := 0;
         Tdiff.log := [(ERROR, InvalidColumnNumber all_cols)] |}.
Proof.
  intros Hneg. destruct (py_min_negative _ Hneg) as [lo [Hmin Hlo]].
  unfold Tdiff.load_tdiff. rewrite Hmin.
  destruct (Z.ltb_spec lo 0) as [_|H]; [reflexivity | lia].
Qed.

Lemma str_split_fields (fline : string) :
  split_col <> Some "" ->
  str_split fline split_col = Ok (Notions.fields split_col fline).
Proof.
  intros Hsep. unfold Notions.fields.
  destruct split_col as [[|c s]|]; simpl; [congruence | reflexivity ..].
Qed.

Lemma grown_refl (o : Tdiff.radTdiff) : Notions.grown o o 0.
Proof. unfold Notions.grown. repeat split; lia. Qed.

Lemma grown_trans (o1 o2 o3 : Tdiff.radTdiff) (j k : Z) :
  Notions.grown o1 o2 j -> Notions.grown o2 o3 k ->
  Notions.grown o1 o3 (j + k).
Proof. unfold Notions.grown. intuition lia. Qed.

(** What one file line does to the loop state, unless a cast raises. *)
Lemma load_line_summary (max_col : Z) (st : Tdiff.loading)
  (fline : string) :
  split_col <> Some "" ->
  (kept max_col fline = true -> casts fline = true) ->
  exists st',
    load_line max_col st fline = Tdiff.Returns st'
    /\ Tdiff.bad_lines st'
       = Tdiff.bad_lines st + (if skipped max_col fline then 1 else 0)
    /\ Tdiff.log st'
       = Tdiff.log st ++ (if bad_times max_col fline then [warning] else [])
    /\ Notions.grown (Tdiff.self st) (Tdiff.self st')
         (if kept max_col fline then 1 else 0).
Proof.
  intros Hsep Hcasts.
  unfold Tdiff.load_line, Notions.skipped, Notions.bad_times, Notions.kept,
    Notions.casts, Notions.data_line, Notions.too_few_columns,
    Notions.start_parses, Notions.end_parses in *.
  rewrite (str_split_fields fline Hsep).
  set (fdata := Notions.fields split_col fline) in *.
  destruct (str_find fline "#" <? 0); cbn [andb].
  2:{ exists st. split; [reflexivity|]. split; [lia|].
      split; [rewrite app_nil_r; reflexivity | apply grown_refl]. }
  destruct (len fdata <=? max_col); cbn [orb negb andb].
  { exists (Tdiff.count_bad_line st). split; [reflexivity|]. simpl.
    split; [lia|].
    split; [rewrite app_nil_r; reflexivity | apply grown_refl]. }
  unfold Tdiff.load_fields.
  destruct (Tdiff.parse_time lib time_fmt fdata stime_cols) as [t0|e0];
    cbn [Notions.is_ok andb negb].
  2:{ eexists. split; [reflexivity|]. simpl.
      split; [lia|]. split; [reflexivity | apply grown_refl]. }
  destruct (Tdiff.parse_time lib time_fmt fdata etime_cols) as [t1|e1];
    cbn [Notions.is_ok andb negb].
  2:{ eexists. split; [reflexivity|]. simpl.
      split; [lia|]. split; [reflexivity|].
      unfold Notions.grown. simpl. repeat split; lia. }
  specialize (Hcasts eq_refl).
  destruct (Tdiff.cast_int lib fdata tband_col) as [b|]; [|discriminate].
  destruct (Tdiff.cast_float lib fdata tdiff_col) as [x|]; [|discriminate].
  destruct (Tdiff.cast_float lib fdata terr_col) as [y|]; [|discriminate].
  destruct (Tdiff.cast_bool fdata val_col) as [v|]; [|discriminate].
  eexists. split; [reflexivity|]. simpl.
  split; [lia|]. split; [rewrite app_nil_r; reflexivity|].
  unfold Notions.grown. simpl. rewrite !len_app_one. repeat split; lia.
Qed.

Lemma count_cons (p : string -> bool) (fline : string)
  (flines : list string) :
  Notions.count p (fline :: flines)
  = (if p fline then 1 else 0) + Notions.count p flines.
Proof.
  unfold Notions.count. simpl. destruct (p fline); [apply len_cons|lia].
Qed.

(** What the loop over the lines does, unless a cast raises. *)
Lemma load_lines_summary (max_col : Z) (flines : list string) :
  split_col <> Some "" ->
  (forall fline, In fline flines ->
     kept max_col fline = true -> casts fline = true) ->
  forall st, exists st',
    load_lines max_col st flines = Tdiff.Returns st'
    /\ Tdiff.bad_lines st'
       = Tdiff.bad_lines st + Notions.count (skipped max_col) flines
    /\ Tdiff.log st'
       = Tdiff.log st
         ++ map (fun _ => warning) (filter (bad_times max_col) flines)
    /\ Notions.grown (Tdiff.self st) (Tdiff.self st')
         (Notions.count (kept max_col) flines).
Proof.
  intros Hsep. induction flines as [|fline flines IH]; intros Hcasts st.
  - exists st. split; [reflexivity|]. split; [unfold Notions.count, len; simpl; lia|].
    split; [simpl; rewrite app_nil_r; reflexivity | apply grown_refl].
  - destruct (load_line_summary max_col st fline Hsep)
      as [st1 [Hrun [Hbad [Hlog Hgrow]]]];
      [apply Hcasts; left; reflexivity|].
    destruct (IH (fun f Hf => Hcasts f (or_intror Hf)) st1)
      as [st2 [Hrun2 [Hbad2 [Hlog2 Hgrow2]]]].
    exists st2. cbn [Tdiff.load_lines]. rewrite Hrun.
    split; [exact Hrun2|]. rewrite !count_cons.
    split; [lia|]. split.
    + rewrite Hlog2, Hlog, <- app_assoc. f_equal. simpl.
      destruct (bad_times max_col fline); reflexivity.
    + apply (grown_trans _ _ _ _ _ Hgrow Hgrow2).
Qed.

(** A line that does not raise adds one start time when its start time
    parses, and none otherwise. *)
Lemma load_line_stimes (max_col : Z) (st st' : Tdiff.loading)
  (fline : string) :
  split_col <> Some "" ->
  load_line max_col st fline = Tdiff.Returns st' ->
  len (Tdiff.stimes (Tdiff.self st'))
  = len (Tdiff.stimes (Tdiff.self st))
    + (if start_read max_col fline then 1 else 0).
Proof.
  intros Hsep.
  unfold Tdiff.load_line, Notions.start_read, Notions.data_line,
    Notions.too_few_columns, Notions.start_parses.
  rewrite (str_split_fields fline Hsep).
  set (fdata := Notions.fields split_col fline).
  destruct (str_find fline "#" <? 0); cbn [andb].
  2:{ intros E. injection E as <-. lia. }
  destruct (len fdata <=? max_col); cbn [negb andb].
  { intros E. injection E as <-. simpl. lia. }
  unfold Tdiff.load_fields.
  destruct (Tdiff.parse_time lib time_fmt fdata stime_cols) as [t0|e0];
    cbn [Notions.is_ok].
  2:{ intros E. injection E as <-. simpl. lia. }
  destruct (Tdiff.parse_time lib time_fmt fdata etime_cols) as [t1|e1].
  2:{ intros E. injection E as <-. simpl. apply len_app_one. }
  destruct (Tdiff.cast_int lib fdata tband_col) as [b|]; [|discriminate].
  destruct (Tdiff.cast_float lib fdata tdiff_col) as [x|]; [|discriminate].
  destruct (Tdiff.cast_float lib fdata terr_col) as [y|]; [|discriminate].
  destruct (Tdiff.cast_bool fdata val_col) as [v|]; [|discriminate].
  intros E. injection E as <-. simpl. apply len_app_one.
Qed.

Lemma load_lines_stimes (max_col : Z) (flines : list string) :
  split_col <> Some "" ->
  forall st st',
    load_lines max_col st flines = Tdiff.Returns st' ->
    len (Tdiff.stimes (Tdiff.self st'))
    = len (Tdiff.stimes (Tdiff.self st))
      + Notions.count (start_read max_col) flines.
Proof.
  intros Hsep. induction flines as [|fline flines IH]; intros st st'.
  - simpl. intros E. injection E as <-. unfold Notions.count, len. simpl.
    lia.
  - cbn [Tdiff.load_lines].
    destruct (load_line max_col st fline) as [st1|e st1] eqn:Hrun;
      [|discriminate].
    intros Hrest. rewrite count_cons.
    rewrite (IH st1 st' Hrest).
    rewrite (load_line_stimes max_col st st1 fline Hsep Hrun). lia.
Qed.

Lemma count_ext (p q : string -> bool) (flines : list string) :
  (forall fline, In fline flines -> p fline = q fline) ->
  Notions.count p flines = Notions.count q flines.
Proof.
  induction flines as [|fline flines IH]; intros Hpq; [reflexivity|].
  rewrite !count_cons, (Hpq fline) by (left; reflexivity).
  rewrite IH; [reflexivity|]. intros f Hf. apply Hpq. right. exact Hf.
Qed.

(** X15. When every line whose start time is read also has an end time
    that parses and four columns that convert, the load returns and the
    six lists, of one length before, are of one length after. *)
Lemma load_tdiff_parallel (o : Tdiff.radTdiff) (flines : list string)
  (max_col : Z) :
  Spec.parallel o ->
  Forall (fun c => 0 <= c) all_cols ->
  split_col <> Some "" ->
  py_max all_cols = Ok max_col ->
  (forall fline,
     In fline flines -> start_read max_col fline = true ->
     kept max_col fline = true /\ casts fline = true) ->
  exists st,
    load_tdiff o flines = Tdiff.Returns st
    /\ Spec.parallel (Tdiff.self st).
Proof.
  intros Hpar Hcols Hsep Hmax Hlines.
  destruct (py_min_nonneg all_cols) as [lo [Hmin Hlo]];
    [discriminate | exact Hcols |].
  unfold Tdiff.load_tdiff. rewrite Hmin.
  destruct (Z.ltb_spec lo 0) as [H|_]; [lia|].
  rewrite Hmax.
  set (start := {| Tdiff.self := o; Tdiff.bad_lines := 0;
                   Tdiff.log := [] |}).
  assert (Hkept : forall fline, In fline flines ->
                    kept max_col fline = start_read max_col fline).
  { intros fline Hin. specialize (Hlines fline Hin).
    destruct (start_read max_col fline) eqn:Hs.
    - apply Hlines. reflexivity.
    - unfold Notions.kept. unfold Notions.start_read in Hs.
      rewrite Hs. reflexivity. }
  destruct (load_lines_summary max_col flines Hsep) with (st := start)
    as [st [Hrun [_ [_ Hgrow]]]].
  { intros fline Hin Hk. apply Hlines; [exact Hin|].
    rewrite <- (Hkept fline Hin). exact Hk. }
  pose proof (load_lines_stimes max_col flines Hsep start st Hrun) as Hst.
  rewrite <- (count_ext _ _ flines Hkept) in Hst.
  rewrite Hrun.
  assert (Hfinal : Spec.parallel (Tdiff.self st)).
  { unfold Spec.parallel, Notions.grown in *. simpl in Hst, Hgrow.
    intuition lia. }
  destruct (Tdiff.bad_lines st >? 0); eexists; (split; [reflexivity|]);
    exact Hfinal.
Qed.

Lemma fold_max_ge (l : list Z) (x : Z) : x <= fold_left Z.max l x.
Proof.
  revert x. induction l as [|y l IH]; intros x; simpl; [lia|].
  specialize (IH (Z.max x y)). lia.
Qed.

Lemma py_index_raises {A : Type} (l : list A) (i : Z) (e : exn) :
  py_index l i = Raise e -> e = IndexError.
Proof.
  unfold py_index.
  destruct ((if i <? 0 then i + len l else i) <? 0);
    [intros H; injection H as <-; reflexivity|].
  destruct (nth_error l _); [discriminate|].
  intros H. injection H as <-. reflexivity.
Qed.

(** A column inside the line: the conversion raises [ValueError] or
    gives a value. *)
Lemma cast_int_inside (fdata : list string) (col : Z) :
  0 <= col < len fdata ->
  (exists b, Tdiff.cast_int lib fdata col = Ok b)
  \/ Tdiff.cast_int lib fdata col = Raise ValueError.
Proof.
  intros Hcol. destruct (py_index_in_range fdata col Hcol) as [x [Hx _]].
  unfold Tdiff.cast_int. rewrite Hx. cbn [bind].
  destruct (str_int lib x); [left; eexists|right]; reflexivity.
Qed.

Lemma cast_float_inside (fdata : list string) (col : Z) :
  0 <= col < len fdata ->
  (exists x, Tdiff.cast_float lib fdata col = Ok x)
  \/ Tdiff.cast_float lib fdata col = Raise ValueError.
Proof.
  intros Hcol. destruct (py_index_in_range fdata col Hcol) as [x [Hx _]].
  unfold Tdiff.cast_float. rewrite Hx. cbn [bind].
  destruct (str_float lib x); [left; eexists|right]; reflexivity.
Qed.

Lemma cast_bool_raises (fdata : list string) (col : Z) (e : exn) :
  Tdiff.cast_bool fdata col = Raise e -> e = IndexError.
Proof.
  unfold Tdiff.cast_bool.
  destruct (py_index fdata col) as [x|e'] eqn:E; [discriminate|].
  cbn [bind]. intros H. injection H as <-.
  apply (py_index_raises _ _ _ E).
Qed.

(** A line that reaches the casts and fails one of them: the exception,
    and what the line has appended by then. *)
Lemma load_line_stops (max_col : Z) (st : Tdiff.loading) (fline : string) :
  split_col <> Some "" ->
  0 <= tband_col <= max_col -> 0 <= tdiff_col <= max_col ->
  0 <= terr_col <= max_col ->
  kept max_col fline = true -> casts fline = false ->
  exists st',
    load_line max_col st fline = Tdiff.Raises (cast_exception fline) st'
    /\ Tdiff.bad_lines st' = Tdiff.bad_lines st
    /\ Tdiff.log st' = Tdiff.log st
    /\ Notions.stopped (Tdiff.self st) (Tdiff.self st') 0 0
         (converted fline).
Proof.
  intros Hsep Hband Htdiff Hterr Hkept Hcasts.
  unfold Tdiff.load_line, Notions.kept, Notions.casts, Notions.data_line,
    Notions.too_few_columns, Notions.start_parses, Notions.end_parses,
    Notions.cast_exception, Notions.converted in *.
  rewrite (str_split_fields fline Hsep).
  set (fdata := Notions.fields split_col fline) in *.
  destruct (str_find fline "#" <? 0); [|discriminate].
  destruct (Z.leb_spec (len fdata) max_col) as [|Hwide]; [discriminate|].
  unfold Tdiff.load_fields.
  destruct (Tdiff.parse_time lib time_fmt fdata stime_cols) as [t0|e0];
    [|discriminate].
  destruct (Tdiff.parse_time lib time_fmt fdata etime_cols) as [t1|e1];
    [|discriminate].
  unfold Notions.stopped.
  destruct (cast_int_inside fdata tband_col) as [[b Eb]|Eb]; [lia| |];
    rewrite Eb in Hcasts |- *.
  2:{ eexists. split; [reflexivity|]. cbn.
      rewrite !len_app_one. repeat split; lia. }
  destruct (cast_float_inside fdata tdiff_col) as [[x Ex]|Ex]; [lia| |];
    rewrite Ex in Hcasts |- *.
  2:{ eexists. split; [reflexivity|]. cbn.
      rewrite !len_app_one. repeat split; lia. }
  destruct (cast_float_inside fdata terr_col) as [[y Ey]|Ey]; [lia| |];
    rewrite Ey in Hcasts |- *.
  2:{ eexists. split; [reflexivity|]. cbn.
      rewrite !len_app_one. repeat split; lia. }
  destruct (Tdiff.cast_bool fdata val_col) as [v|e] eqn:Ev;
    [cbn in Hcasts; discriminate Hcasts|].
  rewrite (cast_bool_raises fdata val_col e Ev).
  eexists. split; [reflexivity|]. cbn.
  rewrite !len_app_one. repeat split; lia.
Qed.

Lemma load_lines_app (max_col : Z) (pre rest : list string) :
  forall st,
    load_lines max_col st (pre ++ rest)
    = match load_lines max_col st pre with
      | Tdiff.Returns st1 => load_lines max_col st1 rest
      | Tdiff.Raises e st1 => Tdiff.Raises e st1
      end.
Proof.
  induction pre as [|fline pre IH]; intros st; [reflexivity|].
  cbn [app Tdiff.load_lines].
  destruct (load_line max_col st fline); [apply IH | reflexivity].
Qed.

(** The first line of a file that reaches the casts and fails one. *)
Lemma first_failing_line (max_col : Z) (flines : list string) :
  (exists fline, In fline flines /\ kept max_col fline = true
                 /\ casts fline = false) ->
  exists pre bad post,
    flines = pre ++ bad :: post
    /\ (forall fline, In fline pre ->
          kept max_col fline = true -> casts fline = true)
    /\ kept max_col bad = true /\ casts bad = false.
Proof.
  induction flines as [|fline flines IH]; intros [bad [Hin [Hk Hc]]];
    [destruct Hin|].
  destruct (kept max_col fline && negb (casts fline)) eqn:Hhere.
  - apply andb_prop in Hhere. destruct Hhere as [Hk' Hc'].
    apply negb_true_iff in Hc'.
    exists [], fline, flines. split; [reflexivity|].
    split; [intros f []|]. split; assumption.
  - destruct IH as [pre [bad' [post [E [Hpre [Hk' Hc']]]]]].
    { destruct Hin as [->|Hin]; [|exists bad; auto].
      rewrite Hk, Hc in Hhere. discriminate. }
    exists (fline :: pre), bad', post. split; [rewrite E; reflexivity|].
    split; [|split; assumption].
    intros f [<-|Hf] Hkf; [|apply Hpre; assumption].
    rewrite Hkf in Hhere. destruct (casts fline); [reflexivity|discriminate].
Qed.

(** C5, as amended. With no negative tdiff, error, band or time column and
    a separator that is not the empty string, let [max_col] be the largest
    of these columns. If every line that has no comment marker, more than
    [max_col] columns and two times that parse also has a band, a tdiff
    and an error that convert and a validation column inside the line,
    then [load_tdiff] returns; the lines with too few columns or with a
    time that does not parse are counted and add nothing to the lists of
    bands, end times, estimates, errors and flags, each line left adds one
    entry to each of them, a warning is logged for each line whose times
    do not parse, and the count, when positive, is logged once, as the last
    record. If instead some such line has a column that does not convert,
    [load_tdiff] raises at the first such line: [ValueError] when its
    band, tdiff or error is no number, [IndexError] when these convert and
    the validation column is outside the line. The lines before it have
    been counted and warned about and have added their entries as above,
    the line itself has added its two times and the columns converted
    before the one at fault, and the count is not logged. *)
Theorem load_tdiff_skips_and_counts (o : Tdiff.radTdiff)
  (flines : list string) :
  Forall (fun c => 0 <= c) all_cols ->
  split_col <> Some "" ->
  exists max_col,
    py_max all_cols = Ok max_col
    /\ ((forall fline, In fline flines ->
           kept max_col fline = true -> casts fline = true) ->
        exists st,
          load_tdiff o flines = Tdiff.Returns st
          /\ Tdiff.bad_lines st = Notions.count (skipped max_col) flines
          /\ Tdiff.log st
             = map (fun _ => warning) (filter (bad_times max_col) flines)
               ++ (if Tdiff.bad_lines st >? 0
                   then [(INFO, ShortLinesRemoved (Tdiff.bad_lines st))]
                   else [])
          /\ Notions.grown o (Tdiff.self st)
               (Notions.count (kept max_col) flines))
    /\ ((exists fline, In fline flines /\ kept max_col fline = true
                       /\ casts fline = false) ->
        exists pre bad post st,
          flines = pre ++ bad :: post
          /\ (forall fline, In fline pre ->
                kept max_col fline = true -> casts fline = true)
          /\ kept max_col bad = true /\ casts bad = false
          /\ load_tdiff o flines = Tdiff.Raises (cast_exception bad) st
          /\ Tdiff.bad_lines st = Notions.count (skipped max_col) pre
          /\ Tdiff.log st
             = map (fun _ => warning) (filter (bad_times max_col) pre)
          /\ Notions.stopped o (Tdiff.self st)
               (Notions.count (start_read max_col) pre)
               (Notions.count (kept max_col) pre) (converted bad)).
Proof.
  intros Hcols Hsep.
  destruct (py_min_nonneg all_cols) as [lo [Hmin Hlo]];
    [discriminate | exact Hcols |].
  exists (fold_left Z.max (stime_cols ++ etime_cols)
            (Z.max (Z.max tdiff_col terr_col) tband_col)).
  split; [reflexivity|].
  unfold Tdiff.load_tdiff. rewrite Hmin.
  destruct (Z.ltb_spec lo 0) as [H|_]; [lia|].
  cbn [py_max Tdiff.all_cols app fold_left].
  set (max_col := fold_left Z.max (stime_cols ++ etime_cols)
                    (Z.max (Z.max tdiff_col terr_col) tband_col)).
  set (start := {| Tdiff.self := o; Tdiff.bad_lines := 0;
                   Tdiff.log := [] |}).
  split.
  - intros Hcasts.
    destruct (load_lines_summary max_col flines Hsep Hcasts start)
      as [st [Hrun [Hbad [Hlog Hgrow]]]].
    rewrite Hrun. simpl in Hbad, Hlog, Hgrow.
    destruct (Tdiff.bad_lines st >? 0) eqn:Hpos.
    + eexists. split; [reflexivity|]. cbn [Tdiff.bad_lines Tdiff.log
        Tdiff.self]. rewrite Hpos, Hlog.
      split; [exact Hbad|]. split; [reflexivity | exact Hgrow].
    + exists st. rewrite Hpos, app_nil_r.
      split; [reflexivity|]. split; [exact Hbad|].
      split; [exact Hlog | exact Hgrow].
  - intros Hbad.
    destruct (first_failing_line max_col flines Hbad)
      as [pre [bad [post [E [Hpre [Hk Hc]]]]]].
    exists pre, bad, post.
    pose proof (fold_max_ge (stime_cols ++ etime_cols)
                  (Z.max (Z.max tdiff_col terr_col) tband_col)) as Hmax.
    fold max_col in Hmax.
    assert (Hnn : 0 <= tdiff_col /\ 0 <= terr_col /\ 0 <= tband_col).
    { unfold Tdiff.all_cols in Hcols. cbn [app] in Hcols.
      inversion Hcols as [|? ? H1 Hc1]; subst.
      inversion Hc1 as [|? ? H2 Hc2]; subst.
      inversion Hc2 as [|? ? H3 _]; subst. auto. }
    destruct (load_lines_summary max_col pre Hsep Hpre start)
      as [st1 [Hrun1 [Hbad1 [Hlog1 Hgrow1]]]].
    pose proof (load_lines_stimes max_col pre Hsep start st1 Hrun1) as Hst1.
    destruct (load_line_stops max_col st1 bad Hsep)
      as [st2 [Hrun2 [Hbad2 [Hlog2 Hstop]]]]; try assumption; try lia.
    exists st2.
    split; [exact E|]. split; [exact Hpre|].
    split; [exact Hk|]. split; [exact Hc|].
    rewrite E, load_lines_app, Hrun1. cbn [Tdiff.load_lines].
    rewrite Hrun2.
    split; [reflexivity|].
    simpl in Hbad1, Hlog1, Hgrow1, Hst1.
    split; [lia|]. split; [congruence|].
    unfold Notions.stopped, Notions.grown in *. intuition lia.
Qed.

End Loading.

(** * Loading: examples and the hardware files *)

Section LoadingExamples.

(** The file [mixed_file] with the columns tdiff 3, error 4, band 2,
    validation 5, start 0, end 1: two records are loaded, three lines are
    counted, two of them with a warning, and the count is the last
    record of the log. *)
Lemma load_tdiff_skips_and_counts_mixed_file :
  exists st,
    Tdiff.load_tdiff Sample.lib 3 4 2 5 [0] [1] "%Y" None
      Sample.no_records Sample.mixed_file = Tdiff.Returns st
    /\ Tdiff.bad_lines st = 3
    /\ Tdiff.log st
       = [(WARNING, CantFormatTimes "%Y"); (WARNING, CantFormatTimes "%Y");
          (INFO, ShortLinesRemoved 3)]
    /\ Notions.grown Sample.no_records (Tdiff.self st) 2.
Proof.
  destruct (load_tdiff_skips_and_counts Sample.lib 3 4 2 5 [0] [1] "%Y"
              None Sample.no_records Sample.mixed_file)
    as [max_col [Hmax [Hreturns _]]].
  - repeat constructor; discriminate.
  - discriminate.
  - injection Hmax as <-.
    destruct Hreturns as [st [Hrun [Hbad [Hlog Hgrow]]]].
    + intros fline Hin. simpl in Hin.
      repeat (destruct Hin as [<-|Hin];
              [vm_compute; intros; first [reflexivity | discriminate]|]).
      destruct Hin.
    + exists st. split; [exact Hrun|].
      rewrite Hbad in Hlog. vm_compute in Hbad, Hlog.
      split; [exact Hbad|]. split; [exact Hlog|].
      exact Hgrow.
Defined.

(** A line whose band column is no number: [load_tdiff] raises
    [ValueError], and so does the constructor that called it. *)
Lemma load_tdiff_raises_on_band_text :
  (exists st,
     Tdiff.load_tdiff Sample.lib 3 4 2 5 [0] [1] "%Y" None
       Sample.no_records [Sample.line "2000 2001 x 7 1 1"]
     = Tdiff.Raises ValueError st)
  /\ Tdiff.init (Sample.world_with [Sample.line "2000 2001 x 7 1 1"])
       (PyInt 10) (Some "han.tdiff") 3 4 2 5 [0] [1] "%Y" None
     = Raise ValueError.
Proof.
  split; [eexists|]; reflexivity.
Qed.

(** C9. With the validation column -1 and every other column valid, the
    load does not stop: the line of the file is read, its record is
    appended with the flag taken from the last column, and no error is
    logged. *)
Theorem load_tdiff_negative_val_col :
  exists st,
    Tdiff.load_tdiff Sample.lib 3 4 2 (-1) [0] [1] "%Y" None
      Sample.no_records [Sample.line "2000 2001 3 7 1 1"]
    = Tdiff.Returns st
    /\ Tdiff.tbands (Tdiff.self st) = [3]
    /\ Tdiff.est_tdiffs (Tdiff.self st) = [7%float]
    /\ Tdiff.validated (Tdiff.self st) = [true]
    /\ Tdiff.log st = [].
Proof.
  eexists. split; [reflexivity|]. repeat split; reflexivity.
Qed.

Lemma append_hardware_parallel (stime : datetime) (hard : Tdiff.site)
  (o : Tdiff.radTdiff) (tt : Z) :
  Spec.parallel o -> Spec.parallel (Tdiff.append_hardware stime hard o tt).
Proof.
  unfold Spec.parallel, Tdiff.append_hardware. simpl.
  rewrite !len_app_one. intuition lia.
Qed.

Lemma fold_append_hardware_parallel (stime : datetime) (hard : Tdiff.site)
  (rad_tbands : list Z) (o : Tdiff.radTdiff) :
  Spec.parallel o ->
  Spec.parallel (fold_left (Tdiff.append_hardware stime hard) rad_tbands o).
Proof.
  revert o. induction rad_tbands as [|tt rad_tbands IH]; intros o Ho.
  - exact Ho.
  - simpl. apply IH. apply append_hardware_parallel. exact Ho.
Qed.

Lemma hardware_sites_parallel (rad_tbands : list Z) (hards : list Tdiff.site)
  (stime : datetime) (o : Tdiff.radTdiff) :
  Spec.parallel o ->
  Spec.parallel (Tdiff.hardware_sites rad_tbands stime o hards).
Proof.
  revert stime o. induction hards as [|hard hards IH]; intros stime o Ho.
  - exact Ho.
  - simpl. apply IH. apply fold_append_hardware_parallel. exact Ho.
Qed.

(** An object built from the hardware files has six lists of one
    length. *)
Lemma init_hardware_parallel (w : Tdiff.world) (rad : pyval)
  (tdiff_col terr_col tband_col val_col : Z)
  (stime_cols etime_cols : list Z) (time_fmt : string)
  (split_col : option string) (o : Tdiff.radTdiff)
  (log : list log_record) :
  Tdiff.init w rad None tdiff_col terr_col tband_col val_col stime_cols
    etime_cols time_fmt split_col = Ok (o, log) ->
  Spec.parallel o.
Proof.
  unfold Tdiff.init.
  destruct (Tdiff.assign_ids rad) as [[code sid]|e]; [|discriminate].
  cbn [bind]. unfold Tdiff.load_hardware_tdiff. cbn [Tdiff.rad_code].
  destruct (Tdiff.radar w code) as [rad_hdw|e]; [|discriminate].
  cbn [bind].
  destruct (FreqBands.init code (Tdiff.today w)) as [bands|e];
    [|discriminate].
  cbn [bind]. intros E. injection E as <- _.
  apply hardware_sites_parallel.
  unfold Spec.parallel. simpl. repeat split; reflexivity.
Qed.

(** C3. A file with one line whose start time parses and whose end time
    does not: the constructor returns an object with one start time and no
    end time, band, estimate, error or flag, so the six lists do not have
    one length. *)
Theorem init_end_time_failure :
  exists o log,
    Tdiff.init (Sample.world_with [Sample.line "2000 zzzz 3 7 1 1"])
      (PyInt 10) (Some "han.tdiff") 3 4 2 5 [0] [1] "%Y" None
    = Ok (o, log)
    /\ len (Tdiff.stimes o) = 1
    /\ len (Tdiff.etimes o) = 0
    /\ len (Tdiff.tbands o) = 0
    /\ len (Tdiff.est_tdiffs o) = 0
    /\ len (Tdiff.tdiff_errs o) = 0
    /\ len (Tdiff.validated o) = 0
    /\ ~ Spec.parallel o.
Proof.
  eexists. eexists. split; [reflexivity|].
  repeat (split; [reflexivity|]).
  unfold Spec.parallel. cbn. intros [H _]. discriminate H.
Qed.

End LoadingExamples.

(** * Records in the order of their start times *)

Section Positions.

Context {A B : Type}.

Lemma np_where_indexed (p : B -> bool) (g : A -> B) (l : list A) (i : Z) :
  np_where_from p i (map g l)
  = map fst (filter (fun ir => p (g (snd ir))) (Notions.indexed_from i l)).
Proof.
  revert i. induction l as [|x l IH]; intros i; [reflexivity|].
  simpl. destruct (p (g x)); simpl; rewrite IH; reflexivity.
Qed.

Lemma filter_indexed (q : A -> bool) (l : list A) (i : Z) :
  map snd (filter (fun ir => q (snd ir)) (Notions.indexed_from i l)) = filter q l.
Proof.
  revert i. induction l as [|x l IH]; intros i; [reflexivity|].
  simpl. destruct (q x); simpl; rewrite IH; reflexivity.
Qed.

Lemma indexed_nonneg (l : list A) (i : Z) :
  0 <= i -> Forall (fun ir => 0 <= fst ir) (Notions.indexed_from i l).
Proof.
  revert i. induction l as [|x l IH]; intros i Hi; simpl; constructor.
  - exact Hi.
  - apply IH. lia.
Qed.

Lemma py_index_app_len (pre : list B) (x : B) (rest : list B) :
  py_index (pre ++ x :: rest) (len pre) = Ok x.
Proof.
  unfold py_index. pose proof (len_nonneg pre) as Hn.
  destruct (Z.ltb_spec (len pre) 0) as [H|_]; [lia|].
  destruct (Z.ltb_spec (len pre) 0) as [H|_]; [lia|].
  unfold len. rewrite Nat2Z.id, nth_error_app2 by lia.
  rewrite Nat.sub_diag. reflexivity.
Qed.

Lemma indexed_at (f : A -> B) (l : list A) (pre : list B) :
  Forall (fun ir => py_index (pre ++ map f l) (fst ir) = Ok (f (snd ir)))
    (Notions.indexed_from (len pre) l).
Proof.
  revert pre. induction l as [|x l IH]; intros pre; simpl; constructor.
  - apply py_index_app_len.
  - specialize (IH (pre ++ [f x])).
    rewrite len_app_one, <- app_assoc in IH. exact IH.
Qed.

Lemma np_take_indexed (a : list B) (h : A -> B) (sub : list (Z * A)) :
  Forall (fun ir => py_index a (fst ir) = Ok (h (snd ir))) sub ->
  np_take a (map fst sub) = Ok (map (fun ir => h (snd ir)) sub).
Proof.
  induction 1 as [|ir sub Hir _ IH]; [reflexivity|].
  simpl. rewrite Hir, IH. reflexivity.
Qed.

Lemma Forall_filter_keep (P : A -> Prop) (q : A -> bool) (l : list A) :
  Forall P l -> Forall P (filter q l).
Proof.
  rewrite !Forall_forall. intros H x Hx. apply filter_In in Hx.
  apply H, Hx.
Qed.

End Positions.

Lemma np_take_where {A B C : Type} (f : A -> B) (g : A -> C)
  (p : C -> bool) (l : list A) :
  np_take (map f l) (np_where p (map g l))
  = Ok (map f (filter (fun x => p (g x)) l)).
Proof.
  unfold np_where. rewrite np_where_indexed.
  rewrite (np_take_indexed (map f l) f).
  - f_equal. rewrite <- (filter_indexed (fun x => p (g x)) l 0).
    rewrite map_map. reflexivity.
  - apply Forall_filter_keep. apply (indexed_at f l []).
Qed.

Lemma records_of_maps (bs : list Z) :
  forall (ss es : list datetime) (xs ys : list float) (vs : list bool),
    List.length ss = List.length bs -> List.length es = List.length bs ->
    List.length xs = List.length bs -> List.length ys = List.length bs ->
    List.length vs = List.length bs ->
    let rs := Spec.records_of bs ss es xs ys vs in
    bs = map Spec.band rs /\ ss = map Spec.startTime rs
    /\ es = map Spec.endTime rs /\ xs = map Spec.estimateMicrosec rs
    /\ ys = map Spec.errorMicrosec rs /\ vs = map Spec.validated rs.
Proof.
  induction bs as [|b bs IH];
    intros [|s ss] [|e es] [|x xs] [|y ys] [|v vs]; simpl;
    try discriminate; intros H1 H2 H3 H4 H5.
  - repeat split; reflexivity.
  - destruct (IH ss es xs ys vs) as [E1 [E2 [E3 [E4 [E5 E6]]]]];
      try congruence.
    repeat split; f_equal; assumption.
Qed.

Lemma parallel_records (o : Tdiff.radTdiff) :
  Spec.parallel o ->
  let rs := Spec.records o in
  Tdiff.tbands o = map Spec.band rs
  /\ Tdiff.stimes o = map Spec.startTime rs
  /\ Tdiff.etimes o = map Spec.endTime rs
  /\ Tdiff.est_tdiffs o = map Spec.estimateMicrosec rs
  /\ Tdiff.tdiff_errs o = map Spec.errorMicrosec rs
  /\ Tdiff.validated o = map Spec.validated rs.
Proof.
  unfold Spec.parallel, Spec.records, len.
  intros [H1 [H2 [H3 [H4 H5]]]].
  apply records_of_maps; lia.
Qed.

Lemma filter_none {A : Type} (p : A -> bool) (l : list A) :
  Forall (fun x => p x = false) l -> filter p l = [].
Proof.
  induction 1 as [|x l Hx _ IH]; [reflexivity|].
  simpl. rewrite Hx. exact IH.
Qed.

Lemma sorted_prefix {A : Type} (key : A -> Z) (t : Z) (l : list A) :
  StronglySorted (fun x y => key x <= key y) l ->
  exists rest, l = filter (fun x => key x <=? t) l ++ rest.
Proof.
  induction 1 as [|x l Hsorted [rest IH] Hx].
  - exists []. reflexivity.
  - simpl. destruct (Z.leb_spec (key x) t) as [Hle|Hgt].
    + exists rest. simpl. f_equal. exact IH.
    + exists (x :: l). rewrite filter_none; [reflexivity|].
      apply (Forall_impl _ (P := fun y => key x <= key y)); [|exact Hx].
      intros y Hy. apply Z.leb_gt. lia.
Qed.

Lemma StronglySorted_map {A B : Type} (f : A -> B) (R : B -> B -> Prop)
  (l : list A) :
  StronglySorted R (map f l) ->
  StronglySorted (fun x y => R (f x) (f y)) l.
Proof.
  induction l as [|x l IH]; intros H; [constructor|].
  simpl in H. inversion H as [|? ? Hl Hx]; subst.
  constructor; [apply IH; exact Hl|].
  rewrite Forall_map in Hx. exact Hx.
Qed.

Lemma py_index_app_left {A : Type} (l rest : list A) (k : Z) (x : A) :
  0 <= k -> py_index l k = Ok x -> py_index (l ++ rest) k = Ok x.
Proof.
  intros Hk. unfold py_index.
  destruct (Z.ltb_spec k 0) as [H|_]; [lia|].
  destruct (Z.ltb_spec k 0) as [H|_]; [lia|].
  destruct (nth_error l (Z.to_nat k)) as [y|] eqn:E; [|discriminate].
  intros Hy. rewrite nth_error_app1; [rewrite E; exact Hy|].
  apply nth_error_Some. congruence.
Qed.

Lemma np_where_from_nonneg {A : Type} (p : A -> bool) (l : list A) (i : Z) :
  0 <= i -> Forall (fun k => 0 <= k) (np_where_from p i l).
Proof.
  revert i. induction l as [|x l IH]; intros i Hi; simpl; [constructor|].
  destruct (p x); [constructor; [exact Hi|]|]; apply IH; lia.
Qed.

Lemma np_take_length {A : Type} (a : list A) (idx : list Z) (xs : list A) :
  np_take a idx = Ok xs -> List.length xs = List.length idx.
Proof.
  revert xs. induction idx as [|i idx IH]; intros xs; simpl.
  - intros E. injection E as <-. reflexivity.
  - destruct (py_index a i) as [x|]; [|discriminate]. simpl.
    destruct (np_take a idx) as [ys|]; [|discriminate]. simpl.
    intros E. injection E as <-. simpl. f_equal. apply IH. reflexivity.
Qed.

Section InOrder.

Variable o : Tdiff.radTdiff.
Variable tband : Z.
Variable ttime : datetime.
Variable tval : bool.

Hypothesis Hpar : Spec.parallel o.
Hypothesis Hord : Notions.in_start_order (Spec.records o) tband.

(** Under numpy up to 1.11: when the six lists have one length and the
    records of the band are in the order of their start times,
    [get_tdiff] gives what the rule of three filters gives, with and
    without the validation requirement. *)
Lemma get_tdiff_in_start_order :
  Tdiff.get_tdiff o tband ttime tval
  = Ok (Spec.resolve (Spec.records o) tband ttime tval).
Proof.
  destruct (parallel_records o Hpar) as [Eb [Es [Ee [Ex [Ey Ev]]]]].
  set (rs := Spec.records o) in *.
  set (irs := Notions.indexed_from 0 rs).
  set (IB := filter (fun ir => Spec.band (snd ir) =? tband) irs).
  set (IS := filter (fun ir => Spec.startTime (snd ir) <=? ttime) IB).
  set (IE := filter (fun ir => Spec.endTime (snd ir) >=? ttime) IS).
  assert (Hat : forall (B : Type) (f : Spec.TdiffRecord -> B),
             Forall (fun ir => py_index (map f rs) (fst ir) = Ok (f (snd ir)))
               irs) by (intros B f; apply (indexed_at f rs [])).
  assert (HatE : forall (B : Type) (f : Spec.TdiffRecord -> B),
             Forall (fun ir => py_index (map f rs) (fst ir) = Ok (f (snd ir)))
               IE).
  { intros B f. unfold IE, IS, IB. repeat apply Forall_filter_keep. apply Hat. }
  assert (Hmatch : Spec.matching rs tband ttime = map snd IE).
  { unfold Spec.matching, IE, IS, IB, irs.
    rewrite <- (filter_indexed (fun r => Spec.band r =? tband) rs 0).
    set (L := filter _ (Notions.indexed_from 0 rs)).
    assert (Hf : forall (q : Spec.TdiffRecord -> bool) (l : list (Z * Spec.TdiffRecord)),
               filter q (map snd l) = map snd (filter (fun ir => q (snd ir)) l)).
    { intros q l. induction l as [|x l IHl]; [reflexivity|].
      simpl. destruct (q (snd x)); simpl; rewrite IHl; reflexivity. }
    rewrite !Hf. reflexivity. }
  unfold Tdiff.get_tdiff, Spec.resolve. rewrite Hmatch.
  rewrite Eb, Es, Ee, Ex, Ey, Ev.
  assert (Hib : np_where (fun b => b =? tband) (map Spec.band rs)
                = map fst IB).
  { unfold np_where. rewrite np_where_indexed. reflexivity. }
  rewrite Hib.
  destruct (Z.gtb_spec (len (map fst IB)) 0) as [Hnb|Hnb].
  2:{ assert (IB = []) as HIB.
      { destruct IB; [reflexivity|]. unfold len in Hnb. simpl in Hnb. lia. }
      unfold IE, IS. rewrite HIB. reflexivity. }
  rewrite (np_take_indexed (map Spec.startTime rs) Spec.startTime IB)
    by (unfold IB; apply Forall_filter_keep, Hat).
  cbn [bind].
  set (itime1 := np_where (fun t => t <=? ttime)
                   (map (fun ir : Z * Spec.TdiffRecord =>
                           Spec.startTime (snd ir)) IB)).
  assert (Hidiff : np_take (map fst IB) itime1 = Ok (map fst IS)).
  { unfold itime1, IS.
    apply (np_take_where fst (fun ir : Z * Spec.TdiffRecord =>
                                Spec.startTime (snd ir))). }
  destruct (Z.gtb_spec (len itime1) 0) as [Hn1|Hn1].
  2:{ assert (itime1 = []) as H1.
      { destruct itime1; [reflexivity|]. unfold len in Hn1. simpl in Hn1.
        lia. }
      rewrite H1 in Hidiff. simpl in Hidiff. injection Hidiff as Hnil.
      assert (IS = []) as HIS by (destruct IS; [reflexivity|discriminate]).
      unfold IE. rewrite HIS. reflexivity. }
  rewrite Hidiff. cbn [bind].
  rewrite (np_take_indexed (map Spec.endTime rs) Spec.endTime IS)
    by (unfold IS, IB; repeat apply Forall_filter_keep; apply Hat).
  cbn [bind].
  set (itime2 := np_where (fun t => t >=? ttime)
                   (map (fun ir : Z * Spec.TdiffRecord =>
                           Spec.endTime (snd ir)) IS)).
  assert (Hie : np_take (map fst IS) itime2 = Ok (map fst IE)).
  { unfold itime2, IE.
    apply (np_take_where fst (fun ir : Z * Spec.TdiffRecord =>
                                Spec.endTime (snd ir))). }
  assert (Hlen : List.length IE = List.length itime2).
  { apply np_take_length in Hie. rewrite length_map in Hie. exact Hie. }
  destruct (Z.eqb_spec (len itime2) 1) as [Hone|Hmany].
  2:{ destruct IE as [|ir1 [|ir2 IE']]; try reflexivity.
      exfalso. apply Hmany. unfold len. rewrite <- Hlen. reflexivity. }
  destruct itime2 as [|k [|k' itime2']] eqn:Hk;
    try (unfold len in Hone; simpl in Hone; lia).
  destruct IE as [|[i r] [|ir2 IE']] eqn:HIE; try discriminate.
  simpl in Hie.
  destruct (py_index (map fst IS) k) as [i'|] eqn:Hpk; [|discriminate].
  simpl in Hie. injection Hie as ->.
  assert (Hk0 : 0 <= k).
  { pose proof (np_where_from_nonneg (fun t => t >=? ttime)
                  (map (fun ir : Z * Spec.TdiffRecord =>
                          Spec.endTime (snd ir)) IS) 0 (Z.le_refl 0)) as Hnn.
    fold (np_where (fun t => t >=? ttime)
            (map (fun ir : Z * Spec.TdiffRecord => Spec.endTime (snd ir)) IS))
      in Hnn.
    fold itime2 in Hnn. rewrite Hk in Hnn. inversion Hnn. assumption. }
  assert (Hpre : exists rest, IB = IS ++ rest).
  { unfold IS.
    apply (sorted_prefix (fun ir : Z * Spec.TdiffRecord =>
                            Spec.startTime (snd ir)) ttime IB).
    apply (StronglySorted_map snd
             (fun r1 r2 => Spec.startTime r1 <= Spec.startTime r2)).
    unfold IB, irs.
    rewrite (filter_indexed (fun r => Spec.band r =? tband) rs 0).
    exact Hord. }
  destruct Hpre as [rest Hrest].
  assert (Hpick : py_index (map fst IB) k = Ok i).
  { rewrite Hrest, map_app. apply py_index_app_left; assumption. }
  cbn [np_take]. rewrite Hpick. cbn [bind list_index_array].
  pose proof (HatE bool Spec.validated) as Hv.
  pose proof (HatE float Spec.estimateMicrosec) as Hx.
  pose proof (HatE float Spec.errorMicrosec) as Hy.
  inversion Hv as [|? ? Hv1 _]; inversion Hx as [|? ? Hx1 _];
    inversion Hy as [|? ? Hy1 _]; subst.
  cbn [fst snd] in Hv1, Hx1, Hy1.
  rewrite Hx1, Hy1. cbn [map snd].
  destruct tval; cbn [negb orb andb bind].
  - rewrite Hv1. cbn [bind]. destruct (Spec.validated r); reflexivity.
  - reflexivity.
Qed.

End InOrder.

(** The object [earlier_first] is in start order, so on 1 June 2000
    [get_tdiff] returns the values of the record of 2000 when validation
    is not required, and (NaN, NaN) when it is. *)
Lemma get_tdiff_earlier_first :
  Tdiff.get_tdiff Sample.earlier_first 0 (dt_datetime 2000 6 1 0 0 0) false
  = Ok (Spec.estimateMicrosec Sample.record_2000,
        Spec.errorMicrosec Sample.record_2000)
  /\ Tdiff.get_tdiff Sample.earlier_first 0 (dt_datetime 2000 6 1 0 0 0) true
     = Ok (nan, nan).
Proof.
  set (t := dt_datetime 2000 6 1 0 0 0).
  assert (Hpar : Spec.parallel Sample.earlier_first)
    by (repeat split; reflexivity).
  assert (Hord : Notions.in_start_order
                   (Spec.records Sample.earlier_first) 0).
  { unfold Notions.in_start_order. cbn.
    repeat constructor. cbn. eval_datetimes. lia. }
  split.
  - rewrite (get_tdiff_in_start_order Sample.earlier_first 0 t false
               Hpar Hord).
    reflexivity.
  - rewrite (get_tdiff_in_start_order Sample.earlier_first 0 t true
               Hpar Hord).
    reflexivity.
Defined.

(** * The constructor of radFreqBands *)

Section Constructor.

Lemma dict_get_str_in {V : Type} (d : list (string * V)) (s : string)
  (v : V) :
  dict_get String.eqb d s = Ok v -> In (s, v) d.
Proof.
  induction d as [|[s' v'] d IH]; simpl; [discriminate|].
  destruct (String.eqb_spec s' s) as [->|Hne].
  - intros E. injection E as <-. left. reflexivity.
  - intros E. right. apply IH, E.
Qed.

Lemma dict_get_Z_in {V : Type} (d : list (Z * V)) (k : Z) (v : V) :
  dict_get Z.eqb d k = Ok v -> In (k, v) d.
Proof.
  induction d as [|[k' v'] d IH]; simpl; [discriminate|].
  destruct (Z.eqb_spec k' k) as [->|Hne].
  - intros E. injection E as <-. left. reflexivity.
  - intros E. right. apply IH, E.
Qed.

Lemma dict_get_raises {K V : Type} (eqb : K -> K -> bool)
  (d : list (K * V)) (k : K) (e : exn) :
  dict_get eqb d k = Raise e -> e = KeyError.
Proof.
  induction d as [|[k' v'] d IH]; simpl; [congruence|].
  destruct (eqb k' k); [discriminate | exact IH].
Qed.

Lemma by_code_in {V : Type} (d : list (string * V)) (code : pyval)
  (v : V) :
  FreqBands.by_code d code = Ok v -> exists s, code = PyStr s /\ In (s, v) d.
Proof.
  destruct code as [|n|s]; simpl; try discriminate.
  intros E. exists s. split; [reflexivity|]. apply dict_get_str_in, E.
Qed.

(** The codes that key the time catalog are in lowercase. *)
Lemma rad_band_time_lowercase (s : string)
  (versions : list (Z * (datetime * datetime))) :
  In (s, versions) FreqBands.rad_band_time -> str_lower s = s.
Proof.
  intros Hin. simpl in Hin.
  repeat (destruct Hin as [Hin|Hin]; [injection Hin as <- _; reflexivity|]).
  destruct Hin.
Qed.

(** In the time catalog the version keys of a radar are distinct and not
    negative. *)
Lemma rad_band_time_keys (s : string)
  (versions : list (Z * (datetime * datetime))) :
  In (s, versions) FreqBands.rad_band_time ->
  NoDup (map fst versions) /\ Forall (fun v => 0 <= fst v) versions.
Proof.
  intros Hin. simpl in Hin.
  repeat (destruct Hin as [Hin|Hin];
          [injection Hin as _ <-; split;
           [repeat constructor; simpl; intuition discriminate
           | repeat constructor; simpl; lia]|]).
  destruct Hin.
Qed.

Lemma scan_time_key_in (versions : list (Z * (datetime * datetime)))
  (rtime : datetime) :
  FreqBands.scan_time_key versions rtime = -1
  \/ In (FreqBands.scan_time_key versions rtime) (map fst versions).
Proof.
  induction versions as [|[k [t0 t1]] versions IH]; [left; reflexivity|].
  simpl. destruct ((t0 <=? rtime) && (t1 >? rtime)).
  - right. left. reflexivity.
  - destruct IH as [IH|IH]; [left; exact IH | right; right; exact IH].
Qed.

(** With distinct keys that are not -1, the version stored under the key
    the scan returns is in effect at the time. *)
Lemma scan_time_key_covers (versions : list (Z * (datetime * datetime)))
  (rtime t0 t1 : datetime) :
  NoDup (map fst versions) ->
  Forall (fun v => 0 <= fst v) versions ->
  In (FreqBands.scan_time_key versions rtime, (t0, t1)) versions ->
  t0 <= rtime < t1.
Proof.
  induction versions as [|[k [a b]] versions IH]; intros Hnd Hpos Hin;
    [destruct Hin|].
  inversion Hnd as [|? ? Hnotin Hnd']; subst.
  inversion Hpos as [|? ? Hk Hpos']; subst. simpl in Hk.
  simpl in Hin. simpl.
  destruct (Z.leb_spec a rtime) as [Ha|Ha];
    destruct (Z.gtb_spec b rtime) as [Hb|Hb]; simpl in *.
  - destruct Hin as [E|Hin]; [injection E as <- <-; lia|].
    exfalso. apply Hnotin. apply (in_map fst) in Hin. exact Hin.
  - destruct Hin as [E|Hin].
    + exfalso. injection E as E _ _.
      destruct (scan_time_key_in versions rtime) as [H|H];
        [lia | rewrite <- E in H; contradiction].
    + apply IH; assumption.
  - destruct Hin as [E|Hin].
    + exfalso. injection E as E _ _.
      destruct (scan_time_key_in versions rtime) as [H|H];
        [lia | rewrite <- E in H; contradiction].
    + apply IH; assumption.
  - destruct Hin as [E|Hin].
    + exfalso. injection E as E _ _.
      destruct (scan_time_key_in versions rtime) as [H|H];
        [lia | rewrite <- E in H; contradiction].
    + apply IH; assumption.
Qed.

(** The two outcomes of the constructor once the identity is known. *)
Lemma init_after_ids (rad code : pyval) (sid : option Z)
  (rtime : datetime) :
  FreqBands.assign_ids rad = Ok (code, sid) ->
  exists o, FreqBands.init rad rtime = Ok o
            /\ FreqBands.rad_code o = code /\ FreqBands.stid o = sid.
Proof.
  intros Hids. unfold FreqBands.init. rewrite Hids. cbn [bind].
  destruct (FreqBands.assign_bands code rtime)
    as [[[[[t0 t1] bands] mins] maxs]|e];
    eexists; (split; [reflexivity|]); split; reflexivity.
Qed.

(** X1. For a pair (station ID, code) of the identity catalog, the object
    made from the station ID and the object made from the code are the
    same, at every time. *)
Theorem init_by_station_or_code (n : Z) (code : string)
  (rtime : datetime) :
  In (n, code) FreqBands.id_to_code ->
  FreqBands.init (PyInt n) rtime = FreqBands.init (PyStr code) rtime.
Proof.
  intros Hin.
  assert (Hlow : str_lower code = code).
  { simpl in Hin.
    repeat (destruct Hin as [Hin|Hin];
            [injection Hin as _ <-; reflexivity|]).
    destruct Hin. }
  unfold FreqBands.init.
  rewrite (assign_ids_station n code Hin).
  rewrite (assign_ids_code n code code Hin Hlow).
  reflexivity.
Qed.

Lemma init_by_station_or_code_han :
  FreqBands.init (PyInt 10) (dt_datetime 2016 8 26 0 0 0)
  = FreqBands.init (PyStr "han") (dt_datetime 2016 8 26 0 0 0).
Proof.
  apply (init_by_station_or_code 10 "han").
  simpl. tauto.
Defined.

(** X2. A string that is a catalog code written with some capital letter:
    the object keeps the string as written, has the station ID of the
    code, and has no bands at any time, its validity window being the
    query time itself. *)
Theorem init_capital_letters (n : Z) (code s : string) (rtime : datetime) :
  In (n, code) FreqBands.id_to_code ->
  str_lower s = code -> s <> code ->
  FreqBands.init (PyStr s) rtime
  = Ok {| FreqBands.rad_code := PyStr s; FreqBands.stid := Some n;
          FreqBands.stime := rtime; FreqBands.etime := rtime;
          FreqBands.tbands := []; FreqBands.tmins := [];
          FreqBands.tmaxs := [] |}.
Proof.
  intros Hin Hlow Hne.
  unfold FreqBands.init. rewrite (assign_ids_code n code s Hin Hlow).
  cbn [bind].
  assert (Hkey : FreqBands.by_code FreqBands.rad_band_time (PyStr s)
                 = Raise KeyError).
  { destruct (FreqBands.by_code FreqBands.rad_band_time (PyStr s))
      as [versions|e] eqn:E.
    - exfalso. apply by_code_in in E. destruct E as [s' [Es Hs]].
      injection Es as <-. apply rad_band_time_lowercase in Hs. congruence.
    - f_equal. apply (dict_get_raises _ _ _ _ E). }
  unfold FreqBands.assign_bands, FreqBands.get_time_key,
    FreqBands.get_time_key_in.
  rewrite Hkey. reflexivity.
Qed.

Lemma init_capital_letters_Han :
  FreqBands.init (PyStr "Han") (dt_datetime 2016 8 26 0 0 0)
  = Ok {| FreqBands.rad_code := PyStr "Han"; FreqBands.stid := Some 10;
          FreqBands.stime := dt_datetime 2016 8 26 0 0 0;
          FreqBands.etime := dt_datetime 2016 8 26 0 0 0;
          FreqBands.tbands := []; FreqBands.tmins := [];
          FreqBands.tmaxs := [] |}.
Proof.
  apply (init_capital_letters 10 "han" "Han").
  - simpl. tauto.
  - reflexivity.
  - discriminate.
Defined.

(** The keys of the identity catalog in the opposite order give the same
    station for ["han"]. *)
Lemma find_stid_any_order_reversed :
  FreqBands.find_stid (rev (dict_keys FreqBands.id_to_code)) (PyStr "han")
  = Ok (Some 10).
Proof.
  rewrite (find_stid_any_order (rev (dict_keys FreqBands.id_to_code)) "han").
  - reflexivity.
  - apply Permutation_sym, Permutation_rev.
Defined.

(** X4. The constructor raises for one kind of input only, an integer that
    is no station ID of the catalog, and then with [AttributeError]; for
    every string, for [None] and for every station ID it returns an
    object. *)
Theorem init_raises_for_unknown_station_only (rad : pyval)
  (rtime : datetime) :
  (exists o, FreqBands.init rad rtime = Ok o)
  \/ (FreqBands.init rad rtime = Raise AttributeError
      /\ exists n, rad = PyInt n
                   /\ ~ In n (dict_keys FreqBands.id_to_code)).
Proof.
  destruct rad as [|n|s].
  - left. destruct (init_after_ids PyNone PyNone None rtime eq_refl)
      as [o [Ho _]]. exists o. exact Ho.
  - destruct (FreqBands.has_key (PyInt n)) eqn:Hkey.
    + left. unfold FreqBands.has_key in Hkey.
      apply existsb_exists in Hkey.
      destruct Hkey as [k [Hk Ek]]. apply Z.eqb_eq in Ek. subst k.
      destruct (dict_get_in FreqBands.id_to_code n Hk) as [code [Hget _]].
      destruct (init_after_ids (PyInt n) (PyStr code) (Some n) rtime)
        as [o [Ho _]].
      { unfold FreqBands.assign_ids.
        replace (FreqBands.has_key (PyInt n)) with true
          by (symmetry; unfold FreqBands.has_key;
              apply existsb_exists; exists n;
              split; [exact Hk | apply Z.eqb_refl]).
        rewrite Hget. reflexivity. }
      exists o. exact Ho.
    + right. split.
      * unfold FreqBands.init, FreqBands.assign_ids. rewrite Hkey.
        reflexivity.
      * exists n. split; [reflexivity|]. intros Hin.
        unfold FreqBands.has_key in Hkey.
        assert (Ht : existsb (Z.eqb n) (dict_keys FreqBands.id_to_code)
                     = true)
          by (apply existsb_exists; exists n;
              split; [exact Hin | apply Z.eqb_refl]).
        congruence.
  - left.
    destruct (find_stid_spec (dict_keys FreqBands.id_to_code) s
                (fun k Hk => Hk)) as [[k [Hf _]]|[Hf _]].
    + destruct (init_after_ids (PyStr s) (PyStr s) (Some k) rtime)
        as [o [Ho _]];
        [unfold FreqBands.assign_ids; cbn [FreqBands.has_key];
         rewrite Hf; reflexivity|].
      exists o. exact Ho.
    + destruct (init_after_ids (PyStr s) (PyStr s) None rtime)
        as [o [Ho _]];
        [unfold FreqBands.assign_ids; cbn [FreqBands.has_key];
         rewrite Hf; reflexivity|].
      exists o. exact Ho.
Qed.

End Constructor.

(** * The object the constructor returns *)

Section Snapshot.

(** One step of a chain of calls that ended well. *)
Ltac peel E :=
  match type of E with
  | bind ?r _ = Ok _ =>
      let x := fresh "x" in
      let Hx := fresh "Hx" in
      destruct r as [x|] eqn:Hx; [cbn [bind] in E | discriminate E]
  end.

(** X5. In every object the constructor returns, the lists of band
    numbers, lower bounds and upper bounds have one length. *)
Theorem init_arrays_parallel (rad : pyval) (rtime : datetime)
  (o : FreqBands.radFreqBands) :
  FreqBands.init rad rtime = Ok o ->
  len (FreqBands.tmins o) = len (FreqBands.tbands o)
  /\ len (FreqBands.tmaxs o) = len (FreqBands.tbands o).
Proof.
  unfold FreqBands.init.
  destruct (FreqBands.assign_ids rad) as [[code sid]|e]; [|discriminate].
  cbn [bind].
  destruct (FreqBands.assign_bands code rtime)
    as [[[[[t0 t1] bands] mins] maxs]|e] eqn:E;
    intros Ho; injection Ho as <-; cbn; [|split; reflexivity].
  unfold FreqBands.assign_bands in E.
  do 9 peel E. injection E as _ _ <- <- <-.
  unfold len. split; f_equal.
  - apply (np_take_length _ _ _ Hx5).
  - apply (np_take_length _ _ _ Hx7).
Qed.

Lemma init_arrays_parallel_kod :
  exists o,
    FreqBands.init (PyStr "kod") (dt_datetime 2010 9 1 0 0 0) = Ok o
    /\ len (FreqBands.tbands o) = 28
    /\ len (FreqBands.tmins o) = len (FreqBands.tbands o)
    /\ len (FreqBands.tmaxs o) = len (FreqBands.tbands o).
Proof.
  eexists. split; [reflexivity|]. split; [reflexivity|].
  apply (init_arrays_parallel (PyStr "kod") (dt_datetime 2010 9 1 0 0 0)).
  reflexivity.
Defined.

(** X6. In every object the constructor returns, either the validity
    window is that of a version of the radar in the time catalog and holds
    the query time, start included and end excluded, or the window is the
    query time itself and the object has no bands. *)
Theorem init_window (rad : pyval) (rtime : datetime)
  (o : FreqBands.radFreqBands) :
  FreqBands.init rad rtime = Ok o ->
  (FreqBands.stime o <= rtime < FreqBands.etime o
   /\ exists s versions tkey,
        FreqBands.rad_code o = PyStr s
        /\ In (s, versions) FreqBands.rad_band_time
        /\ In (tkey, (FreqBands.stime o, FreqBands.etime o)) versions)
  \/ (FreqBands.stime o = rtime /\ FreqBands.etime o = rtime
      /\ FreqBands.tbands o = [] /\ FreqBands.tmins o = []
      /\ FreqBands.tmaxs o = []).
Proof.
  unfold FreqBands.init.
  destruct (FreqBands.assign_ids rad) as [[code sid]|e]; [|discriminate].
  cbn [bind].
  destruct (FreqBands.assign_bands code rtime)
    as [[[[[t0 t1] bands] mins] maxs]|e] eqn:E;
    intros Ho; injection Ho as <-; cbn;
    [left | right; repeat split; reflexivity].
  unfold FreqBands.assign_bands, FreqBands.get_time_key,
    FreqBands.get_time_key_in in E.
  destruct (FreqBands.by_code FreqBands.rad_band_time code)
    as [versions|] eqn:Hv; [|discriminate E].
  cbn [bind] in E.
  destruct (dict_get Z.eqb versions
              (FreqBands.scan_time_key versions rtime))
    as [[a b]|] eqn:Hl; [|discriminate E].
  cbn [bind] in E. do 6 peel E. injection E as <- <- _ _ _.
  cbn [fst snd].
  destruct (by_code_in _ _ _ Hv) as [s [-> Hs]].
  apply dict_get_Z_in in Hl.
  destruct (rad_band_time_keys s versions Hs) as [Hnd Hpos].
  split.
  - apply (scan_time_key_covers versions rtime a b Hnd Hpos Hl).
  - exists s, versions, (FreqBands.scan_time_key versions rtime).
    split; [reflexivity|]. split; assumption.
Qed.

Lemma init_window_kod :
  exists o,
    FreqBands.init (PyStr "kod") (dt_datetime 2010 9 1 0 0 0) = Ok o
    /\ ((FreqBands.stime o <= dt_datetime 2010 9 1 0 0 0
                            < FreqBands.etime o
         /\ exists s versions tkey,
              FreqBands.rad_code o = PyStr s
              /\ In (s, versions) FreqBands.rad_band_time
              /\ In (tkey, (FreqBands.stime o, FreqBands.etime o)) versions)
        \/ (FreqBands.stime o = dt_datetime 2010 9 1 0 0 0
            /\ FreqBands.etime o = dt_datetime 2010 9 1 0 0 0
            /\ FreqBands.tbands o = [] /\ FreqBands.tmins o = []
            /\ FreqBands.tmaxs o = [])).
Proof.
  eexists. split; [reflexivity|].
  apply (init_window (PyStr "kod") (dt_datetime 2010 9 1 0 0 0)).
  reflexivity.
Defined.

End Snapshot.

(** * Looking a frequency up in the band table *)

Section BandLookup.







End BandLookup.

(** * Mean frequency: positions inside, beyond and before the table *)

Section MeanFrequencyPositions.

(** For position 6 of the bands of radar han, (13200, 13260), the mean is
    13230. *)
Lemma get_mean_tband_freq_in_range_han :
  exists o,
    Sample.han_bands = Ok o
    /\ FreqBands.get_mean_tband_freq o 6 = Ok (13230, []).
Proof.
  eexists. split; [reflexivity|].
  match goal with
  | |- FreqBands.get_mean_tband_freq ?o _ = _ =>
      destruct (get_mean_tband_freq_in_range o 6 eq_refl)
        as [lo [hi [Hlo [Hhi [_ [Hmean _]]]]]]
  end.
  - apply Forall_forall. intros f Hf. vm_compute in Hf.
    repeat (destruct Hf as [<-|Hf]; [vm_compute; discriminate|]).
    destruct Hf.
  - apply Forall_forall. intros f Hf. vm_compute in Hf.
    repeat (destruct Hf as [<-|Hf]; [vm_compute; discriminate|]).
    destruct Hf.
  - cbn. lia.
  - vm_compute in Hlo, Hhi. injection Hlo as <-. injection Hhi as <-.
    exact Hmean.
Defined.

(** Position 15 is beyond the 15 bands of radar han. *)
Lemma get_mean_tband_freq_beyond_han :
  exists o,
    Sample.han_bands = Ok o
    /\ FreqBands.get_mean_tband_freq o 15
       = Ok (-1, [(WARNING, UnknownTransmissionFreqBand 15)]).
Proof.
  eexists. split; [reflexivity|].
  apply get_mean_tband_freq_beyond. cbn. lia.
Defined.

(** X10. A negative position is not refused: when the two lists of bounds
    have one length [n], a position [p] from [-n] to -1 gives what position
    [p + n] gives, and a position below [-n] raises [IndexError]. *)
Theorem get_mean_tband_freq_before (o : FreqBands.radFreqBands) (p : Z) :
  len (FreqBands.tmaxs o) = len (FreqBands.tmins o) ->
  p < 0 ->
  (- len (FreqBands.tmins o) <= p ->
   FreqBands.get_mean_tband_freq o p
   = FreqBands.get_mean_tband_freq o (p + len (FreqBands.tmins o)))
  /\ (p < - len (FreqBands.tmins o) ->
      FreqBands.get_mean_tband_freq o p = Raise IndexError).
Proof.
  intros Hlen Hp. pose proof (len_nonneg (FreqBands.tmins o)) as Hn.
  unfold FreqBands.get_mean_tband_freq.
  destruct (Z.gtb_spec (len (FreqBands.tmins o)) p) as [_|H]; [|lia].
  split.
  - intros Hlow.
    destruct (Z.gtb_spec (len (FreqBands.tmins o))
                (p + len (FreqBands.tmins o))) as [_|H]; [|lia].
    assert (Hidx : forall l : list Z,
               len l = len (FreqBands.tmins o) ->
               py_index l p = py_index l (p + len (FreqBands.tmins o))).
    { intros l Hl. rewrite py_index_negative by exact Hp.
      unfold py_index. cbv zeta. rewrite Hl.
      assert (Hge : (p + len (FreqBands.tmins o) <? 0) = false)
        by (apply Z.ltb_ge; lia).
      rewrite !Hge. reflexivity. }
    rewrite (Hidx _ Hlen), (Hidx _ eq_refl). reflexivity.
  - intros Hlow. rewrite py_index_negative by exact Hp. rewrite Hlen.
    destruct (Z.ltb_spec (p + len (FreqBands.tmins o)) 0) as [_|H];
      [reflexivity | lia].
Qed.

Lemma get_mean_tband_freq_before_han :
  exists o,
    Sample.han_bands = Ok o
    /\ FreqBands.get_mean_tband_freq o (-15)
       = FreqBands.get_mean_tband_freq o 0
    /\ FreqBands.get_mean_tband_freq o (-16) = Raise IndexError.
Proof.
  eexists. split; [reflexivity|].
  match goal with
  | |- FreqBands.get_mean_tband_freq ?o _ = _ /\ _ =>
      split;
      [apply (proj1 (get_mean_tband_freq_before o (-15) eq_refl eq_refl))
      |apply (proj2 (get_mean_tband_freq_before o (-16) eq_refl eq_refl))]
  end; cbn; lia.
Defined.

End MeanFrequencyPositions.

(** * What get_tdiff returns for records in any order *)

Section AnyOrder.

Lemma filter_shorter {A : Type} (q : A -> bool) (l : list A) :
  (List.length (filter q l) <= List.length l)%nat.
Proof.
  induction l as [|x l IH]; simpl; [lia|].
  destruct (q x); simpl; lia.
Qed.

Lemma indexed_from_snd {A : Type} (l : list A) (i : Z) (ir : Z * A) :
  In ir (Notions.indexed_from i l) -> In (snd ir) l.
Proof.
  revert i. induction l as [|x l IH]; intros i; simpl; [tauto|].
  intros [<-|Hin]; [left; reflexivity | right; apply (IH _ Hin)].
Qed.

(** The number of records the rule leaves decides between (NaN, NaN) and
    a record; the record read is one of the band, though not always the
    one the rule leaves. *)
Lemma get_tdiff_picks (o : Tdiff.radTdiff) (tband : Z) (ttime : datetime)
  (tval : bool) :
  Spec.parallel o ->
  (List.length (Spec.matching (Spec.records o) tband ttime) <> 1%nat
   /\ Tdiff.get_tdiff o tband ttime tval = Ok (nan, nan))
  \/ (List.length (Spec.matching (Spec.records o) tband ttime) = 1%nat
      /\ exists r,
           In r (Spec.records o) /\ Spec.band r = tband
           /\ Tdiff.get_tdiff o tband ttime tval
              = Ok (if negb tval || Spec.validated r
                    then (Spec.estimateMicrosec r, Spec.errorMicrosec r)
                    else (nan, nan))).
Proof.
  intros Hpar.
  destruct (parallel_records o Hpar) as [Eb [Es [Ee [Ex [Ey Ev]]]]].
  set (rs := Spec.records o) in *.
  set (irs := Notions.indexed_from 0 rs).
  set (IB := filter (fun ir => Spec.band (snd ir) =? tband) irs).
  set (IS := filter (fun ir => Spec.startTime (snd ir) <=? ttime) IB).
  set (IE := filter (fun ir => Spec.endTime (snd ir) >=? ttime) IS).
  assert (Hat : forall (B : Type) (f : Spec.TdiffRecord -> B),
             Forall (fun ir => py_index (map f rs) (fst ir)
                               = Ok (f (snd ir))) irs)
    by (intros B f; apply (indexed_at f rs [])).
  assert (HatB : forall (B : Type) (f : Spec.TdiffRecord -> B),
             Forall (fun ir => py_index (map f rs) (fst ir)
                               = Ok (f (snd ir))) IB)
    by (intros B f; unfold IB; apply Forall_filter_keep, Hat).
  assert (Hmatch : Spec.matching rs tband ttime = map snd IE).
  { unfold Spec.matching, IE, IS, IB, irs.
    rewrite <- (filter_indexed (fun r => Spec.band r =? tband) rs 0).
    set (L := filter _ (Notions.indexed_from 0 rs)).
    assert (Hf : forall (q : Spec.TdiffRecord -> bool)
                        (l : list (Z * Spec.TdiffRecord)),
               filter q (map snd l)
               = map snd (filter (fun ir => q (snd ir)) l)).
    { intros q l. induction l as [|x l IHl]; [reflexivity|].
      simpl. destruct (q (snd x)); simpl; rewrite IHl; reflexivity. }
    rewrite !Hf. reflexivity. }
  rewrite Hmatch, length_map.
  unfold Tdiff.get_tdiff.
  rewrite Eb, Es, Ee, Ex, Ey, Ev.
  assert (Hib : np_where (fun b => b =? tband) (map Spec.band rs)
                = map fst IB)
    by (unfold np_where; rewrite np_where_indexed; reflexivity).
  rewrite Hib.
  destruct (Z.gtb_spec (len (map fst IB)) 0) as [Hnb|Hnb].
  2:{ left. assert (IB = []) as HIB.
      { destruct IB; [reflexivity|]. unfold len in Hnb. simpl in Hnb. lia. }
      unfold IE, IS. rewrite HIB. split; [discriminate | reflexivity]. }
  rewrite (np_take_indexed (map Spec.startTime rs) Spec.startTime IB)
    by apply HatB.
  cbn [bind].
  set (itime1 := np_where (fun t => t <=? ttime)
                   (map (fun ir : Z * Spec.TdiffRecord =>
                           Spec.startTime (snd ir)) IB)).
  assert (Hidiff : np_take (map fst IB) itime1 = Ok (map fst IS)).
  { unfold itime1, IS.
    apply (np_take_where fst (fun ir : Z * Spec.TdiffRecord =>
                                Spec.startTime (snd ir))). }
  destruct (Z.gtb_spec (len itime1) 0) as [Hn1|Hn1].
  2:{ left. assert (itime1 = []) as H1.
      { destruct itime1; [reflexivity|]. unfold len in Hn1. simpl in Hn1.
        lia. }
      rewrite H1 in Hidiff. simpl in Hidiff. injection Hidiff as Hnil.
      assert (IS = []) as HIS by (destruct IS; [reflexivity|discriminate]).
      unfold IE. rewrite HIS. split; [discriminate | reflexivity]. }
  rewrite Hidiff. cbn [bind].
  rewrite (np_take_indexed (map Spec.endTime rs) Spec.endTime IS)
    by (unfold IS; apply Forall_filter_keep, HatB).
  cbn [bind].
  set (itime2 := np_where (fun t => t >=? ttime)
                   (map (fun ir : Z * Spec.TdiffRecord =>
                           Spec.endTime (snd ir)) IS)).
  assert (Hie : np_take (map fst IS) itime2 = Ok (map fst IE)).
  { unfold itime2, IE.
    apply (np_take_where fst (fun ir : Z * Spec.TdiffRecord =>
                                Spec.endTime (snd ir))). }
  assert (Hlen : List.length IE = List.length itime2).
  { apply np_take_length in Hie. rewrite length_map in Hie. exact Hie. }
  destruct (Z.eqb_spec (len itime2) 1) as [Hone|Hmany].
  2:{ left. split; [|reflexivity]. intros H1. apply Hmany.
      unfold len. rewrite <- Hlen, H1. reflexivity. }
  right. split; [unfold len in Hone; lia|].
  destruct itime2 as [|k [|k' itime2']] eqn:Hk;
    try (unfold len in Hone; simpl in Hone; lia).
  simpl in Hie.
  destruct (py_index (map fst IS) k) as [i'|] eqn:Hpk; [|discriminate].
  assert (Hk0 : 0 <= k).
  { pose proof (np_where_from_nonneg (fun t => t >=? ttime)
                  (map (fun ir : Z * Spec.TdiffRecord =>
                          Spec.endTime (snd ir)) IS) 0 (Z.le_refl 0)) as Hnn.
    fold (np_where (fun t => t >=? ttime)
            (map (fun ir : Z * Spec.TdiffRecord => Spec.endTime (snd ir)) IS))
      in Hnn.
    fold itime2 in Hnn. rewrite Hk in Hnn. inversion Hnn. assumption. }
  assert (Hkin : 0 <= k < len (map fst IB)).
  { split; [exact Hk0|].
    destruct (Z.lt_ge_cases k (len (map fst IS))) as [Hlt|Hge].
    - pose proof (filter_shorter
                    (fun ir : Z * Spec.TdiffRecord =>
                       Spec.startTime (snd ir) <=? ttime) IB) as Hsh.
      fold IS in Hsh. unfold len in *. rewrite !length_map in *. lia.
    - rewrite (py_index_beyond _ _ Hge) in Hpk. discriminate. }
  destruct (py_index_in_range (map fst IB) k Hkin) as [i [Hpick Hnth]].
  rewrite nth_error_map in Hnth.
  destruct (nth_error IB (Z.to_nat k)) as [[j r]|] eqn:Hir;
    [|discriminate].
  simpl in Hnth. injection Hnth as <-.
  apply nth_error_In in Hir.
  exists r. split.
  { apply (indexed_from_snd rs 0 (j, r)).
    unfold IB in Hir. apply filter_In in Hir. apply Hir. }
  split.
  { unfold IB in Hir. apply filter_In in Hir. destruct Hir as [_ Hb].
    apply Z.eqb_eq in Hb. exact Hb. }
  cbn [np_take]. rewrite Hpick. cbn [bind list_index_array].
  pose proof (HatB bool Spec.validated) as Hv.
  pose proof (HatB float Spec.estimateMicrosec) as Hx.
  pose proof (HatB float Spec.errorMicrosec) as Hy.
  rewrite Forall_forall in Hv, Hx, Hy.
  specialize (Hv _ Hir). specialize (Hx _ Hir). specialize (Hy _ Hir).
  cbn [fst snd] in Hv, Hx, Hy. rewrite Hx, Hy.
  destruct tval; cbn [negb orb andb bind].
  - rewrite Hv. cbn [bind]. destruct (Spec.validated r); reflexivity.
  - reflexivity.
Qed.

(** Under numpy from 1.12 on the three filters run as before, and the
    lists are indexed with an array only when exactly one record is left:
    that is where the call raises. *)
Lemma get_tdiff_on_from_1_12 (o : Tdiff.radTdiff) (tband : Z)
  (ttime : datetime) (tval : bool) :
  Spec.parallel o ->
  (List.length (Spec.matching (Spec.records o) tband ttime) <> 1%nat
   /\ Tdiff.get_tdiff_on Tdiff.from_1_12 o tband ttime tval = Ok (nan, nan))
  \/ (List.length (Spec.matching (Spec.records o) tband ttime) = 1%nat
      /\ Tdiff.get_tdiff_on Tdiff.from_1_12 o tband ttime tval
         = Raise TypeError).
Proof.
  intros Hpar.
  destruct (parallel_records o Hpar) as [Eb [Es [Ee [Ex [Ey Ev]]]]].
  set (rs := Spec.records o) in *.
  set (irs := Notions.indexed_from 0 rs).
  set (IB := filter (fun ir => Spec.band (snd ir) =? tband) irs).
  set (IS := filter (fun ir => Spec.startTime (snd ir) <=? ttime) IB).
  set (IE := filter (fun ir => Spec.endTime (snd ir) >=? ttime) IS).
  assert (Hat : forall (B : Type) (f : Spec.TdiffRecord -> B),
             Forall (fun ir => py_index (map f rs) (fst ir)
                               = Ok (f (snd ir))) irs)
    by (intros B f; apply (indexed_at f rs [])).
  assert (HatB : forall (B : Type) (f : Spec.TdiffRecord -> B),
             Forall (fun ir => py_index (map f rs) (fst ir)
                               = Ok (f (snd ir))) IB)
    by (intros B f; unfold IB; apply Forall_filter_keep, Hat).
  assert (Hmatch : Spec.matching rs tband ttime = map snd IE).
  { unfold Spec.matching, IE, IS, IB, irs.
    rewrite <- (filter_indexed (fun r => Spec.band r =? tband) rs 0).
    set (L := filter _ (Notions.indexed_from 0 rs)).
    assert (Hf : forall (q : Spec.TdiffRecord -> bool)
                        (l : list (Z * Spec.TdiffRecord)),
               filter q (map snd l)
               = map snd (filter (fun ir => q (snd ir)) l)).
    { intros q l. induction l as [|x l IHl]; [reflexivity|].
      simpl. destruct (q (snd x)); simpl; rewrite IHl; reflexivity. }
    rewrite !Hf. reflexivity. }
  rewrite Hmatch, length_map.
  unfold Tdiff.get_tdiff_on.
  rewrite Eb, Es, Ee, Ex, Ey, Ev.
  assert (Hib : np_where (fun b => b =? tband) (map Spec.band rs)
                = map fst IB)
    by (unfold np_where; rewrite np_where_indexed; reflexivity).
  rewrite Hib.
  destruct (Z.gtb_spec (len (map fst IB)) 0) as [Hnb|Hnb].
  2:{ left. assert (IB = []) as HIB.
      { destruct IB; [reflexivity|]. unfold len in Hnb. simpl in Hnb. lia. }
      unfold IE, IS. rewrite HIB. split; [discriminate | reflexivity]. }
  rewrite (np_take_indexed (map Spec.startTime rs) Spec.startTime IB)
    by apply HatB.
  cbn [bind].
  set (itime1 := np_where (fun t => t <=? ttime)
                   (map (fun ir : Z * Spec.TdiffRecord =>
                           Spec.startTime (snd ir)) IB)).
  assert (Hidiff : np_take (map fst IB) itime1 = Ok (map fst IS)).
  { unfold itime1, IS.
    apply (np_take_where fst (fun ir : Z * Spec.TdiffRecord =>
                                Spec.startTime (snd ir))). }
  destruct (Z.gtb_spec (len itime1) 0) as [Hn1|Hn1].
  2:{ left. assert (itime1 = []) as H1.
      { destruct itime1; [reflexivity|]. unfold len in Hn1. simpl in Hn1.
        lia. }
      rewrite H1 in Hidiff. simpl in Hidiff. injection Hidiff as Hnil.
      assert (IS = []) as HIS by (destruct IS; [reflexivity|discriminate]).
      unfold IE. rewrite HIS. split; [discriminate | reflexivity]. }
  rewrite Hidiff. cbn [bind].
  rewrite (np_take_indexed (map Spec.endTime rs) Spec.endTime IS)
    by (unfold IS; apply Forall_filter_keep, HatB).
  cbn [bind].
  set (itime2 := np_where (fun t => t >=? ttime)
                   (map (fun ir : Z * Spec.TdiffRecord =>
                           Spec.endTime (snd ir)) IS)).
  assert (Hie : np_take (map fst IS) itime2 = Ok (map fst IE)).
  { unfold itime2, IE.
    apply (np_take_where fst (fun ir : Z * Spec.TdiffRecord =>
                                Spec.endTime (snd ir))). }
  assert (Hlen : List.length IE = List.length itime2).
  { apply np_take_length in Hie. rewrite length_map in Hie. exact Hie. }
  destruct (Z.eqb_spec (len itime2) 1) as [Hone|Hmany].
  2:{ left. split; [|reflexivity]. intros H1. apply Hmany.
      unfold len. rewrite <- Hlen, H1. reflexivity. }
  right. split; [unfold len in Hone; lia|].
  destruct itime2 as [|k [|k' itime2']] eqn:Hk;
    try (unfold len in Hone; simpl in Hone; lia).
  simpl in Hie.
  destruct (py_index (map fst IS) k) as [i'|] eqn:Hpk; [|discriminate].
  assert (Hk0 : 0 <= k).
  { pose proof (np_where_from_nonneg (fun t => t >=? ttime)
                  (map (fun ir : Z * Spec.TdiffRecord =>
                          Spec.endTime (snd ir)) IS) 0 (Z.le_refl 0)) as Hnn.
    fold (np_where (fun t => t >=? ttime)
            (map (fun ir : Z * Spec.TdiffRecord => Spec.endTime (snd ir)) IS))
      in Hnn.
    fold itime2 in Hnn. rewrite Hk in Hnn. inversion Hnn. assumption. }
  assert (Hkin : 0 <= k < len (map fst IB)).
  { split; [exact Hk0|].
    destruct (Z.lt_ge_cases k (len (map fst IS))) as [Hlt|Hge].
    - pose proof (filter_shorter
                    (fun ir : Z * Spec.TdiffRecord =>
                       Spec.startTime (snd ir) <=? ttime) IB) as Hsh.
      fold IS in Hsh. unfold len in *. rewrite !length_map in *. lia.
    - rewrite (py_index_beyond _ _ Hge) in Hpk. discriminate. }
  destruct (py_index_in_range (map fst IB) k Hkin) as [i [Hpick _]].
  cbn [np_take]. rewrite Hpick. cbn [bind Tdiff.list_index_array_on].
  destruct tval; reflexivity.
Qed.

(** X12. In an object whose six lists have one length, when the filters
    on band, start time and end time leave no record, or more than one,
    [get_tdiff] returns (NaN, NaN), whatever the order of the records and
    with or without the validation requirement. *)
Theorem get_tdiff_no_single_match (o : Tdiff.radTdiff) (tband : Z)
  (ttime : datetime) (tval : bool) :
  Spec.parallel o ->
  List.length (Spec.matching (Spec.records o) tband ttime) <> 1%nat ->
  Tdiff.get_tdiff o tband ttime tval = Ok (nan, nan).
Proof.
  intros Hpar Hnot.
  destruct (get_tdiff_picks o tband ttime tval Hpar) as [[_ H]|[Hone _]].
  - exact H.
  - contradiction.
Qed.

(** On 1 June 2005 no record of [later_first] is in effect. *)
Lemma get_tdiff_no_single_match_2005 :
  Tdiff.get_tdiff Sample.later_first 0 (dt_datetime 2005 6 1 0 0 0) false
  = Ok (nan, nan).
Proof.
  apply get_tdiff_no_single_match.
  - repeat split; reflexivity.
  - vm_compute. discriminate.
Defined.

(** X13. In an object whose six lists have one length, a call of
    [get_tdiff] ends in one of three ways. It returns (NaN, NaN); or,
    under numpy up to 1.11 only, it returns the estimate and error of one
    record of the object, of the band asked for, and validated when
    validation is required; or, under numpy from 1.12 on only, it raises
    [TypeError], which it does exactly when the filters leave one record.
    It never returns the values of a record of another band and never
    raises another exception. *)
Theorem get_tdiff_on_ends (np : Tdiff.numpy_version) (o : Tdiff.radTdiff)
  (tband : Z) (ttime : datetime) (tval : bool) :
  Spec.parallel o ->
  Tdiff.get_tdiff_on np o tband ttime tval = Ok (nan, nan)
  \/ (np = Tdiff.up_to_1_11
      /\ exists r,
           In r (Spec.records o) /\ Spec.band r = tband
           /\ (tval = true -> Spec.validated r = true)
           /\ Tdiff.get_tdiff_on np o tband ttime tval
              = Ok (Spec.estimateMicrosec r, Spec.errorMicrosec r))
  \/ (np = Tdiff.from_1_12
      /\ List.length (Spec.matching (Spec.records o) tband ttime) = 1%nat
      /\ Tdiff.get_tdiff_on np o tband ttime tval = Raise TypeError).
Proof.
  intros Hpar. destruct np.
  - change (Tdiff.get_tdiff_on Tdiff.up_to_1_11 o tband ttime tval)
      with (Tdiff.get_tdiff o tband ttime tval).
    destruct (get_tdiff_picks o tband ttime tval Hpar)
      as [[_ H]|[_ [r [Hin [Hb H]]]]]; [left; exact H|].
    destruct (negb tval || Spec.validated r) eqn:Huse;
      [|left; exact H].
    right. left. split; [reflexivity|]. exists r.
    split; [exact Hin|]. split; [exact Hb|]. split; [|exact H].
    intros ->. exact Huse.
  - destruct (get_tdiff_on_from_1_12 o tband ttime tval Hpar)
      as [[_ H]|[Hone H]]; [left; exact H|].
    right. right. split; [reflexivity|]. split; assumption.
Qed.

(** On 1 June 2000 one record of [later_first] is left by the filters:
    under numpy from 1.12 on the call raises, under numpy up to 1.11 it
    returns the values of a record of band 0. *)
Lemma get_tdiff_on_ends_later_first :
  (Tdiff.get_tdiff_on Tdiff.from_1_12 Sample.later_first 0
     (dt_datetime 2000 6 1 0 0 0) true = Raise TypeError)
  /\ (exists r,
        In r (Spec.records Sample.later_first) /\ Spec.band r = 0
        /\ Tdiff.get_tdiff_on Tdiff.up_to_1_11 Sample.later_first 0
             (dt_datetime 2000 6 1 0 0 0) true
           = Ok (Spec.estimateMicrosec r, Spec.errorMicrosec r)).
Proof.
  assert (Hpar : Spec.parallel Sample.later_first)
    by (repeat split; reflexivity).
  split.
  - destruct (get_tdiff_on_ends Tdiff.from_1_12 Sample.later_first 0
                (dt_datetime 2000 6 1 0 0 0) true Hpar)
      as [H|[[H _]|[_ [_ H]]]]; [discriminate H | discriminate H | exact H].
  - destruct (get_tdiff_on_ends Tdiff.up_to_1_11 Sample.later_first 0
                (dt_datetime 2000 6 1 0 0 0) true Hpar)
      as [H|[[_ [r [Hin [Hb [_ H]]]]]|[H _]]];
      [discriminate H | exists r; auto | discriminate H].
Defined.

(** X11. When the six lists have one length and the records of the band
    are in the order of their start times: under numpy up to 1.11
    [get_tdiff] gives what the rule of three filters gives, with and
    without the validation requirement; under numpy from 1.12 on it gives
    (NaN, NaN) when the filters leave no record or several and raises
    [TypeError] when they leave one. *)
Theorem get_tdiff_on_in_start_order (np : Tdiff.numpy_version)
  (o : Tdiff.radTdiff) (tband : Z) (ttime : datetime) (tval : bool) :
  Spec.parallel o ->
  Notions.in_start_order (Spec.records o) tband ->
  Tdiff.get_tdiff_on np o tband ttime tval
  = match np with
    | Tdiff.up_to_1_11 =>
        Ok (Spec.resolve (Spec.records o) tband ttime tval)
    | Tdiff.from_1_12 =>
        if (List.length (Spec.matching (Spec.records o) tband ttime)
            =? 1)%nat
        then Raise TypeError
        else Ok (nan, nan)
    end.
Proof.
  intros Hpar Hord. destruct np.
  - exact (get_tdiff_in_start_order o tband ttime tval Hpar Hord).
  - destruct (get_tdiff_on_from_1_12 o tband ttime tval Hpar)
      as [[Hn H]|[Hone H]]; rewrite H.
    + apply Nat.eqb_neq in Hn. rewrite Hn. reflexivity.
    + rewrite Hone. reflexivity.
Qed.

(** The object [earlier_first] on 1 June 2000, under each numpy. *)
Lemma get_tdiff_on_in_start_order_earlier_first :
  Tdiff.get_tdiff_on Tdiff.up_to_1_11 Sample.earlier_first 0
    (dt_datetime 2000 6 1 0 0 0) false
  = Ok (Spec.estimateMicrosec Sample.record_2000,
        Spec.errorMicrosec Sample.record_2000)
  /\ Tdiff.get_tdiff_on Tdiff.from_1_12 Sample.earlier_first 0
       (dt_datetime 2000 6 1 0 0 0) false
     = Raise TypeError.
Proof.
  assert (Hpar : Spec.parallel Sample.earlier_first)
    by (repeat split; reflexivity).
  assert (Hord : Notions.in_start_order
                   (Spec.records Sample.earlier_first) 0).
  { unfold Notions.in_start_order. cbn.
    repeat constructor. cbn. eval_datetimes. lia. }
  split.
  - rewrite (get_tdiff_on_in_start_order Tdiff.up_to_1_11
               Sample.earlier_first 0 (dt_datetime 2000 6 1 0 0 0) false
               Hpar Hord).
    reflexivity.
  - rewrite (get_tdiff_on_in_start_order Tdiff.from_1_12
               Sample.earlier_first 0 (dt_datetime 2000 6 1 0 0 0) false
               Hpar Hord).
    reflexivity.
Defined.

End AnyOrder.

(** * Loading: what is kept, what is ignored *)

Section LoadingKeeps.

Variable lib : pylib.
Variables tdiff_col terr_col tband_col val_col : Z.
Variables stime_cols etime_cols : list Z.
Variable time_fmt : string.
Variable split_col : option string.

Local Abbreviation load_tdiff :=
  (Tdiff.load_tdiff lib tdiff_col terr_col tband_col val_col stime_cols
     etime_cols time_fmt split_col).
Local Abbreviation load_lines :=
  (Tdiff.load_lines lib tdiff_col terr_col tband_col val_col stime_cols
     etime_cols time_fmt split_col).
Local Abbreviation load_line :=
  (Tdiff.load_line lib tdiff_col terr_col tband_col val_col stime_cols
     etime_cols time_fmt split_col).
Local Abbreviation load_fields :=
  (Tdiff.load_fields lib tdiff_col terr_col tband_col val_col stime_cols
     etime_cols time_fmt).

Lemma extends_refl (o : Tdiff.radTdiff) : Notions.extends o o.
Proof.
  unfold Notions.extends.
  repeat split; try reflexivity; exists []; rewrite app_nil_r; reflexivity.
Qed.

Lemma extends_trans (o1 o2 o3 : Tdiff.radTdiff) :
  Notions.extends o1 o2 -> Notions.extends o2 o3 -> Notions.extends o1 o3.
Proof.
  unfold Notions.extends.
  intros [A1 [A2 [A3 [[a4 A4] [[a5 A5] [[a6 A6] [[a7 A7] [[a8 A8] [a9 A9]]]]]]]]]
         [B1 [B2 [B3 [[b4 B4] [[b5 B5] [[b6 B6] [[b7 B7] [[b8 B8] [b9 B9]]]]]]]]].
  repeat split; try congruence.
  - exists (a4 ++ b4). rewrite B4, A4, app_assoc. reflexivity.
  - exists (a5 ++ b5). rewrite B5, A5, app_assoc. reflexivity.
  - exists (a6 ++ b6). rewrite B6, A6, app_assoc. reflexivity.
  - exists (a7 ++ b7). rewrite B7, A7, app_assoc. reflexivity.
  - exists (a8 ++ b8). rewrite B8, A8, app_assoc. reflexivity.
  - exists (a9 ++ b9). rewrite B9, A9, app_assoc. reflexivity.
Qed.

(** Each append extends the object. *)
Ltac one_append :=
  unfold Notions.extends; cbn;
  repeat split; try reflexivity;
  first [eexists; reflexivity | exists []; rewrite app_nil_r; reflexivity].

Lemma load_fields_extends (st : Tdiff.loading) (fdata : list string) :
  Notions.extends (Tdiff.self st)
    (Tdiff.self (Tdiff.final (load_fields st fdata))).
Proof.
  unfold Tdiff.load_fields.
  destruct (Tdiff.parse_time lib time_fmt fdata stime_cols) as [t0|];
    [|apply extends_refl].
  assert (E1 : Notions.extends (Tdiff.self st)
                 (Tdiff.append_stime (Tdiff.self st) t0)) by one_append.
  destruct (Tdiff.parse_time lib time_fmt fdata etime_cols) as [t1|];
    [|exact E1].
  assert (E2 : Notions.extends (Tdiff.self st)
                 (Tdiff.append_etime
                    (Tdiff.append_stime (Tdiff.self st) t0) t1))
    by (apply (extends_trans _ _ _ E1); one_append).
  destruct (Tdiff.cast_int lib fdata tband_col) as [b|]; [|exact E2].
  match type of E2 with
  | Notions.extends _ ?o2 =>
      assert (E3 : Notions.extends (Tdiff.self st) (Tdiff.append_tband o2 b))
        by (apply (extends_trans _ _ _ E2); one_append)
  end.
  destruct (Tdiff.cast_float lib fdata tdiff_col) as [x|]; [|exact E3].
  match type of E3 with
  | Notions.extends _ ?o3 =>
      assert (E4 : Notions.extends (Tdiff.self st)
                     (Tdiff.append_est_tdiff o3 x))
        by (apply (extends_trans _ _ _ E3); one_append)
  end.
  destruct (Tdiff.cast_float lib fdata terr_col) as [y|]; [|exact E4].
  match type of E4 with
  | Notions.extends _ ?o4 =>
      assert (E5 : Notions.extends (Tdiff.self st)
                     (Tdiff.append_tdiff_err o4 y))
        by (apply (extends_trans _ _ _ E4); one_append)
  end.
  destruct (Tdiff.cast_bool fdata val_col) as [v|]; [|exact E5].
  apply (extends_trans _ _ _ E5). one_append.
Qed.

Lemma load_line_extends (max_col : Z) (st : Tdiff.loading)
  (fline : string) :
  Notions.extends (Tdiff.self st)
    (Tdiff.self (Tdiff.final (load_line max_col st fline))).
Proof.
  unfold Tdiff.load_line.
  destruct (str_find fline "#" <? 0); [|apply extends_refl].
  destruct (str_split fline split_col) as [fdata|]; [|apply extends_refl].
  destruct (len fdata <=? max_col); [apply extends_refl|].
  apply load_fields_extends.
Qed.

Lemma load_lines_extends (max_col : Z) (flines : list string) :
  forall st,
    Notions.extends (Tdiff.self st)
      (Tdiff.self (Tdiff.final (load_lines max_col st flines))).
Proof.
  induction flines as [|fline flines IH]; intros st; [apply extends_refl|].
  cbn [Tdiff.load_lines].
  pose proof (load_line_extends max_col st fline) as H1.
  destruct (load_line max_col st fline) as [st1|e st1]; cbn in H1 |- *.
  - apply (extends_trans _ _ _ H1), IH.
  - exact H1.
Qed.

(** X16. Whatever the columns and the file, and whether the load returns
    or raises, the object it leaves is the object it was given with
    entries added at the end of the six lists: no record already held is
    removed or changed, and the radar and the file name stay. *)
Theorem load_tdiff_only_appends (o : Tdiff.radTdiff)
  (flines : list string) :
  Notions.extends o (Tdiff.self (Tdiff.final (load_tdiff o flines))).
Proof.
  unfold Tdiff.load_tdiff.
  destruct (py_min _) as [lo|]; [|apply extends_refl].
  destruct (lo <? 0); [apply extends_refl|].
  destruct (py_max _) as [max_col|]; [|apply extends_refl].
  pose proof (load_lines_extends max_col flines
                {| Tdiff.self := o; Tdiff.bad_lines := 0;
                   Tdiff.log := [] |}) as H.
  destruct (load_lines max_col _ flines) as [st|e st]; cbn in H |- *.
  - destruct (Tdiff.bad_lines st >? 0); exact H.
  - exact H.
Qed.

Lemma load_lines_skip_comments (max_col : Z) (flines : list string) :
  forall st,
    load_lines max_col st flines
    = load_lines max_col st (filter Notions.data_line flines).
Proof.
  induction flines as [|fline flines IH]; intros st; [reflexivity|].
  cbn [Tdiff.load_lines filter].
  destruct (Notions.data_line fline) eqn:Hd.
  - cbn [Tdiff.load_lines].
    destruct (load_line max_col st fline); [apply IH | reflexivity].
  - unfold Tdiff.load_line. unfold Notions.data_line in Hd. rewrite Hd.
    apply IH.
Qed.

(** X17. Every line that holds the comment marker, at its start or after
    data, is passed over whole: the load of a file equals the load of the
    file without these lines, in the object left, the count of bad lines,
    the log and the exception raised, if any. *)
Theorem load_tdiff_skips_comment_lines (o : Tdiff.radTdiff)
  (flines : list string) :
  load_tdiff o flines = load_tdiff o (filter Notions.data_line flines).
Proof.
  unfold Tdiff.load_tdiff.
  destruct (py_min _) as [lo|]; [|reflexivity].
  destruct (lo <? 0); [reflexivity|].
  destruct (py_max _) as [max_col|]; [|reflexivity].
  rewrite (load_lines_skip_comments max_col flines). reflexivity.
Qed.

End LoadingKeeps.

(** * Loading: the validation flag under a split on white space *)

Section WhitespaceFlags.

Variable lib : pylib.
Variables tdiff_col terr_col tband_col val_col : Z.
Variables stime_cols etime_cols : list Z.
Variable time_fmt : string.

Local Abbreviation load_tdiff_ws :=
  (Tdiff.load_tdiff lib tdiff_col terr_col tband_col val_col stime_cols
     etime_cols time_fmt None).
Local Abbreviation load_lines_ws :=
  (Tdiff.load_lines lib tdiff_col terr_col tband_col val_col stime_cols
     etime_cols time_fmt None).
Local Abbreviation load_line_ws :=
  (Tdiff.load_line lib tdiff_col terr_col tband_col val_col stime_cols
     etime_cols time_fmt None).
Local Abbreviation load_fields_ws :=
  (Tdiff.load_fields lib tdiff_col terr_col tband_col val_col stime_cols
     etime_cols time_fmt).

Lemma string_of_rev_nonempty (c : ascii) (cur : list ascii) :
  string_of_rev (c :: cur) <> "".
Proof.
  unfold string_of_rev. cbn [rev].
  destruct (rev cur) as [|d l]; cbn; discriminate.
Qed.

(** [str.split()] gives no empty field. *)
Lemma split_ws_aux_nonempty (s : string) :
  forall cur, Forall (fun f => f <> "") (split_ws_aux cur s).
Proof.
  induction s as [|c s IH]; intros cur; cbn [split_ws_aux].
  - destruct cur as [|d cur]; constructor;
      [apply string_of_rev_nonempty | constructor].
  - destruct (is_space c); [|apply IH].
    destruct cur as [|d cur]; [apply IH|].
    constructor; [apply string_of_rev_nonempty | apply IH].
Qed.

Lemma py_index_In {A : Type} (l : list A) (i : Z) (x : A) :
  py_index l i = Ok x -> In x l.
Proof.
  unfold py_index.
  destruct ((if i <? 0 then i + len l else i) <? 0); [discriminate|].
  destruct (nth_error l _) as [y|] eqn:E; [|discriminate].
  cbn. intros H. injection H as <-. apply (nth_error_In _ _ E).
Qed.

Lemma cast_bool_nonempty (fdata : list string) (col : Z) (v : bool) :
  Forall (fun f => f <> "") fdata ->
  Tdiff.cast_bool fdata col = Ok v -> v = true.
Proof.
  intros Hne. unfold Tdiff.cast_bool.
  destruct (py_index fdata col) as [x|e] eqn:E; [|discriminate].
  cbn. intros H. injection H as <-.
  apply py_index_In in E. rewrite Forall_forall in Hne.
  specialize (Hne x E). destruct x; [congruence | reflexivity].
Qed.

Lemma load_fields_flags (st : Tdiff.loading) (fdata : list string) :
  Forall (fun f => f <> "") fdata ->
  exists k,
    Tdiff.validated (Tdiff.self (Tdiff.final (load_fields_ws st fdata)))
    = Tdiff.validated (Tdiff.self st) ++ repeat true k.
Proof.
  intros Hne. unfold Tdiff.load_fields.
  destruct (Tdiff.parse_time lib time_fmt fdata stime_cols) as [t0|];
    [|exists 0%nat; cbn; rewrite app_nil_r; reflexivity].
  destruct (Tdiff.parse_time lib time_fmt fdata etime_cols) as [t1|];
    [|exists 0%nat; cbn; rewrite app_nil_r; reflexivity].
  destruct (Tdiff.cast_int lib fdata tband_col) as [b|];
    [|exists 0%nat; cbn; rewrite app_nil_r; reflexivity].
  destruct (Tdiff.cast_float lib fdata tdiff_col) as [x|];
    [|exists 0%nat; cbn; rewrite app_nil_r; reflexivity].
  destruct (Tdiff.cast_float lib fdata terr_col) as [y|];
    [|exists 0%nat; cbn; rewrite app_nil_r; reflexivity].
  destruct (Tdiff.cast_bool fdata val_col) as [v|] eqn:Ev;
    [|exists 0%nat; cbn; rewrite app_nil_r; reflexivity].
  rewrite (cast_bool_nonempty fdata val_col v Hne Ev).
  exists 1%nat. reflexivity.
Qed.

Lemma load_line_flags (max_col : Z) (st : Tdiff.loading) (fline : string) :
  exists k,
    Tdiff.validated
      (Tdiff.self (Tdiff.final (load_line_ws max_col st fline)))
    = Tdiff.validated (Tdiff.self st) ++ repeat true k.
Proof.
  unfold Tdiff.load_line.
  destruct (str_find fline "#" <? 0);
    [|exists 0%nat; cbn; rewrite app_nil_r; reflexivity].
  cbn [str_split].
  destruct (len (split_ws_aux [] fline) <=? max_col);
    [exists 0%nat; cbn; rewrite app_nil_r; reflexivity|].
  apply load_fields_flags, split_ws_aux_nonempty.
Qed.

Lemma load_lines_flags (max_col : Z) (flines : list string) :
  forall st,
    exists k,
      Tdiff.validated
        (Tdiff.self (Tdiff.final (load_lines_ws max_col st flines)))
      = Tdiff.validated (Tdiff.self st) ++ repeat true k.
Proof.
  induction flines as [|fline flines IH]; intros st.
  - exists 0%nat. cbn. rewrite app_nil_r. reflexivity.
  - cbn [Tdiff.load_lines].
    destruct (load_line_flags max_col st fline) as [j Hj].
    destruct (load_line_ws max_col st fline) as [st1|e st1]; cbn in Hj.
    + destruct (IH st1) as [k Hk]. exists (j + k)%nat.
      rewrite Hk, Hj, <- app_assoc, repeat_app. reflexivity.
    + exists j. exact Hj.
Qed.

(** X18. With the default split on white space, every validation flag a
    load adds is True, whatever is written in the validation column (the
    flag is the truth value of the field as text, and a field between
    white space is never empty). This holds for every file and every
    choice of columns, and also when the load raises part way. *)
Theorem load_tdiff_whitespace_flags (o : Tdiff.radTdiff)
  (flines : list string) :
  exists k,
    Tdiff.validated (Tdiff.self (Tdiff.final (load_tdiff_ws o flines)))
    = Tdiff.validated o ++ repeat true k.
Proof.
  unfold Tdiff.load_tdiff.
  destruct (py_min _) as [lo|];
    [|exists 0%nat; cbn; rewrite app_nil_r; reflexivity].
  destruct (lo <? 0); [exists 0%nat; cbn; rewrite app_nil_r; reflexivity|].
  destruct (py_max _) as [max_col|];
    [|exists 0%nat; cbn; rewrite app_nil_r; reflexivity].
  destruct (load_lines_flags max_col flines
              {| Tdiff.self := o; Tdiff.bad_lines := 0;
                 Tdiff.log := [] |}) as [k Hk].
  exists k.
  destruct (load_lines_ws max_col _ flines) as [st|e st]; cbn in Hk |- *.
  - destruct (Tdiff.bad_lines st >? 0); exact Hk.
  - exact Hk.
Qed.

End WhitespaceFlags.

(** * Loading: the two results on columns, run on a file *)

(** Band column -2 with the other columns in order: the error is logged
    and nothing of the six-line file is read. *)
Lemma load_tdiff_negative_column_mixed_file :
  Tdiff.load_tdiff Sample.lib 3 4 (-2) 5 [0] [1] "%Y" None
    Sample.no_records Sample.mixed_file
  = Tdiff.Returns
      {| Tdiff.self := Sample.no_records; Tdiff.bad_lines := 0;
         Tdiff.log := [(ERROR, InvalidColumnNumber [3; 4; -2; 0; 1])] |}.
Proof.
  apply (load_tdiff_negative_column Sample.lib 3 4 (-2) 5 [0] [1] "%Y" None
           Sample.no_records Sample.mixed_file).
  unfold Tdiff.all_cols. cbn [app].
  right. right. left. lia.
Defined.

(** A file with a comment, a short line, a line whose start time is no
    year and two well-formed lines. *)
Lemma load_tdiff_parallel_clean_file :
  exists st,
    Tdiff.load_tdiff Sample.lib 3 4 2 5 [0] [1] "%Y" None Sample.no_records
      [Sample.line "2000 2001 3 7 1 1";
       Sample.line "# start end band tdiff err val";
       Sample.line "2000 2001";
       Sample.line "x 2001 3 7 1 1";
       Sample.line "2002 2003 4 8 2 1"]
    = Tdiff.Returns st
    /\ Spec.parallel (Tdiff.self st).
Proof.
  apply (load_tdiff_parallel Sample.lib 3 4 2 5 [0] [1] "%Y" None
           Sample.no_records _ 4).
  - unfold Spec.parallel. cbn. repeat split; reflexivity.
  - unfold Tdiff.all_cols. cbn [app]. repeat constructor; lia.
  - discriminate.
  - reflexivity.
  - intros fline Hin.
    repeat (destruct Hin as [Hin|Hin];
            [subst fline; vm_compute; intros H;
             first [discriminate H | split; reflexivity]|]).
    destruct Hin.
Defined.

(** * Records from the hardware files *)

Section Hardware.

Lemma records_of_app_one (bs : list Z) :
  forall (ss es : list datetime) (xs ys : list float) (vs : list bool)
         (b : Z) (s e : datetime) (x y : float) (v : bool),
    List.length ss = List.length bs -> List.length es = List.length bs ->
    List.length xs = List.length bs -> List.length ys = List.length bs ->
    List.length vs = List.length bs ->
    Spec.records_of (bs ++ [b]) (ss ++ [s]) (es ++ [e]) (xs ++ [x])
      (ys ++ [y]) (vs ++ [v])
    = Spec.records_of bs ss es xs ys vs
      ++ [{| Spec.band := b; Spec.startTime := s; Spec.endTime := e;
             Spec.estimateMicrosec := x; Spec.errorMicrosec := y;
             Spec.validated := v |}].
Proof.
  induction bs as [|b0 bs IH];
    intros [|s0 ss] [|e0 es] [|x0 xs] [|y0 ys] [|v0 vs] b s e x y v;
    cbn [List.length]; try discriminate; intros H1 H2 H3 H4 H5.
  - reflexivity.
  - cbn [app Spec.records_of]. f_equal. apply IH; lia.
Qed.

Lemma append_hardware_records (stime : datetime) (hard : Tdiff.site)
  (o : Tdiff.radTdiff) (tt : Z) :
  Spec.parallel o ->
  Spec.records (Tdiff.append_hardware stime hard o tt)
  = Spec.records o
    ++ [{| Spec.band := tt; Spec.startTime := stime;
           Spec.endTime := Tdiff.tval hard;
           Spec.estimateMicrosec := Tdiff.tdiff hard;
           Spec.errorMicrosec := nan; Spec.validated := true |}].
Proof.
  unfold Spec.parallel, len. intros [H1 [H2 [H3 [H4 H5]]]].
  unfold Spec.records, Tdiff.append_hardware. cbn.
  apply records_of_app_one; lia.
Qed.

Lemma fold_append_hardware_records (stime : datetime) (hard : Tdiff.site)
  (rad_tbands : list Z) :
  forall o,
    Spec.parallel o ->
    Spec.records (fold_left (Tdiff.append_hardware stime hard) rad_tbands o)
    = Spec.records o
      ++ map (fun tt =>
                {| Spec.band := tt; Spec.startTime := stime;
                   Spec.endTime := Tdiff.tval hard;
                   Spec.estimateMicrosec := Tdiff.tdiff hard;
                   Spec.errorMicrosec := nan; Spec.validated := true |})
           rad_tbands.
Proof.
  induction rad_tbands as [|tt rad_tbands IH]; intros o Ho.
  - cbn. rewrite app_nil_r. reflexivity.
  - cbn [fold_left map].
    rewrite IH by (apply append_hardware_parallel; exact Ho).
    rewrite (append_hardware_records stime hard o tt Ho), <- app_assoc.
    reflexivity.
Qed.

(** The two loops over revisions and bands add the records the hardware
    files stand for, after those the object holds. *)
Lemma hardware_sites_records (rad_tbands : list Z)
  (hards : list Tdiff.site) :
  forall stime o,
    Spec.parallel o ->
    Spec.records (Tdiff.hardware_sites rad_tbands stime o hards)
    = Spec.records o ++ Notions.hardware_records rad_tbands stime hards.
Proof.
  induction hards as [|hard hards IH]; intros stime o Ho.
  - cbn. rewrite app_nil_r. reflexivity.
  - cbn [Tdiff.hardware_sites Notions.hardware_records].
    rewrite IH by (apply fold_append_hardware_parallel; exact Ho).
    rewrite (fold_append_hardware_records stime hard rad_tbands o Ho),
      <- app_assoc.
    reflexivity.
Qed.

Lemma hardware_records_length (rad_tbands : list Z)
  (hards : list Tdiff.site) :
  forall stime,
    len (Notions.hardware_records rad_tbands stime hards)
    = len rad_tbands * len hards.
Proof.
  unfold len.
  induction hards as [|hard hards IH]; intros stime.
  - cbn. lia.
  - cbn [Notions.hardware_records List.length].
    rewrite length_app, length_map, Nat2Z.inj_add, IH. lia.
Qed.

Lemma records_length (o : Tdiff.radTdiff) :
  Spec.parallel o -> len (Spec.records o) = len (Tdiff.tbands o).
Proof.
  intros Ho. destruct (parallel_records o Ho) as [Eb _].
  transitivity (len (map Spec.band (Spec.records o))).
  - unfold len. rewrite length_map. reflexivity.
  - f_equal. symmetry. exact Eb.
Qed.

(** No record of the hardware files starts before the start time given
    to the first revision. *)
Lemma hardware_records_start (rad_tbands : list Z)
  (hards : list Tdiff.site) :
  forall stime,
    Notions.revisions_in_order stime hards ->
    Forall (fun r => stime <= Spec.startTime r)
      (Notions.hardware_records rad_tbands stime hards).
Proof.
  induction hards as [|hard hards IH]; intros stime Hord.
  - constructor.
  - cbn [Notions.hardware_records]. destruct Hord as [Hle Hord].
    apply Forall_app. split.
    + rewrite Forall_map. rewrite Forall_forall. intros tt _. cbn. lia.
    + apply (Forall_impl _ (P := fun r => Tdiff.tval hard
                                          <= Spec.startTime r));
        [intros r Hr; lia | apply IH; exact Hord].
Qed.

Lemma same_start_then_later (stime : datetime) (hard : Tdiff.site)
  (bands : list Z) (rest : list Spec.TdiffRecord) :
  StronglySorted (fun r1 r2 => Spec.startTime r1 <= Spec.startTime r2) rest ->
  Forall (fun r => stime <= Spec.startTime r) rest ->
  StronglySorted (fun r1 r2 => Spec.startTime r1 <= Spec.startTime r2)
    (map (fun tt =>
            {| Spec.band := tt; Spec.startTime := stime;
               Spec.endTime := Tdiff.tval hard;
               Spec.estimateMicrosec := Tdiff.tdiff hard;
               Spec.errorMicrosec := nan; Spec.validated := true |})
       bands ++ rest).
Proof.
  intros Hsorted Hlater.
  induction bands as [|tt bands IH]; [exact Hsorted|].
  cbn [map app]. constructor; [exact IH|].
  apply Forall_app. split.
  - rewrite Forall_map, Forall_forall. intros t _. cbn. lia.
  - exact Hlater.
Qed.

Lemma hardware_records_sorted (rad_tbands : list Z)
  (hards : list Tdiff.site) :
  forall stime,
    Notions.revisions_in_order stime hards ->
    StronglySorted (fun r1 r2 => Spec.startTime r1 <= Spec.startTime r2)
      (Notions.hardware_records rad_tbands stime hards).
Proof.
  induction hards as [|hard hards IH]; intros stime Hord.
  - constructor.
  - cbn [Notions.hardware_records]. destruct Hord as [Hle Hord].
    apply same_start_then_later; [apply IH; exact Hord|].
    apply (Forall_impl _ (P := fun r => Tdiff.tval hard
                                        <= Spec.startTime r));
      [intros r Hr; lia | apply hardware_records_start; exact Hord].
Qed.

Lemma StronglySorted_filter {A : Type} (R : A -> A -> Prop)
  (q : A -> bool) (l : list A) :
  StronglySorted R l -> StronglySorted R (filter q l).
Proof.
  induction 1 as [|x l Hl IH Hx]; [constructor|].
  cbn [filter]. destruct (q x); [|exact IH].
  constructor; [exact IH|]. apply Forall_filter_keep. exact Hx.
Qed.

Variable w : Tdiff.world.
Variable o : Tdiff.radTdiff.
Variable rad_hdw : Tdiff.hdw.
Variable rad_tbands : FreqBands.radFreqBands.

Hypothesis Hpar : Spec.parallel o.
Hypothesis Hhdw : Tdiff.radar w (Tdiff.rad_code o) = Ok rad_hdw.
Hypothesis Hbands :
  FreqBands.init (Tdiff.rad_code o) (Tdiff.today w) = Ok rad_tbands.

(** X19. When the hardware description of the radar is found and the band
    table is built, the hardware load returns; the six lists stay of one
    length, and the records added, after those the object held, are one
    for each revision and each band of the table: from the end of the
    revision before (the start time of the radar for the first) to the end
    of the revision, with the tdiff of the revision, NaN as its error and
    the flag True. Their number is bands times revisions. *)
Theorem load_hardware_tdiff_records :
  exists o',
    Tdiff.load_hardware_tdiff w o = Ok o'
    /\ Spec.parallel o'
    /\ Spec.records o'
       = Spec.records o
         ++ Notions.hardware_records (FreqBands.tbands rad_tbands)
              (Tdiff.stTime rad_hdw) (Tdiff.sites rad_hdw)
    /\ len (Tdiff.tbands o')
       = len (Tdiff.tbands o)
         + len (FreqBands.tbands rad_tbands) * len (Tdiff.sites rad_hdw).
Proof.
  unfold Tdiff.load_hardware_tdiff. rewrite Hhdw, Hbands. cbn [bind].
  eexists. split; [reflexivity|].
  pose proof (hardware_sites_parallel (FreqBands.tbands rad_tbands)
                (Tdiff.sites rad_hdw) (Tdiff.stTime rad_hdw) o Hpar) as Hp.
  pose proof (hardware_sites_records (FreqBands.tbands rad_tbands)
                (Tdiff.sites rad_hdw) (Tdiff.stTime rad_hdw) o Hpar) as Hr.
  split; [exact Hp|]. split; [exact Hr|].
  rewrite <- (records_length _ Hp), Hr, <- (records_length _ Hpar).
  unfold len at 1. rewrite length_app, Nat2Z.inj_add.
  fold (len (Spec.records o)).
  fold (len (Notions.hardware_records (FreqBands.tbands rad_tbands)
               (Tdiff.stTime rad_hdw) (Tdiff.sites rad_hdw))).
  rewrite hardware_records_length. reflexivity.
Qed.

Hypothesis Hempty : Tdiff.tbands o = [].
Hypothesis Hord :
  Notions.revisions_in_order (Tdiff.stTime rad_hdw) (Tdiff.sites rad_hdw).

(** X20. When the object holds no record before and the end times of the
    revisions do not decrease from the start time of the radar on, the
    records the hardware load leaves stand, for every band, in the order
    of their start times: the order in which [get_tdiff] finds the record
    in effect. *)
Theorem load_hardware_tdiff_in_start_order (b : Z) :
  exists o',
    Tdiff.load_hardware_tdiff w o = Ok o'
    /\ Spec.parallel o'
    /\ Notions.in_start_order (Spec.records o') b.
Proof.
  unfold Tdiff.load_hardware_tdiff. rewrite Hhdw, Hbands. cbn [bind].
  eexists. split; [reflexivity|].
  split; [apply hardware_sites_parallel; exact Hpar|].
  rewrite (hardware_sites_records (FreqBands.tbands rad_tbands)
             (Tdiff.sites rad_hdw) (Tdiff.stTime rad_hdw) o Hpar).
  assert (Hnone : Spec.records o = []).
  { unfold Spec.records. rewrite Hempty. reflexivity. }
  rewrite Hnone. cbn [app]. unfold Notions.in_start_order.
  apply StronglySorted_filter, hardware_records_sorted. exact Hord.
Qed.

End Hardware.

(** Radar han on 26 August 2016: 15 bands and two revisions give 30
    records. *)
Lemma load_hardware_tdiff_records_han :
  exists o',
    Tdiff.load_hardware_tdiff Sample.hardware_world Sample.no_records
    = Ok o'
    /\ len (Tdiff.tbands o') = 30.
Proof.
  assert (Hpar : Spec.parallel Sample.no_records)
    by (unfold Spec.parallel; cbn; repeat split; reflexivity).
  destruct (load_hardware_tdiff_records Sample.hardware_world
              Sample.no_records Sample.han_hardware _ Hpar eq_refl eq_refl)
    as [o' [Hload [_ [_ Hlen]]]].
  exists o'. split; [exact Hload|]. rewrite Hlen. reflexivity.
Defined.

(** The two revisions of [han_hardware] end in 2005 and 2030, after the
    start of the radar in 1995. *)
Lemma load_hardware_tdiff_in_start_order_han :
  exists o',
    Tdiff.load_hardware_tdiff Sample.hardware_world Sample.no_records
    = Ok o'
    /\ Spec.parallel o'
    /\ Notions.in_start_order (Spec.records o') 6.
Proof.
  assert (Hpar : Spec.parallel Sample.no_records)
    by (unfold Spec.parallel; cbn; repeat split; reflexivity).
  assert (Hord : Notions.revisions_in_order
                   (Tdiff.stTime Sample.han_hardware)
                   (Tdiff.sites Sample.han_hardware))
    by (cbn; split; [|split; [|exact I]]; vm_compute; discriminate).
  exact (load_hardware_tdiff_in_start_order Sample.hardware_world
           Sample.no_records Sample.han_hardware _ Hpar eq_refl eq_refl
           eq_refl Hord 6).
Defined.

(** * The constructor of radTdiff when nothing is loaded *)

Section NothingLoaded.

Variable w : Tdiff.world.
Variable f : string.
Variables tdiff_col terr_col tband_col val_col : Z.
Variables stime_cols etime_cols : list Z.
Variable time_fmt : string.
Variable split_col : option string.

Local Abbreviation init_with_file rad :=
  (Tdiff.init w rad (Some f) tdiff_col terr_col tband_col val_col
     stime_cols etime_cols time_fmt split_col).

(** X21. For a string that is the code of no radar, in any letter case,
    and a file name, the constructor logs the unknown radar and returns
    an object with no file and no record: the file is not read, whether
    it exists or not, and the hardware files are not read either. *)
Theorem init_unknown_code_reads_nothing (s : string) :
  (forall k, ~ In (k, str_lower s) FreqBands.id_to_code) ->
  init_with_file (PyStr s)
  = Ok ({| Tdiff.tdiff_file := None; Tdiff.rad_code := PyStr s;
           Tdiff.stid := None; Tdiff.tbands := []; Tdiff.stimes := [];
           Tdiff.etimes := []; Tdiff.est_tdiffs := [];
           Tdiff.tdiff_errs := []; Tdiff.validated := [] |},
        [(ERROR, UnknownRadar)]).
Proof.
  intros Hnone.
  destruct (find_stid_spec (dict_keys FreqBands.id_to_code) s)
    as [[k [_ [_ Hin]]]|[Hfind _]]; [intros k Hk; exact Hk | |].
  - destruct (Hnone k Hin).
  - unfold Tdiff.init, Tdiff.assign_ids. cbn [FreqBands.has_key].
    rewrite Hfind. reflexivity.
Qed.

(** X22. For a radar of the catalog, given by its station ID or by its
    code in lowercase, and the name of a file that does not exist, the
    constructor returns an object with no file and no record and logs
    nothing: it does not fall back on the hardware files. *)
Theorem init_missing_file_reads_nothing (n : Z) (code : string)
  (rad : pyval) :
  In (n, code) FreqBands.id_to_code ->
  rad = PyInt n \/ rad = PyStr code ->
  Tdiff.isfile w f = false ->
  init_with_file rad
  = Ok ({| Tdiff.tdiff_file := None; Tdiff.rad_code := PyStr code;
           Tdiff.stid := Some n; Tdiff.tbands := []; Tdiff.stimes := [];
           Tdiff.etimes := []; Tdiff.est_tdiffs := [];
           Tdiff.tdiff_errs := []; Tdiff.validated := [] |}, []).
Proof.
  intros Hin Hrad Hfile.
  assert (Hids : Tdiff.assign_ids rad = Ok (PyStr code, Some n)).
  { destruct Hrad as [-> | ->].
    - pose proof (assign_ids_station n code Hin) as H.
      unfold FreqBands.assign_ids in H. unfold Tdiff.assign_ids.
      destruct (FreqBands.has_key (PyInt n)); [exact H | discriminate H].
    - assert (Hlow : str_lower code = code).
      { clear - Hin. simpl in Hin.
        repeat (destruct Hin as [Hin|Hin];
                [injection Hin as <- <-; reflexivity|]).
        destruct Hin. }
      exact (assign_ids_code n code code Hin Hlow). }
  unfold Tdiff.init. rewrite Hids. cbn [bind Tdiff.is_none orb].
  rewrite Hfile. reflexivity.
Qed.

End NothingLoaded.

Lemma init_unknown_code_reads_nothing_xyz :
  Tdiff.init (Sample.world_with Sample.mixed_file) (PyStr "XYZ")
    (Some "han.tdiff") 3 4 2 5 [0] [1] "%Y" None
  = Ok ({| Tdiff.tdiff_file := None; Tdiff.rad_code := PyStr "XYZ";
           Tdiff.stid := None; Tdiff.tbands := []; Tdiff.stimes := [];
           Tdiff.etimes := []; Tdiff.est_tdiffs := [];
           Tdiff.tdiff_errs := []; Tdiff.validated := [] |},
        [(ERROR, UnknownRadar)]).
Proof.
  apply (init_unknown_code_reads_nothing (Sample.world_with Sample.mixed_file)
           "han.tdiff" 3 4 2 5 [0] [1] "%Y" None "XYZ").
  intros k Hin. simpl in Hin.
  repeat (destruct Hin as [Hin|Hin]; [discriminate Hin|]).
  exact Hin.
Defined.

(** [hardware_world] has no calibration file under any name. *)
Lemma init_missing_file_reads_nothing_han :
  Tdiff.init Sample.hardware_world (PyInt 10) (Some "han.tdiff") 3 4 2 5
    [0] [1] "%Y" None
  = Ok ({| Tdiff.tdiff_file := None; Tdiff.rad_code := PyStr "han";
           Tdiff.stid := Some 10; Tdiff.tbands := []; Tdiff.stimes := [];
           Tdiff.etimes := []; Tdiff.est_tdiffs := [];
           Tdiff.tdiff_errs := []; Tdiff.validated := [] |}, []).
Proof.
  apply (init_missing_file_reads_nothing Sample.hardware_world "han.tdiff"
           3 4 2 5 [0] [1] "%Y" None 10 "han" (PyInt 10)).
  - vm_compute. tauto.
  - left. reflexivity.
  - reflexivity.
Defined.

(** * Loading with the empty string as separator *)

Section EmptySeparator.

Variable lib : pylib.
Variables tdiff_col terr_col tband_col val_col : Z.
Variables stime_cols etime_cols : list Z.
Variable time_fmt : string.

Local Abbreviation load_tdiff_empty :=
  (Tdiff.load_tdiff lib tdiff_col terr_col tband_col val_col stime_cols
     etime_cols time_fmt (Some "")).
Local Abbreviation load_lines_empty :=
  (Tdiff.load_lines lib tdiff_col terr_col tband_col val_col stime_cols
     etime_cols time_fmt (Some "")).

Lemma load_lines_empty_separator (max_col : Z) (st : Tdiff.loading)
  (flines : list string) :
  Exists (fun fline => Notions.data_line fline = true) flines ->
  load_lines_empty max_col st flines = Tdiff.Raises ValueError st.
Proof.
  induction flines as [|fline flines IH]; intros Hdata;
    [inversion Hdata|].
  cbn [Tdiff.load_lines]. unfold Tdiff.load_line.
  destruct (str_find fline "#" <? 0) eqn:Hd; [reflexivity|].
  apply IH. inversion Hdata as [? ? Hhere|? ? Hlater]; subst;
    [|exact Hlater].
  unfold Notions.data_line in Hhere. congruence.
Qed.

(** X23. With the empty string as separator and no negative tdiff, error,
    band or time column, a file with at least one line free of the comment
    marker makes the load raise [ValueError] at the first such line, with
    the object unchanged and nothing logged or counted. *)
Theorem load_tdiff_empty_separator (o : Tdiff.radTdiff)
  (flines : list string) :
  Forall (fun c => 0 <= c)
    (Tdiff.all_cols tdiff_col terr_col tband_col stime_cols etime_cols) ->
  Exists (fun fline => Notions.data_line fline = true) flines ->
  load_tdiff_empty o flines
  = Tdiff.Raises ValueError
      {| Tdiff.self := o; Tdiff.bad_lines := 0; Tdiff.log := [] |}.
Proof.
  intros Hcols Hdata.
  destruct (py_min_nonneg
              (Tdiff.all_cols tdiff_col terr_col tband_col stime_cols
                 etime_cols)) as [lo [Hmin Hlo]];
    [discriminate | exact Hcols |].
  unfold Tdiff.load_tdiff. rewrite Hmin.
  destruct (Z.ltb_spec lo 0) as [H|_]; [lia|].
  unfold Tdiff.all_cols. cbn [app py_max].
  rewrite (load_lines_empty_separator _ _ flines Hdata). reflexivity.
Qed.

End EmptySeparator.

Lemma load_tdiff_empty_separator_mixed_file :
  Tdiff.load_tdiff Sample.lib 3 4 2 5 [0] [1] "%Y" (Some "")
    Sample.no_records Sample.mixed_file
  = Tdiff.Raises ValueError
      {| Tdiff.self := Sample.no_records; Tdiff.bad_lines := 0;
         Tdiff.log := [] |}.
Proof.
  apply (load_tdiff_empty_separator Sample.lib 3 4 2 5 [0] [1] "%Y"
           Sample.no_records Sample.mixed_file).
  - unfold Tdiff.all_cols. cbn [app]. repeat constructor; lia.
  - left. reflexivity.
Defined.
